(** * Fault-injection results plotter: parser and chart layout

    A shallow embedding of the two scripts of the repository,
    [plot_results.py] (report parser and renderer) and [plot.py]
    (hardcoded dataset and renderer), and the properties of the
    specification proved over it.

    Modelling conventions.
    - Python [str] is [string].  The text is 7-bit ASCII; the character
      classes [\w], [\d], [\s] and the methods [strip], [title],
      [upper], [lower] are Python's on that range.
    - Python [int] is [Z], of any size: the interpreter's optional limit
      on the number of digits of a literal is not part of the model.
    - Chart geometry is in [Q]: the positions the scripts compute
      ([i - 0.5], [(start + i - 1) / 2], [height / 2]) are taken as
      exact rationals, the rounding of floating point left aside.
    - A run of a function is the list of the observable events it
      performs ([print], calls to the drawing backend, files written)
      with its result: a returned value or a raised exception.
    - The parser starts from the text of the file; opening the file and
      the command line are outside the model.

    The definitions come first, the properties after them. *)

From Stdlib Require Import String Ascii List Bool Arith ZArith NArith QArith Lia.
From Stdlib Require Import DecimalString DecimalN.
Import ListNotations.
Local Open Scope string_scope.
Local Open Scope list_scope.
Local Open Scope Z_scope.

(** ** Characters *)

Definition LF : ascii := ascii_of_nat 10.

Definition code (c : ascii) : nat := nat_of_ascii c.

Definition between (lo hi : nat) (c : ascii) : bool :=
  (Nat.leb lo (code c)) && (Nat.leb (code c) hi).

(** [\d] *)
Definition is_digit (c : ascii) : bool := between 48 57 c.

Definition is_upper (c : ascii) : bool := between 65 90 c.

Definition is_lower (c : ascii) : bool := between 97 122 c.

(** [\w]: letters, digits and the underscore *)
Definition is_word (c : ascii) : bool :=
  is_digit c || is_upper c || is_lower c || Ascii.eqb c "_".

(** [\s] and [str.isspace]: tab, LF, VT, FF, CR, the separators 28..31
    and the space *)
Definition is_space (c : ascii) : bool :=
  between 9 13 c || between 28 32 c.

Definition to_upper (c : ascii) : ascii :=
  if is_lower c then ascii_of_nat (code c - 32) else c.

Definition to_lower (c : ascii) : ascii :=
  if is_upper c then ascii_of_nat (code c + 32) else c.

(** ** Python string built-ins *)

Module Str.

(** [c in s] *)
Fixpoint contains (c : ascii) (s : string) : bool :=
  match s with
  | EmptyString => false
  | String a s' => Ascii.eqb a c || contains c s'
  end.

(** [s.split(sep)] for a one-character separator: never empty *)
Fixpoint split (sep : ascii) (s : string) : list string :=
  match s with
  | EmptyString => [EmptyString]
  | String c s' =>
      if Ascii.eqb c sep then EmptyString :: split sep s'
      else match split sep s' with
           | h :: t => String c h :: t
           | [] => [String c EmptyString]
           end
  end.

Fixpoint lstrip (s : string) : string :=
  match s with
  | EmptyString => EmptyString
  | String c s' => if is_space c then lstrip s' else s
  end.

Fixpoint rstrip (s : string) : string :=
  match s with
  | EmptyString => EmptyString
  | String c s' =>
      match rstrip s' with
      | EmptyString => if is_space c then EmptyString else String c EmptyString
      | r => String c r
      end
  end.

(** [s.strip()] *)
Definition strip (s : string) : string := rstrip (lstrip s).

(** [s.replace(a, b)] for one-character [a] and [b] *)
Fixpoint replace (a b : ascii) (s : string) : string :=
  match s with
  | EmptyString => EmptyString
  | String c s' => String (if Ascii.eqb c a then b else c) (replace a b s')
  end.

(** [s.upper()] *)
Fixpoint upper (s : string) : string :=
  match s with
  | EmptyString => EmptyString
  | String c s' => String (to_upper c) (upper s')
  end.

(** [s.lower()] *)
Fixpoint lower (s : string) : string :=
  match s with
  | EmptyString => EmptyString
  | String c s' => String (to_lower c) (lower s')
  end.

(** [s.title()]: a cased character is upper-cased when it follows an
    uncased one (or starts the string) and lower-cased otherwise. *)
Fixpoint title_from (prev_cased : bool) (s : string) : string :=
  match s with
  | EmptyString => EmptyString
  | String c s' =>
      if is_lower c then
        String (if prev_cased then c else to_upper c) (title_from true s')
      else if is_upper c then
        String (if prev_cased then to_lower c else c) (title_from true s')
      else String c (title_from false s')
  end.

Definition title (s : string) : string := title_from false s.

(** The longest prefix whose characters satisfy [p], and the rest. *)
Fixpoint span (p : ascii -> bool) (s : string) : string * string :=
  match s with
  | EmptyString => (EmptyString, EmptyString)
  | String c s' =>
      if p c then let (a, b) := span p s' in (String c a, b)
      else (EmptyString, s)
  end.

(** [s.startswith(p)], returning what follows the prefix. *)
Fixpoint strip_prefix (p s : string) : option string :=
  match p, s with
  | EmptyString, _ => Some s
  | String a p', String b s' =>
      if Ascii.eqb a b then strip_prefix p' s' else None
  | String _ _, EmptyString => None
  end.

(** The digits of an integer literal after its sign: decimal digits,
    single underscores allowed between two digits. *)
Fixpoint int_digits (prev_digit : bool) (s : string) : option string :=
  match s with
  | EmptyString => if prev_digit then Some EmptyString else None
  | String c s' =>
      if is_digit c then option_map (String c) (int_digits true s')
      else if Ascii.eqb c "_" && prev_digit then int_digits false s'
      else None
  end.

Definition digits_value (ds : string) : option Z :=
  match int_digits false ds with
  | Some d =>
      match NilEmpty.uint_of_string d with
      | Some u => Some (Z.of_N (N.of_uint u))
      | None => None
      end
  | None => None
  end.

(** [int(s)]: surrounding whitespace is ignored, then an optional sign
    and the digits; [None] stands for [ValueError]. *)
Definition int (s : string) : option Z :=
  match strip s with
  | EmptyString => None
  | String c r =>
      if Ascii.eqb c "-" then option_map Z.opp (digits_value r)
      else if Ascii.eqb c "+" then digits_value r
      else digits_value (String c r)
  end.

(** [str(n)] for an integer *)
Definition of_N (n : N) : string := NilEmpty.string_of_uint (N.to_uint n).

Definition of_Z (z : Z) : string :=
  if z <? 0 then String "-" (of_N (Z.abs_N z)) else of_N (Z.to_N z).

End Str.

(** ** The regular expressions of the parser

    Each pattern of the source is embedded as the matcher it denotes.
    None of them needs backtracking: a greedy class run is followed by a
    character outside the class, so giving characters back cannot help. *)

Module Re.

(** [re.search(r'(\d+)\s*%', s)] tried at one start position: group 1. *)
Definition pct_here (s : string) : option string :=
  let (ds, r) := Str.span is_digit s in
  match ds with
  | EmptyString => None
  | String _ _ =>
      match snd (Str.span is_space r) with
      | String c _ => if Ascii.eqb c "%" then Some ds else None
      | EmptyString => None
      end
  end.

(** [re.search(r'(\d+)\s*%', s)]: the leftmost start position that
    matches; the result is group 1. *)
Fixpoint pct_search (s : string) : option string :=
  match pct_here s with
  | Some g => Some g
  | None =>
      match s with
      | EmptyString => None
      | String _ s' => pct_search s'
      end
  end.

(** [re.match(r'(\w+)/(\w+)', s)]: anchored at the start of [s] only;
    the result is (group 1, group 2). *)
Definition label_match (s : string) : option (string * string) :=
  let (d, r) := Str.span is_word s in
  match d, r with
  | String _ _, String c r' =>
      if Ascii.eqb c "/" then
        match fst (Str.span is_word r') with
        | EmptyString => None
        | a => Some (d, a)
        end
      else None
  | _, _ => None
  end.

(** What follows the leftmost occurrence of [lit] in [s]. *)
Fixpoint after_first (lit s : string) : option string :=
  match Str.strip_prefix lit s with
  | Some r => Some r
  | None =>
      match s with
      | EmptyString => None
      | String _ s' => after_first lit s'
      end
  end.

Definition blank_line : string := String LF (String LF EmptyString).

(** [(.*?)(?:\n\n|\Z)] under [re.DOTALL]: the text up to the first
    empty line, or all of it. *)
Fixpoint until_blank (s : string) : string :=
  match Str.strip_prefix blank_line s with
  | Some _ => EmptyString
  | None =>
      match s with
      | EmptyString => EmptyString
      | String c s' => String c (until_blank s')
      end
  end.

(** [re.search(r'Fault Injection Results:(.*?)(?:\n\n|\Z)', content,
    re.DOTALL)]: group 1. *)
Definition section_search (content : string) : option string :=
  option_map until_blank (after_first "Fault Injection Results:" content).

End Re.

(** ** Runs: events, results and exceptions *)

Inductive exn : Type := ValueError | IndexError.

(** Vertical alignment of a text, the [va] argument of [ax.text] *)
Inductive valign : Type := Center | Bottom.

(** The observable actions of the scripts: standard output, the calls
    to the drawing backend, and the files written. *)
Inductive event : Type :=
| Print (s : string)
| Bar (xs heights : list Z) (width : Q) (bottoms : option (list Z))
| Text (x y : Q) (s : string) (va : valign)
| AxVLine (x : Q)
| AxHLine (y : Q)
| PlotLine (x0 y0 x1 y1 : Q)
| SetYLim (lo hi : Z)
| SetXTickLabels (labels : list string)
| Legend (entries : list string)
| SaveFig (file : string)
| WriteFile (file : string) (lines : list string).

Inductive result (A : Type) : Type :=
| Return (a : A)
| Raise (e : exn).
Arguments Return {A} a.
Arguments Raise {A} e.

Definition Py (A : Type) : Type := (list event * result A)%type.

Definition ret {A} (a : A) : Py A := ([], Return a).

Definition raise {A} (e : exn) : Py A := ([], Raise e).

Definition emit (e : event) : Py unit := ([e], Return tt).

Definition bind {A B} (m : Py A) (k : A -> Py B) : Py B :=
  match m with
  | (t, Return a) => let (t', r) := k a in (t ++ t', r)
  | (t, Raise e) => (t, Raise e)
  end.

Declare Scope py_scope.
Delimit Scope py_scope with py.
Notation "x <- m ;; k" := (bind m (fun x => k))
  (at level 61, m at next level, right associativity) : py_scope.
Notation "m ;; k" := (bind m (fun _ => k))
  (at level 61, right associativity) : py_scope.
Local Open Scope py_scope.

Definition trace {A} (m : Py A) : list event := fst m.

Definition outcome {A} (m : Py A) : result A := snd m.

(** [for a in l: s = body(a, s)] *)
Fixpoint for_each {A S} (l : list A) (body : A -> S -> Py S) (s : S) : Py S :=
  match l with
  | [] => ret s
  | a :: l' => s' <- body a s ;; for_each l' body s'
  end.

(** [int(s)] as a statement: the value, or [ValueError]. *)
Definition int_of (s : string) : Py Z :=
  match Str.int s with
  | Some z => ret z
  | None => raise ValueError
  end.

(** The files a run has written, in order. *)
Definition files_of (t : list event) : list string :=
  flat_map (fun e => match e with
                     | SaveFig f => [f]
                     | WriteFile f _ => [f]
                     | _ => []
                     end) t.

(** What a run has printed, in order. *)
Definition printed (t : list event) : list string :=
  flat_map (fun e => match e with Print s => [s] | _ => [] end) t.


(** ** The drawing backend

    What the scripts rely on from matplotlib and numpy: [ax.bar] draws
    one rectangle per position, centered on it, from [bottom] up by
    [height], and returns the rectangles. *)

Record rect : Type := mk_rect {
  center : Z;
  bottom : Z;
  height : Z;
  rwidth : Q
}.

(** [p.get_x()]: the left edge *)
Definition get_x (p : rect) : Q := (inject_Z (center p) - rwidth p / 2)%Q.

Definition get_width (p : rect) : Q := rwidth p.

Definition get_height (p : rect) : Z := height p.

(** The upper edge of a rectangle *)
Definition top (p : rect) : Z := bottom p + height p.

(** [zip] *)
Fixpoint zip {A B} (l : list A) (l' : list B) : list (A * B) :=
  match l, l' with
  | a :: t, b :: t' => (a, b) :: zip t t'
  | _, _ => []
  end.

(** [enumerate(l, start)] *)
Fixpoint enumerate {A} (start : Z) (l : list A) : list (Z * A) :=
  match l with
  | [] => []
  | a :: l' => (start, a) :: enumerate (start + 1) l'
  end.

(** [np.arange(n)] *)
Definition arange (n : nat) : list Z := map Z.of_nat (seq 0 n).

(** The rectangles of [ax.bar(xs, heights, width, bottom=bottoms)];
    without [bottom] every bar starts at 0. *)
Definition rectangles (xs heights : list Z) (width : Q)
    (bottoms : option (list Z)) : list rect :=
  match bottoms with
  | None => map (fun '(x, h) => mk_rect x 0 h width) (zip xs heights)
  | Some bs =>
      map (fun '(x, h, b) => mk_rect x b h width) (zip (zip xs heights) bs)
  end.

Definition ax_bar (xs heights : list Z) (width : Q)
    (bottoms : option (list Z)) : Py (list rect) :=
  emit (Bar xs heights width bottoms) ;;
  ret (rectangles xs heights width bottoms).

(** [d.get(k, default)] on a dict given by its items *)
Fixpoint dict_get (d : list (string * string)) (k default : string) : string :=
  match d with
  | [] => default
  | (k', v) :: d' => if String.eqb k' k then v else dict_get d' k default
  end.

(** [l[0]] *)
Definition first {A} (l : list A) : Py A :=
  match l with
  | [] => raise IndexError
  | a :: _ => ret a
  end.

(** [i - 0.5] *)
Definition minus_half (i : Z) : Q := (inject_Z i - (1 # 2))%Q.

(** [z / 2], true division *)
Definition half (z : Z) : Q := (inject_Z z / 2)%Q.

(** [d != current_driver], where [current_driver] may be [None] *)
Definition differs (d : string) (current : option string) : bool :=
  match current with
  | None => true
  | Some c => negb (String.eqb d c)
  end.

(** ** [plot_results.py]: the report parser *)

Module plot_results.

(** One entry of [results], the dict built at the end of the loop body. *)
Record entry : Type := mk_entry {
  driver : string;
  app : string;
  display_name : string;
  trials : Z;
  auto_pct : Z;
  manual_pct : Z;
  failed_pct : Z
}.

(** [app.replace('_', ' ').title()], with the one override of the source. *)
Definition readable_app (app : string) : string :=
  if String.eqb app "mp3_player" then "MP3 Player"
  else Str.title (Str.replace "_" " " app).

(** [[line for line in lines if '|' in line][2:]] *)
Definition data_lines (lines : list string) : list string :=
  skipn 2 (filter (Str.contains "|") lines).

(** The body of [for line in data_lines], as a function of the list
    [results] accumulated so far. *)
Definition parse_line (line : string) (results : list entry) : Py (list entry) :=
  let parts := Str.split "|" line in
  if Nat.leb 5 (length parts) then
    let app_driver := Str.strip (nth 0 parts "") in
    trials <- int_of (Str.strip (nth 1 parts "")) ;;
    let auto_match := Re.pct_search (Str.strip (nth 2 parts "")) in
    let manual_match := Re.pct_search (Str.strip (nth 3 parts "")) in
    let failed_match := Re.pct_search (Str.strip (nth 4 parts "")) in
    match auto_match, manual_match, failed_match with
    | Some a, Some m, Some f =>
        auto_pct <- int_of a ;;
        manual_pct <- int_of m ;;
        failed_pct <- int_of f ;;
        match Re.label_match app_driver with
        | Some (driver, app) =>
            ret (results ++
                 [mk_entry driver app (readable_app app) trials
                           auto_pct manual_pct failed_pct])
        | None => ret results
        end
    | _, _, _ =>
        emit (Print ("Warning: Could not parse percentages from line: " ++ line)) ;;
        ret results
    end
  else ret results.

(** [parse_results], from the text read from the file on: [None] when
    the section is missing, the entries otherwise. *)
Definition parse_results (content : string) : Py (option (list entry)) :=
  emit (Print "Parsing results file...") ;;
  match Re.section_search content with
  | None =>
      emit (Print "Error: Results section not found in the file!") ;;
      ret None
  | Some body =>
      let lines := Str.split LF (Str.strip body) in
      results <- for_each (data_lines lines) parse_line [] ;;
      emit (Print ("Found " ++ Str.of_Z (Z.of_nat (length results))
                   ++ " result entries.")) ;;
      ret (Some results)
  end.


(** *** [plot_results.py]: the renderer *)

Definition driver_names : list (string * string) :=
  [("snd", "Sound"); ("e1000", "Network"); ("ide", "IDE")].

(** [[driver_names.get(d, d.upper()) for d in raw_drivers]] *)
Definition categories (raw_drivers : list string) : list string :=
  map (fun d => dict_get driver_names d (Str.upper d)) raw_drivers.

(** The text of a category label; [current_driver] is never [None]
    where a label is drawn. *)
Definition label_text (current_driver : option string) : string :=
  match current_driver with
  | Some c => c
  | None => ""
  end.

Definition csv_row (r : entry) : string :=
  driver r ++ "," ++ app r ++ "," ++ Str.of_Z (trials r) ++ ","
  ++ Str.of_Z (auto_pct r) ++ "," ++ Str.of_Z (manual_pct r) ++ ","
  ++ Str.of_Z (failed_pct r) ++ String LF "".

(** The body of [for i, p in enumerate(p1)]: the number inside the
    automatic-recovery bar. *)
Definition overlay_step (auto_recovery : list Z) (ip : Z * rect) (_ : unit) : Py unit :=
  let '(i, p) := ip in
  let height := get_height p in
  if 0 <? height then
    emit (Text (get_x p + get_width p / 2)%Q (half height)
               (Str.of_Z (nth (Z.to_nat i) auto_recovery 0)) Center)
  else ret tt.

(** The body of [for i, d in enumerate(drivers[1:], 1)], on the state
    [(separator_positions, current_driver)]. *)
Definition separator_step (id : Z * string) (st : list Q * string)
    : Py (list Q * string) :=
  let '(i, d) := id in
  let '(separator_positions, current_driver) := st in
  if negb (String.eqb d current_driver) then
    ret (separator_positions ++ [minus_half i], d)
  else ret (separator_positions, current_driver).

(** The body of [for i, d in enumerate(drivers)], on the state
    [(current_driver, start_pos)]. *)
Definition label_step (id : Z * string) (st : option string * Z)
    : Py (option string * Z) :=
  let '(i, d) := id in
  let '(current_driver, start_pos) := st in
  if differs d current_driver then
    match current_driver with
    | Some c =>
        emit (Text (half (start_pos + i - 1)) 105 c Bottom) ;;
        emit (PlotLine (minus_half start_pos) 104 (minus_half i) 104)
    | None => ret tt
    end ;;
    ret (Some d, i)
  else ret (current_driver, start_pos).

(** [create_graph].  Styling calls that draw no bar, text or line
    (style sheet, title, axis label, ticks, footer, layout, [plt.show])
    and the unused list [unique_drivers] are left out; output files are
    named relative to the script directory. *)
Definition create_graph (results : list entry) : Py unit :=
  match results with
  | [] => emit (Print "No results to plot!") ;; ret tt
  | _ :: _ =>
      emit (Print "Generating graph...") ;;
      let apps := map display_name results in
      let auto_recovery := map auto_pct results in
      let manual_recovery := map manual_pct results in
      let failed_recovery := map failed_pct results in
      let raw_drivers := map driver results in
      let drivers := categories raw_drivers in
      let x := arange (length apps) in
      let width := (8 # 10)%Q in
      p1 <- ax_bar x auto_recovery width None ;;
      p2 <- ax_bar x manual_recovery width (Some auto_recovery) ;;
      p3 <- ax_bar x failed_recovery width
              (Some (map (fun '(a, m) => a + m) (zip auto_recovery manual_recovery))) ;;
      for_each (enumerate 0 p1) (overlay_step auto_recovery) tt ;;
      emit (SetYLim 0 100) ;;
      emit (SetXTickLabels apps) ;;
      current_driver <- first drivers ;;
      st <- for_each (enumerate 1 (tl drivers)) separator_step ([], current_driver) ;;
      for_each (fst st) (fun pos _ => emit (AxVLine pos)) tt ;;
      st <- for_each (enumerate 0 drivers) label_step (None, 0) ;;
      let '(current_driver, start_pos) := st in
      let n := Z.of_nat (length drivers) in
      emit (Text (half (start_pos + n - 1)) 105 (label_text current_driver) Bottom) ;;
      emit (PlotLine (minus_half start_pos) 104 (minus_half n) 104) ;;
      emit (SetYLim 0 110) ;;
      emit (Legend ["Automatic Recovery"; "Manual Recovery"; "Failed Recovery"]) ;;
      emit (SaveFig "fault_injection_outcomes.png") ;;
      emit (Print "Graph saved to: fault_injection_outcomes.png") ;;
      emit (WriteFile "fault_injection_results.csv"
              (("Driver,Application,Total Trials,Automatic Recovery %,"
                ++ "Manual Recovery %,Failed Recovery %" ++ String LF "")%string
               :: map csv_row results)) ;;
      emit (Print "CSV data saved to: fault_injection_results.csv")
  end.

(** The script run on the text of the results file. *)
Definition main (content : string) : Py unit :=
  results <- parse_results content ;;
  match results with
  | Some (r :: rs) => create_graph (r :: rs)
  | _ => emit (Print "Failed to parse results. Check the format of the results file.")
  end.

End plot_results.

(** ** [plot.py]: the hardcoded dataset and its renderer *)

Module plot.

Record entry : Type := mk_entry {
  driver : string;
  app : string;
  display_name : string;
  total_trials : Z;
  auto_pct : Z;
  manual_pct : Z;
  failed_pct : Z
}.

Definition simulation_results : list entry :=
  [ mk_entry "snd" "mp3_player" "MP3 Player" 100 79 16 5;
    mk_entry "snd" "audio_recorder" "Audio Recorder" 100 44 56 0;
    mk_entry "e1000" "network_file_transfer" "Network File Transfer" 100 97 3 0;
    mk_entry "e1000" "network_analyzer" "Network Analyzer" 100 76 24 0;
    mk_entry "ide" "compiler" "Compiler" 100 38 58 4;
    mk_entry "ide" "database" "Database" 100 58 38 4 ].

Definition driver_names : list (string * string) :=
  [("snd", "Sound"); ("e1000", "Network"); ("ide", "IDE")].

(** [[driver_names.get(d, d.upper()) for d in raw_drivers]] *)
Definition categories (raw_drivers : list string) : list string :=
  map (fun d => dict_get driver_names d (Str.upper d)) raw_drivers.

(** The text of a category label; [current_driver] is never [None]
    where a label is drawn. *)
Definition label_text (current_driver : option string) : string :=
  match current_driver with
  | Some c => c
  | None => ""
  end.

Definition summary_line (r : entry) : string :=
  display_name r ++ " (" ++ driver r ++ "): " ++ Str.of_Z (auto_pct r)
  ++ "% auto, " ++ Str.of_Z (manual_pct r) ++ "% manual, "
  ++ Str.of_Z (failed_pct r) ++ "% failed".

(** The body of [for i, v in enumerate(auto_pcts)]: the number inside
    the automatic-recovery bar. *)
Definition overlay_step (iv : Z * Z) (_ : unit) : Py unit :=
  let '(i, v) := iv in
  emit (Text (inject_Z i) (half v) (Str.of_Z v) Center).

(** The body of [for i, d in enumerate(drivers[1:], 1)], on the state
    [current_driver]. *)
Definition separator_step (id : Z * string) (current_driver : string) : Py string :=
  let '(i, d) := id in
  if negb (String.eqb d current_driver) then
    emit (AxVLine (minus_half i)) ;; ret d
  else ret current_driver.

(** The body of [for i, d in enumerate(drivers)], on the state
    [(current_driver, start_pos)]. *)
Definition label_step (id : Z * string) (st : option string * Z)
    : Py (option string * Z) :=
  let '(i, d) := id in
  let '(current_driver, start_pos) := st in
  if differs d current_driver then
    match current_driver with
    | Some c => emit (Text (half (start_pos + i - 1)) 105 c Bottom)
    | None => ret tt
    end ;;
    ret (Some d, i)
  else ret (current_driver, start_pos).

(** [create_graph].  Styling calls that draw no bar, text or line are
    left out; output files are named relative to the script directory. *)
Definition create_graph (results : list entry) : Py unit :=
  emit (Print "Generating graph based on simulation results...") ;;
  let apps := map app results in
  let auto_pcts := map auto_pct results in
  let manual_pcts := map manual_pct results in
  let failed_pcts := map failed_pct results in
  let raw_drivers := map driver results in
  let drivers := categories raw_drivers in
  let x := arange (length apps) in
  let width := (6 # 10)%Q in
  let manual_bottom := auto_pcts in
  let failed_bottom := map (fun '(a, m) => a + m) (zip auto_pcts manual_pcts) in
  p1 <- ax_bar x auto_pcts width None ;;
  p2 <- ax_bar x manual_pcts width (Some manual_bottom) ;;
  p3 <- ax_bar x failed_pcts width (Some failed_bottom) ;;
  for_each (enumerate 0 auto_pcts) overlay_step tt ;;
  emit (SetYLim 0 100) ;;
  let paper_style_names := map (fun a => Str.lower (Str.replace "_" " " a)) apps in
  emit (SetXTickLabels paper_style_names) ;;
  current_driver <- first drivers ;;
  for_each (enumerate 1 (tl drivers)) separator_step current_driver ;;
  st <- for_each (enumerate 0 drivers) label_step (None, 0) ;;
  let '(current_driver, start_pos) := st in
  let n := Z.of_nat (length drivers) in
  emit (Text (half (start_pos + n - 1)) 105 (label_text current_driver) Bottom) ;;
  emit (AxHLine 100) ;;
  emit (Legend ["Automatic Recovery"; "Manual Recovery"; "Failed Recovery"]) ;;
  emit (SaveFig "fault_injection_outcomes.png") ;;
  emit (Print "Graph saved to: fault_injection_outcomes.png") ;;
  emit (SaveFig "fault_injection_outcomes.pdf") ;;
  emit (Print "PDF saved to: fault_injection_outcomes.pdf") ;;
  emit (Print (String LF "Simulation Results Summary:")) ;;
  emit (Print "-------------------------") ;;
  for_each results (fun r _ => emit (Print (summary_line r))) tt.

(** The script. *)
Definition main : Py unit :=
  emit (Print "Creating graph based on our simulation results") ;;
  create_graph simulation_results ;;
  emit (Print (String LF "Done! The graph shows our simulation results that match the paper trends.")).

End plot.

(** ** Sample inputs *)

Local Open Scope string_scope.

(** Lines joined by line feeds. *)
Fixpoint unlines (l : list string) : string :=
  match l with
  | [] => ""
  | [s] => s
  | s :: l' => s ++ String LF (unlines l')
  end.

Definition sample_report : string :=
  unlines [ "Shadow driver test report";
            "";
            "Fault Injection Results:";
            "Application | Trials | Automatic | Manual | Failed";
            "------------|--------|-----------|--------|-------";
            "snd/mp3_player | 100 | 79% | 16% | 5%";
            "snd/audio_recorder | 100 | 44% | 56% | 0%";
            "";
            "End of report" ].

Definition bad_trials_report : string :=
  unlines [ "Fault Injection Results:";
            "Application | Trials | Automatic | Manual | Failed";
            "------------|--------|-----------|--------|-------";
            "snd/mp3_player | 100 | 79% | 16% | 5%";
            "snd/audio_recorder | n/a | 44% | 56% | 0%";
            "ide/compiler | 100 | 38% | 58% | 4%" ].


(** A section with a single line containing a separator *)
Definition header_only_report : string :=
  unlines [ "Fault Injection Results:";
            "Application | Trials | Automatic | Manual | Failed";
            "no table in this run" ].

(** A table whose first row has three columns *)
Definition short_row_report : string :=
  unlines [ "Fault Injection Results:";
            "Application | Trials | Automatic | Manual | Failed";
            "------------|--------|-----------|--------|-------";
            "snd/mp3_player | 100 | 79%";
            "snd/audio_recorder | 100 | 44% | 56% | 0%" ].

(** ** Reports generated from entries *)

Definition section_header : string := "Fault Injection Results:".

(** One table row, [driver/app | trials | auto% | manual% | failed%]. *)
Definition render_row (r : plot_results.entry) : string :=
  plot_results.driver r ++ "/" ++ plot_results.app r
  ++ " | " ++ Str.of_Z (plot_results.trials r)
  ++ " | " ++ Str.of_Z (plot_results.auto_pct r) ++ "%"
  ++ " | " ++ Str.of_Z (plot_results.manual_pct r) ++ "%"
  ++ " | " ++ Str.of_Z (plot_results.failed_pct r) ++ "%".

(** A report: any text [before], the section header, the two header
    lines of the table, one row per entry, and then either the end of
    the text or an empty line followed by any text. *)
Definition render_report (before h1 h2 : string)
    (rs : list plot_results.entry) (after : option string) : string :=
  before ++ section_header ++ String LF (unlines (h1 :: h2 :: map render_row rs))
  ++ match after with
     | None => ""
     | Some text => Re.blank_line ++ text
     end.

(** A line of the table header: it has a column separator and no line
    feed. *)
Definition header_line (h : string) : Prop :=
  Str.contains "|" h = true /\ Str.contains LF h = false.

Fixpoint all_chars (p : ascii -> bool) (s : string) : bool :=
  match s with
  | EmptyString => true
  | String c s' => p c && all_chars p s'
  end.

(** A non-empty run of word characters *)
Definition word (s : string) : Prop :=
  s <> "" /\ all_chars is_word s = true.

Definition well_formed (r : plot_results.entry) : Prop :=
  word (plot_results.driver r) /\ word (plot_results.app r) /\
  0 <= plot_results.auto_pct r /\ 0 <= plot_results.manual_pct r /\
  0 <= plot_results.failed_pct r.

(** The entry the parser builds for a row: the fields of the row, and
    the display name derived from [app]. *)
Definition reparsed (r : plot_results.entry) : plot_results.entry :=
  plot_results.mk_entry (plot_results.driver r) (plot_results.app r)
    (plot_results.readable_app (plot_results.app r)) (plot_results.trials r)
    (plot_results.auto_pct r) (plot_results.manual_pct r)
    (plot_results.failed_pct r).

(** A line of a table: not empty, no line feed *)
Definition table_line (l : string) : Prop :=
  l <> "" /\ Str.contains LF l = false.

Definition two_entries : list plot_results.entry :=
  [ plot_results.mk_entry "snd" "mp3_player" "MP3 Player" 100 79 16 5;
    plot_results.mk_entry "e1000" "network_analyzer" "Network Analyzer" (-3) 76 24 0 ].

(** ** Shapes of a row label *)



(** The first character of [s], if any, is not a word character. *)
Definition no_word_ahead (s : string) : Prop :=
  match s with
  | EmptyString => True
  | String c _ => is_word c = false
  end.

(** Column 0 of a row, trimmed *)
Definition label_of (line : string) : string :=
  Str.strip (nth 0 (Str.split "|" line) "").

(** A row with five columns or more *)
Definition long_enough (line : string) : bool :=
  Nat.leb 5 (length (Str.split "|" line)).

(** An entry whose percentages sum to 130, and one with no automatic
    recovery *)
Definition overfull : plot_results.entry :=
  plot_results.mk_entry "snd" "mixer" "Mixer" 10 90 30 10.

Definition never_automatic : plot_results.entry :=
  plot_results.mk_entry "ide" "old_disk" "Old Disk" 10 0 60 40.

(** The same with no automatic recovery, as an entry of [plot.py] *)
Definition never_automatic_plot : plot.entry :=
  plot.mk_entry "ide" "old_disk" "Old Disk" 10 0 60 40.

(** Entries whose drivers are not grouped: snd, ide, snd *)
Definition ungrouped : list plot_results.entry :=
  [ plot_results.mk_entry "snd" "mp3_player" "MP3 Player" 100 79 16 5;
    plot_results.mk_entry "ide" "compiler" "Compiler" 100 38 58 4;
    plot_results.mk_entry "snd" "audio_recorder" "Audio Recorder" 100 44 56 0 ].

(** ** Reading a chart off a run *)

(** The bar containers, in drawing order *)
Definition bars (t : list event) : list (list rect) :=
  flat_map (fun e => match e with
                     | Bar xs hs w bs => [rectangles xs hs w bs]
                     | _ => []
                     end) t.

(** The positions of the vertical lines *)
Definition vlines (t : list event) : list Q :=
  flat_map (fun e => match e with AxVLine x => [x] | _ => [] end) t.

(** The texts anchored at their vertical center: the numbers inside the
    bars *)
Definition numbers (t : list event) : list (Q * Q * string) :=
  flat_map (fun e => match e with
                     | Text x y s Center => [(x, y, s)]
                     | _ => []
                     end) t.

(** The texts anchored at their bottom: the category labels *)
Definition labels (t : list event) : list (Q * Q * string) :=
  flat_map (fun e => match e with
                     | Text x y s Bottom => [(x, y, s)]
                     | _ => []
                     end) t.

(** ** Runs of equal categories *)

(** The runs of [repeat c k ++ l]: each maximal block of equal adjacent
    elements with its length. *)
Fixpoint group_acc (c : string) (k : nat) (l : list string) : list (string * nat) :=
  match l with
  | [] => [(c, k)]
  | d :: l' =>
      if String.eqb d c then group_acc c (S k) l'
      else (c, k) :: group_acc d 1 l'
  end.

Definition group (l : list string) : list (string * nat) :=
  match l with
  | [] => []
  | c :: l' => group_acc c 1 l'
  end.

(** Adjacent runs differ in category. *)
Fixpoint alternating (g : list (string * nat)) : Prop :=
  match g with
  | (c, _) :: (((c', _) :: _) as g') => c <> c' /\ alternating g'
  | _ => True
  end.

(** The first and last slot of each run, the first run starting at
    [start]. *)
Fixpoint spans (start : Z) (g : list (string * nat)) : list (Z * Z * string) :=
  match g with
  | [] => []
  | (c, k) :: g' =>
      (start, start + Z.of_nat k - 1, c) :: spans (start + Z.of_nat k) g'
  end.

(** Slot [i] differs in category from slot [i - 1]. *)
Definition changes (cats : list string) (i : nat) : bool :=
  negb (String.eqb (nth i cats "") (nth (i - 1) cats "")).

(** The slots [i >= 1] whose category differs from the one before *)
Definition change_points (cats : list string) : list nat :=
  filter (changes cats) (seq 1 (length cats - 1)).

(** The label of a run: at the middle of the run, at height 105 *)
Definition run_label (run : Z * Z * string) : Q * Q * string :=
  let '(s, e, c) := run in (half (s + e), 105%Q, c).

(** The three segments of the bar of entry number [i], from the
    percentages [a], [m] and [f] *)
Definition auto_segment (w : Q) (i a : Z) : rect := mk_rect i 0 a w.

Definition manual_segment (w : Q) (i a m : Z) : rect := mk_rect i a m w.

Definition failed_segment (w : Q) (i a m f : Z) : rect := mk_rect i (a + m) f w.

(** The position of the separator before slot [i] *)
Definition separator_at (i : nat) : Q := minus_half (Z.of_nat i).

(** What is drawn for the runs: a label each and, in
    [plot_results.py], a bracket under it. *)
Definition labelled_runs (bracket : bool) (runs : list (Z * Z * string)) : list event :=
  flat_map (fun '(s, e, c) =>
              Text (half (s + e)) 105 c Bottom ::
              if bracket
              then [PlotLine (minus_half s) 104 (minus_half (e + 1)) 104]
              else []) runs.

(** The middle of the bar at slot [i]: its left edge plus half its
    width *)
Definition slot_center (w : Q) (i : Z) : Q := (inject_Z i - w / 2 + w / 2)%Q.

Definition number_text (n : Q * Q * string) : event :=
  let '(x, y, s) := n in Text x y s Center.

(** [plot_results.py]: the number of entry [i] with automatic-recovery
    percentage [a], drawn when the segment has a positive height *)
Definition guarded_number (w : Q) (ia : Z * Z) : list (Q * Q * string) :=
  let '(i, a) := ia in
  if (0 <? a)%Z then [(slot_center w i, half a, Str.of_Z a)] else [].

(** [plot.py]: the number of entry [i], drawn in every case *)
Definition plain_number (ia : Z * Z) : Q * Q * string :=
  let '(i, a) := ia in (inject_Z i, half a, Str.of_Z a).

(** ** The runs of the renderers in closed form *)

(** What [plot_results.create_graph] does on a non-empty list *)
Definition plot_results_drawing (results : list plot_results.entry) : list event :=
  let autos := map plot_results.auto_pct results in
  let manuals := map plot_results.manual_pct results in
  let faileds := map plot_results.failed_pct results in
  let cats := plot_results.categories (map plot_results.driver results) in
  let x := arange (length (map plot_results.display_name results)) in
  let w := (8 # 10)%Q in
  ([ Print "Generating graph...";
     Bar x autos w None;
     Bar x manuals w (Some autos);
     Bar x faileds w (Some (map (fun '(a, m) => a + m)%Z (zip autos manuals))) ]
   ++ map number_text (flat_map (guarded_number w) (enumerate 0 autos))
   ++ [ SetYLim 0 100;
        SetXTickLabels (map plot_results.display_name results) ]
   ++ map AxVLine (map separator_at (change_points cats))
   ++ labelled_runs true (spans 0 (group cats))
   ++ [ SetYLim 0 110;
        Legend ["Automatic Recovery"; "Manual Recovery"; "Failed Recovery"];
        SaveFig "fault_injection_outcomes.png";
        Print "Graph saved to: fault_injection_outcomes.png";
        WriteFile "fault_injection_results.csv"
          (("Driver,Application,Total Trials,Automatic Recovery %,"
            ++ "Manual Recovery %,Failed Recovery %" ++ String LF "")%string
           :: map plot_results.csv_row results);
        Print "CSV data saved to: fault_injection_results.csv" ])%list.

(** What [plot.create_graph] does on a non-empty list *)
Definition plot_drawing (results : list plot.entry) : list event :=
  let autos := map plot.auto_pct results in
  let manuals := map plot.manual_pct results in
  let faileds := map plot.failed_pct results in
  let cats := plot.categories (map plot.driver results) in
  let x := arange (length (map plot.app results)) in
  let w := (6 # 10)%Q in
  ([ Print "Generating graph based on simulation results...";
     Bar x autos w None;
     Bar x manuals w (Some autos);
     Bar x faileds w (Some (map (fun '(a, m) => a + m)%Z (zip autos manuals))) ]
   ++ map number_text (map plain_number (enumerate 0 autos))
   ++ [ SetYLim 0 100;
        SetXTickLabels
          (map (fun a => Str.lower (Str.replace "_" " " a)) (map plot.app results)) ]
   ++ map AxVLine (map separator_at (change_points cats))
   ++ labelled_runs false (spans 0 (group cats))
   ++ [ AxHLine 100;
        Legend ["Automatic Recovery"; "Manual Recovery"; "Failed Recovery"];
        SaveFig "fault_injection_outcomes.png";
        Print "Graph saved to: fault_injection_outcomes.png";
        SaveFig "fault_injection_outcomes.pdf";
        Print "PDF saved to: fault_injection_outcomes.pdf";
        Print (String LF "Simulation Results Summary:");
        Print "-------------------------" ]
   ++ map (fun r => Print (plot.summary_line r)) results)%list.

(** ** Further vocabulary for the properties *)

(** [lit] occurs in [s]. *)
Definition occurs (lit s : string) : Prop :=
  exists a b, s = a ++ lit ++ b.

(** The trial count of a row, as written *)
Definition trials_of (line : string) : string :=
  Str.strip (nth 1 (Str.split "|" line) "").

(** A row that the loop body can read without raising: it is too short
    to be looked at, or its trial count is an integer literal. *)
Definition readable (line : string) : Prop :=
  long_enough line = true -> Str.int (trials_of line) <> None.

(** The three percentage columns of a row each hold a percentage. *)
Definition pcts_found (line : string) : bool :=
  let parts := Str.split "|" line in
  match Re.pct_search (Str.strip (nth 2 parts "")),
        Re.pct_search (Str.strip (nth 3 parts "")),
        Re.pct_search (Str.strip (nth 4 parts "")) with
  | Some _, Some _, Some _ => true
  | _, _, _ => false
  end.

(** The label of a row starts with [driver/app]. *)
Definition label_found (line : string) : bool :=
  match Re.label_match (label_of line) with
  | Some _ => true
  | None => false
  end.

(** The rows that give an entry, and the rows that give a warning *)
Definition accepted (line : string) : bool :=
  long_enough line && pcts_found line && label_found line.

Definition warned (line : string) : bool :=
  long_enough line && negb (pcts_found line).

Definition warning (line : string) : string :=
  "Warning: Could not parse percentages from line: " ++ line.

(** What holds of every entry the parser builds *)
Definition parsed_entry (e : plot_results.entry) : Prop :=
  well_formed e /\
  plot_results.display_name e = plot_results.readable_app (plot_results.app e).

Definition option_list {A} (o : option A) : list A :=
  match o with
  | Some a => [a]
  | None => []
  end.

(** A table whose first row has an unreadable percentage *)
Definition warned_report : string :=
  unlines [ "Fault Injection Results:";
            "Application | Trials | Automatic | Manual | Failed";
            "------------|--------|-----------|--------|-------";
            "snd/mixer | 5 | n/a | 60% | 40%";
            "snd/audio_recorder | 100 | 44% | 56% | 0%" ].

(** A row written with any whitespace around its columns and between a
    percentage and its sign, and with anything after the fifth column:
    [pad] gives the thirteen runs of whitespace, [extra] is empty or
    starts a sixth column. *)
Definition padded_row (pad : nat -> string) (r : plot_results.entry)
    (extra : string) : string :=
  pad 0%nat ++ (plot_results.driver r ++ "/" ++ plot_results.app r) ++ pad 1%nat
  ++ "|" ++ pad 2%nat ++ Str.of_Z (plot_results.trials r) ++ pad 3%nat
  ++ "|" ++ pad 4%nat ++ (Str.of_Z (plot_results.auto_pct r) ++ pad 5%nat ++ "%")
     ++ pad 6%nat
  ++ "|" ++ pad 7%nat ++ (Str.of_Z (plot_results.manual_pct r) ++ pad 8%nat ++ "%")
     ++ pad 9%nat
  ++ "|" ++ pad 10%nat ++ (Str.of_Z (plot_results.failed_pct r) ++ pad 11%nat ++ "%")
     ++ pad 12%nat
  ++ extra.

Definition whitespace (s : string) : Prop := all_chars is_space s = true.

(** Tabs before the columns, two spaces after them *)
Definition tabs_and_spaces (i : nat) : string :=
  if Nat.even i then String (ascii_of_nat 9) "" else "  ".

(** ** Further readings of a chart *)

(** The bracket lines under the category labels *)
Definition brackets (t : list event) : list (Q * Q * Q * Q) :=
  flat_map (fun e => match e with
                     | PlotLine x0 y0 x1 y1 => [(x0, y0, x1, y1)]
                     | _ => []
                     end) t.

(** The bracket of a run: from half a slot before its first bar to half
    a slot after its last, at height 104 *)
Definition run_bracket (run : Z * Z * string) : Q * Q * Q * Q :=
  let '(s, e, c) := run in (minus_half s, 104%Q, minus_half (e + 1), 104%Q).

(** The files written with their lines *)
Definition written (t : list event) : list (string * list string) :=
  flat_map (fun e => match e with
                     | WriteFile f ls => [(f, ls)]
                     | _ => []
                     end) t.

(** The ranges given to the y axis, in order *)
Definition ylims (t : list event) : list (Z * Z) :=
  flat_map (fun e => match e with SetYLim lo hi => [(lo, hi)] | _ => [] end) t.



(** The runs [runs] lie side by side from slot [a] to slot [b - 1]:
    each starts where the one before ended, and none is empty. *)
Fixpoint tiles (a b : Z) (runs : list (Z * Z * string)) : Prop :=
  match runs with
  | [] => a = b
  | (s, e, _) :: rest => s = a /\ s <= e /\ tiles (e + 1) b rest
  end.

(** Every slot of the run has the category of the run. *)
Definition uniform (cats : list string) (run : Z * Z * string) : Prop :=
  let '(s, e, c) := run in
  forall i, s <= i <= e -> nth (Z.to_nat i) cats "" = c.

(** Two runs that follow each other differ in category. *)
Fixpoint distinct_neighbours (runs : list (Z * Z * string)) : Prop :=
  match runs with
  | (_, _, c) :: (((_, _, c') :: _) as rest) => c <> c' /\ distinct_neighbours rest
  | _ => True
  end.

Definition run_start (run : Z * Z * string) : Z := fst (fst run).

(** The first line of the CSV file *)
Definition csv_header : string :=
  "Driver,Application,Total Trials,Automatic Recovery %,"
  ++ "Manual Recovery %,Failed Recovery %" ++ String LF "".

(** The height at which a text is anchored *)
Definition text_height (l : Q * Q * string) : Q := snd (fst l).

(** A run without the contents of the files it writes: the prints and
    the calls to the drawing backend *)
Definition drawn (t : list event) : list event :=
  filter (fun e => match e with WriteFile _ _ => false | _ => true end) t.

(** Two entries that differ at most in the trial count *)
Definition same_but_trials (r r' : plot_results.entry) : Prop :=
  plot_results.driver r = plot_results.driver r' /\
  plot_results.app r = plot_results.app r' /\
  plot_results.display_name r = plot_results.display_name r' /\
  plot_results.auto_pct r = plot_results.auto_pct r' /\
  plot_results.manual_pct r = plot_results.manual_pct r' /\
  plot_results.failed_pct r = plot_results.failed_pct r'.

Definition same_but_total_trials (r r' : plot.entry) : Prop :=
  plot.driver r = plot.driver r' /\
  plot.app r = plot.app r' /\
  plot.display_name r = plot.display_name r' /\
  plot.auto_pct r = plot.auto_pct r' /\
  plot.manual_pct r = plot.manual_pct r' /\
  plot.failed_pct r = plot.failed_pct r'.




(** The range of the y axis when the figure is saved: the last one set *)
Definition final_ylim (t : list event) : option (Z * Z) :=
  match rev (ylims t) with
  | lim :: _ => Some lim
  | [] => None
  end.

(** The height [y] is within the range [lim]. *)
Definition inside (lim : Z * Z) (y : Q) : Prop :=
  (inject_Z (fst lim) <= y)%Q /\ (y <= inject_Z (snd lim))%Q.



(** * Properties *)

(** ** The built-ins and patterns on examples *)

Example split_pipe :
  Str.split "|" "a|b||c" = ["a"; "b"; ""; "c"].
Proof. reflexivity. Qed.

Example split_empty : Str.split "|" "" = [""].
Proof. reflexivity. Qed.

Example strip_ex : Str.strip "  12 % " = "12 %".
Proof. reflexivity. Qed.

Example title_ex : Str.title "mp3 player" = "Mp3 Player".
Proof. reflexivity. Qed.

Example title_digit : Str.title "web2py aBC" = "Web2Py Abc".
Proof. reflexivity. Qed.

Example int_ex :
  Str.int " 100 " = Some 100 /\ Str.int "-7" = Some (-7) /\
  Str.int "1_000" = Some 1000 /\ Str.int "abc" = None /\
  Str.int "" = None /\ Str.int "1__0" = None /\ Str.int "12%" = None.
Proof. repeat split; reflexivity. Qed.

Example of_Z_ex : Str.of_Z 0 = "0" /\ Str.of_Z 79 = "79" /\ Str.of_Z (-5) = "-5".
Proof. repeat split; reflexivity. Qed.

Example pct_search_ex :
  Re.pct_search "79%" = Some "79" /\ Re.pct_search "~ 44 %" = Some "44" /\
  Re.pct_search "12 x 34%" = Some "34" /\ Re.pct_search "79" = None /\
  Re.pct_search "%" = None.
Proof. repeat split; reflexivity. Qed.

Example label_match_ex :
  Re.label_match "snd/mp3_player" = Some ("snd", "mp3_player") /\
  Re.label_match "snd" = None /\ Re.label_match "/app" = None /\
  Re.label_match " snd/app" = None.
Proof. repeat split; reflexivity. Qed.

Example parse_sample :
  outcome (plot_results.parse_results sample_report) =
  Return (Some [ plot_results.mk_entry "snd" "mp3_player" "MP3 Player" 100 79 16 5;
                 plot_results.mk_entry "snd" "audio_recorder" "Audio Recorder" 100 44 56 0 ]).
Proof. vm_compute. reflexivity. Qed.

Example parse_sample_log :
  printed (trace (plot_results.parse_results sample_report)) =
  [ "Parsing results file..."; "Found 2 result entries." ].
Proof. vm_compute. reflexivity. Qed.

Example parse_no_section :
  plot_results.parse_results "no table here" =
  ([ Print "Parsing results file...";
     Print "Error: Results section not found in the file!" ], Return None).
Proof. vm_compute. reflexivity. Qed.

(** A row with a percentage column that cannot be read is skipped with
    a warning. *)
Example parse_line_bad_percentage :
  plot_results.parse_line "snd/mixer | 5 | n/a | 60% | 40%" [] =
  ([ Print "Warning: Could not parse percentages from line: snd/mixer | 5 | n/a | 60% | 40%" ],
   Return []).
Proof. vm_compute. reflexivity. Qed.

Example parse_short_row :
  outcome (plot_results.parse_results short_row_report) =
  Return (Some [ plot_results.mk_entry "snd" "audio_recorder" "Audio Recorder" 100 44 56 0 ]).
Proof. vm_compute. reflexivity. Qed.

Example plot_main_files :
  files_of (trace plot.main) =
  [ "fault_injection_outcomes.png"; "fault_injection_outcomes.pdf" ] /\
  outcome plot.main = Return tt.
Proof. vm_compute. split; reflexivity. Qed.

Example plot_results_main_empty_table :
  printed (trace (plot_results.main header_only_report)) =
  [ "Parsing results file..."; "Found 0 result entries.";
    "Failed to parse results. Check the format of the results file." ].
Proof. vm_compute. reflexivity. Qed.

(** The two rows of the sample report give two adjacent bars of one
    category: no separator, one label over both. *)
Example sample_chart :
  vlines (trace (plot_results.main sample_report)) = [] /\
  labels (trace (plot_results.main sample_report)) = [ (half 1, 105%Q, "Sound") ].
Proof. vm_compute. split; reflexivity. Qed.

(** The hardcoded dataset: separators before slots 2 and 4, one label
    per driver. *)
Example simulation_chart :
  vlines (trace plot.main) = [ minus_half 2; minus_half 4 ] /\
  labels (trace plot.main) =
  [ (half 1, 105%Q, "Sound"); (half 5, 105%Q, "Network"); (half 9, 105%Q, "IDE") ].
Proof. vm_compute. split; reflexivity. Qed.

(** ** Strings *)

Section StringFacts.

Lemma append_nil_r (s : string) : s ++ "" = s.
Proof. induction s as [|c s IH]; simpl; [reflexivity | now rewrite IH]. Qed.

Lemma append_assoc (a b c : string) : (a ++ b) ++ c = a ++ (b ++ c).
Proof. induction a as [|x a IH]; simpl; [reflexivity | now rewrite IH]. Qed.

Lemma length_append (a b : string) :
  String.length (a ++ b) = (String.length a + String.length b)%nat.
Proof. induction a as [|x a IH]; simpl; [reflexivity | now rewrite IH]. Qed.

Lemma all_chars_app p (a b : string) :
  all_chars p (a ++ b) = all_chars p a && all_chars p b.
Proof.
  induction a as [|x a IH]; simpl; [reflexivity|].
  now rewrite IH, andb_assoc.
Qed.

Lemma contains_app c (a b : string) :
  Str.contains c (a ++ b) = Str.contains c a || Str.contains c b.
Proof.
  induction a as [|x a IH]; simpl; [reflexivity|].
  now rewrite IH, orb_assoc.
Qed.

(** A string of characters of a class has none outside it. *)
Lemma all_chars_contains p c (s : string) :
  all_chars p s = true -> p c = false -> Str.contains c s = false.
Proof.
  intros Hs Hc. induction s as [|x s IH]; simpl in *; [reflexivity|].
  apply andb_true_iff in Hs as [Hx Hs]. rewrite (IH Hs), orb_false_r.
  destruct (Ascii.eqb_spec x c) as [->|]; [congruence | reflexivity].
Qed.

Lemma all_chars_weaken (p q : ascii -> bool) (s : string) :
  (forall c, p c = true -> q c = true) ->
  all_chars p s = true -> all_chars q s = true.
Proof.
  intros Hpq. induction s as [|x s IH]; simpl; [reflexivity|].
  intros H. apply andb_true_iff in H as [Hx Hs].
  now rewrite (Hpq _ Hx), (IH Hs).
Qed.

(** *** [split] *)

Lemma split_nonempty sep (s : string) : Str.split sep s <> [].
Proof.
  induction s as [|c s IH]; simpl; [discriminate|].
  destruct (Ascii.eqb c sep); [discriminate|].
  destruct (Str.split sep s); [contradiction | discriminate].
Qed.

Lemma split_none sep (s : string) :
  Str.contains sep s = false -> Str.split sep s = [s].
Proof.
  induction s as [|c s IH]; simpl; [reflexivity|].
  intros H. apply orb_false_iff in H as [Hc Hs].
  now rewrite Hc, (IH Hs).
Qed.

Lemma split_app sep (a b : string) :
  Str.contains sep a = false ->
  Str.split sep (a ++ String sep b) = a :: Str.split sep b.
Proof.
  induction a as [|c a IH]; simpl; intros H.
  - now rewrite Ascii.eqb_refl.
  - apply orb_false_iff in H as [Hc Ha]. now rewrite Hc, (IH Ha).
Qed.

Lemma split_unlines (l : string) (ls : list string) :
  Forall (fun x => Str.contains LF x = false) (l :: ls) ->
  Str.split LF (unlines (l :: ls)) = l :: ls.
Proof.
  revert l. induction ls as [|l' ls IH]; intros l H.
  - apply split_none. now inversion H.
  - change (unlines (l :: l' :: ls)) with (l ++ String LF (unlines (l' :: ls))).
    inversion H; subst. rewrite split_app by assumption.
    now rewrite IH.
Qed.

(** *** [strip] *)

Lemma lstrip_app (a b : string) :
  Str.lstrip a <> "" -> Str.lstrip (a ++ b) = Str.lstrip a ++ b.
Proof.
  induction a as [|c a IH]; simpl; intros H; [contradiction|].
  destruct (is_space c); [now apply IH | reflexivity].
Qed.

Lemma rstrip_app (a b : string) :
  Str.rstrip b <> "" -> Str.rstrip (a ++ b) = a ++ Str.rstrip b.
Proof.
  intros Hb. induction a as [|c a IH]; simpl; [reflexivity|].
  rewrite IH. destruct (a ++ Str.rstrip b) eqn:E; [|reflexivity].
  destruct a; simpl in E; [contradiction | discriminate].
Qed.

Lemma lstrip_no_space (s : string) :
  all_chars (fun c => negb (is_space c)) s = true -> Str.lstrip s = s.
Proof.
  destruct s as [|c s]; simpl; [reflexivity|].
  intros H. apply andb_true_iff in H as [Hc _].
  apply negb_true_iff in Hc. now rewrite Hc.
Qed.

Lemma rstrip_no_space (s : string) :
  all_chars (fun c => negb (is_space c)) s = true -> Str.rstrip s = s.
Proof.
  induction s as [|c s IH]; simpl; [reflexivity|].
  intros H. apply andb_true_iff in H as [Hc Hs].
  apply negb_true_iff in Hc. rewrite (IH Hs), Hc.
  destruct s; reflexivity.
Qed.

(** A text without whitespace, between one space on each side or at
    either end of a column, is what [strip] returns. *)
Lemma strip_padded (l r : bool) (s : string) :
  all_chars (fun c => negb (is_space c)) s = true ->
  Str.strip ((if l then " " else "") ++ s ++ (if r then " " else "")) = s.
Proof.
  intros H. unfold Str.strip.
  assert (Hr : Str.rstrip (s ++ (if r then " " else "")) = s).
  { destruct r; [|rewrite append_nil_r; now apply rstrip_no_space].
    clear l. induction s as [|c s IH]; simpl; [reflexivity|].
    simpl in H. apply andb_true_iff in H as [Hc Hs].
    apply negb_true_iff in Hc. rewrite (IH Hs), Hc. destruct s; reflexivity. }
  destruct s as [|c s]; [destruct l, r; reflexivity|].
  assert (Hl : Str.lstrip ((if l then " " else "") ++ String c s ++ (if r then " " else ""))
               = String c s ++ (if r then " " else "")).
  { simpl in H. apply andb_true_iff in H as [Hc _].
    apply negb_true_iff in Hc. destruct l; simpl; now rewrite Hc. }
  rewrite Hl. exact Hr.
Qed.

Lemma strip_r (s : string) :
  all_chars (fun c => negb (is_space c)) s = true -> Str.strip (s ++ " ") = s.
Proof. exact (strip_padded false true s). Qed.

Lemma strip_l (s : string) :
  all_chars (fun c => negb (is_space c)) s = true -> Str.strip (" " ++ s) = s.
Proof.
  intros H. rewrite <- (append_nil_r s) at 1. exact (strip_padded true false s H).
Qed.

Lemma strip_lr (s : string) :
  all_chars (fun c => negb (is_space c)) s = true ->
  Str.strip (" " ++ s ++ " ") = s.
Proof. exact (strip_padded true true s). Qed.

(** A string with a character that is not whitespace does not strip to
    nothing, and stripping keeps the character. *)
Lemma lstrip_contains c (s : string) :
  is_space c = false -> Str.contains c s = true ->
  Str.contains c (Str.lstrip s) = true.
Proof.
  intros Hc. induction s as [|x s IH]; simpl; intros H; [discriminate|].
  destruct (is_space x) eqn:Hx; [|exact H].
  apply IH. destruct (Ascii.eqb_spec x c) as [->|]; [congruence | exact H].
Qed.

Lemma rstrip_contains c (s : string) :
  is_space c = false -> Str.contains c s = true ->
  Str.contains c (Str.rstrip s) = true.
Proof.
  intros Hc. induction s as [|x s IH]; simpl; intros H; [discriminate|].
  destruct (Ascii.eqb_spec x c) as [->|Hne].
  - destruct (Str.rstrip s); [rewrite Hc|]; simpl; now rewrite Ascii.eqb_refl.
  - simpl in H. specialize (IH H).
    destruct (Str.rstrip s) eqn:E; [discriminate|].
    simpl in *. now rewrite IH, orb_true_r.
Qed.

Lemma contains_nonempty c (s : string) : Str.contains c s = true -> s <> "".
Proof. destruct s; simpl; [discriminate | discriminate]. Qed.

Lemma lstrip_no_lf c (s : string) :
  Str.contains c s = false -> Str.contains c (Str.lstrip s) = false.
Proof.
  induction s as [|x s IH]; simpl; intros H; [reflexivity|].
  apply orb_false_iff in H as [Hx Hs].
  destruct (is_space x); [now apply IH | simpl; now rewrite Hx, Hs].
Qed.

Lemma rstrip_no_lf c (s : string) :
  Str.contains c s = false -> Str.contains c (Str.rstrip s) = false.
Proof.
  induction s as [|x s IH]; simpl; intros H; [reflexivity|].
  apply orb_false_iff in H as [Hx Hs]. specialize (IH Hs).
  destruct (Str.rstrip s) eqn:E.
  - destruct (is_space x); simpl; [reflexivity | now rewrite Hx].
  - simpl in *. now rewrite Hx, IH.
Qed.

(** *** [span] and prefixes *)

Lemma span_app p (a b : string) :
  all_chars p a = true ->
  match b with EmptyString => True | String c _ => p c = false end ->
  Str.span p (a ++ b) = (a, b).
Proof.
  intros Ha Hb. induction a as [|x a IH]; simpl.
  - destruct b as [|c b]; simpl; [reflexivity | now rewrite Hb].
  - simpl in Ha. apply andb_true_iff in Ha as [Hx Ha].
    now rewrite Hx, (IH Ha).
Qed.

Lemma span_all p (a : string) :
  all_chars p a = true -> Str.span p a = (a, "").
Proof.
  intros H. rewrite <- (append_nil_r a) at 1. now apply span_app.
Qed.

Lemma strip_prefix_app (p r : string) : Str.strip_prefix p (p ++ r) = Some r.
Proof.
  induction p as [|c p IH]; simpl; [reflexivity|].
  now rewrite Ascii.eqb_refl.
Qed.

Lemma strip_prefix_some (p s r : string) :
  Str.strip_prefix p s = Some r -> s = p ++ r.
Proof.
  revert s. induction p as [|c p IH]; intros s; simpl.
  - now intros [= ->].
  - destruct s as [|x s]; [discriminate|].
    destruct (Ascii.eqb_spec c x) as [->|]; [|discriminate].
    intros H. now rewrite (IH _ H).
Qed.

Lemma strip_prefix_none_app (p s r : string) :
  Str.strip_prefix p s = None -> (String.length p <= String.length s)%nat ->
  Str.strip_prefix p (s ++ r) = None.
Proof.
  revert s. induction p as [|c p IH]; intros s; simpl; [discriminate|].
  destruct s as [|x s]; simpl; [lia|].
  destruct (Ascii.eqb c x); [|reflexivity].
  intros H Hlen. apply IH; [exact H | lia].
Qed.

End StringFacts.

(** ** Integer literals *)

Section IntFacts.

Lemma string_of_uint_digits (u : Decimal.uint) :
  all_chars is_digit (NilEmpty.string_of_uint u) = true.
Proof. induction u; simpl; auto. Qed.

Lemma of_N_digits (n : N) : all_chars is_digit (Str.of_N n) = true.
Proof. apply string_of_uint_digits. Qed.

Lemma of_N_nonempty (n : N) : Str.of_N n <> "".
Proof.
  unfold Str.of_N. destruct n as [|p]; [discriminate|].
  simpl. pose proof (DecimalPos.Unsigned.to_uint_nonnil p) as H.
  destruct (Pos.to_uint p); [contradiction | discriminate ..].
Qed.

Lemma int_digits_digits (b : bool) (s : string) :
  all_chars is_digit s = true -> (s <> "" \/ b = true) ->
  Str.int_digits b s = Some s.
Proof.
  revert b. induction s as [|c s IH]; intros b Hs Hb; simpl.
  - destruct Hb as [Hb| ->]; [contradiction | reflexivity].
  - simpl in Hs. apply andb_true_iff in Hs as [Hc Hs].
    rewrite Hc, (IH true Hs); [reflexivity | now right].
Qed.

Lemma digits_value_of_N (n : N) : Str.digits_value (Str.of_N n) = Some (Z.of_N n).
Proof.
  unfold Str.digits_value.
  rewrite int_digits_digits
    by (auto using of_N_digits; left; apply of_N_nonempty).
  unfold Str.of_N. now rewrite NilEmpty.usu, DecimalN.Unsigned.of_to.
Qed.

Lemma digit_not_space c : is_digit c = true -> is_space c = false.
Proof.
  unfold is_digit, is_space, between. intros H.
  apply andb_true_iff in H as [H1 H2].
  apply Nat.leb_le in H1, H2.
  apply orb_false_iff; split; apply andb_false_iff.
  - right. apply Nat.leb_gt. lia.
  - right. apply Nat.leb_gt. lia.
Qed.

Lemma digit_is_not c x : is_digit x = false -> is_digit c = true -> Ascii.eqb c x = false.
Proof.
  intros Hx Hc. destruct (Ascii.eqb_spec c x) as [->|]; [congruence | reflexivity].
Qed.

Lemma digits_no_space (s : string) :
  all_chars is_digit s = true ->
  all_chars (fun c => negb (is_space c)) s = true.
Proof.
  apply all_chars_weaken. intros c H. now rewrite (digit_not_space _ H).
Qed.

(** [int(str(n)) = n] for a natural number *)
Lemma int_of_N (n : N) : Str.int (Str.of_N n) = Some (Z.of_N n).
Proof.
  unfold Str.int, Str.strip.
  rewrite lstrip_no_space, rstrip_no_space
    by (apply digits_no_space, of_N_digits).
  pose proof (of_N_digits n) as Hd. pose proof (of_N_nonempty n) as Hn.
  pose proof (digits_value_of_N n) as Hv.
  destruct (Str.of_N n) as [|c s]; [contradiction|].
  simpl in Hd. apply andb_true_iff in Hd as [Hc _].
  rewrite (digit_is_not c "-"), (digit_is_not c "+") by (assumption || reflexivity).
  exact Hv.
Qed.

(** [int(str(z)) = z] *)
Lemma int_of_Z (z : Z) : Str.int (Str.of_Z z) = Some z.
Proof.
  unfold Str.of_Z. destruct (Z.ltb_spec z 0) as [Hneg|Hpos].
  - unfold Str.int, Str.strip.
    change (Str.lstrip (String "-" (Str.of_N (Z.abs_N z))))
      with (String "-" (Str.of_N (Z.abs_N z))).
    rewrite (rstrip_no_space (String "-" _))
      by (simpl; apply digits_no_space, of_N_digits).
    rewrite Ascii.eqb_refl, digits_value_of_N. simpl.
    f_equal. rewrite N2Z.inj_abs_N. lia.
  - rewrite int_of_N. f_equal. now apply Z2N.id.
Qed.

(** The characters of a printed integer *)
Lemma of_Z_chars (z : Z) :
  all_chars (fun c => is_digit c || Ascii.eqb c "-") (Str.of_Z z) = true.
Proof.
  unfold Str.of_Z. destruct (z <? 0)%Z; simpl.
  - eapply all_chars_weaken; [|apply of_N_digits]. intros c ->. reflexivity.
  - eapply all_chars_weaken; [|apply of_N_digits]. intros c ->. reflexivity.
Qed.

Lemma of_Z_nonneg (z : Z) : 0 <= z -> Str.of_Z z = Str.of_N (Z.to_N z).
Proof. unfold Str.of_Z. intros H. destruct (Z.ltb_spec z 0); [lia | reflexivity]. Qed.

Lemma of_Z_no_char (x : ascii) (z : Z) :
  is_digit x || Ascii.eqb x "-" = false -> Str.contains x (Str.of_Z z) = false.
Proof. intros H. eapply all_chars_contains; [apply of_Z_chars | exact H]. Qed.

Lemma of_Z_no_space (z : Z) :
  all_chars (fun c => negb (is_space c)) (Str.of_Z z) = true.
Proof.
  eapply all_chars_weaken; [|apply of_Z_chars]. intros c H. simpl in H.
  apply orb_true_iff in H as [H|H].
  - now rewrite (digit_not_space _ H).
  - apply Ascii.eqb_eq in H. subst. reflexivity.
Qed.

Lemma pct_search_here (s g : string) :
  Re.pct_here s = Some g -> Re.pct_search s = Some g.
Proof. intros H. destruct s; cbn [Re.pct_search]; now rewrite H. Qed.

(** [re.search(r'(\d+)\s*%', str(n) + '%')] captures the digits. *)
Lemma pct_search_of_N (n : N) :
  Re.pct_search (Str.of_N n ++ "%") = Some (Str.of_N n).
Proof.
  apply pct_search_here. unfold Re.pct_here.
  rewrite span_app by (auto using of_N_digits; reflexivity).
  pose proof (of_N_nonempty n). destruct (Str.of_N n); [contradiction|].
  reflexivity.
Qed.

End IntFacts.

(** ** Facts about runs *)

Lemma outcome_bind_raise {A B} (m : Py A) (k : A -> Py B) e :
  outcome m = Raise e -> outcome (bind m k) = Raise e.
Proof.
  destruct m as [t [a|e']]; simpl; intros H; [discriminate|].
  injection H as ->. reflexivity.
Qed.

Lemma outcome_bind_return {A B} (m : Py A) (k : A -> Py B) a :
  outcome m = Return a -> outcome (bind m k) = outcome (k a).
Proof.
  destruct m as [t [a'|e']]; simpl; intros H; [|discriminate].
  injection H as ->. destruct (k a); reflexivity.
Qed.

Lemma outcome_int_of s :
  outcome (int_of s) =
  match Str.int s with Some z => Return z | None => Raise ValueError end.
Proof. unfold int_of. destruct (Str.int s); reflexivity. Qed.

Lemma bind_ret {A B} (a : A) (k : A -> Py B) : bind (ret a) k = k a.
Proof. unfold bind, ret. destruct (k a). reflexivity. Qed.

Lemma bind_emit {B} (e : event) (k : unit -> Py B) :
  bind (emit e) k = (e :: trace (k tt), outcome (k tt)).
Proof. unfold bind, emit, trace, outcome. destruct (k tt). reflexivity. Qed.

Lemma bind_assoc {A B C} (m : Py A) (k : A -> Py B) (h : B -> Py C) :
  bind (bind m k) h = bind m (fun a => bind (k a) h).
Proof.
  destruct m as [t [a|e]]; simpl; [|reflexivity].
  destruct (k a) as [t' [b|e]]; simpl; [|reflexivity].
  destruct (h b) as [t'' r]. now rewrite app_assoc.
Qed.

Lemma run_eta {A} (m : Py A) : m = (trace m, outcome m).
Proof. destruct m; reflexivity. Qed.

Lemma int_of_some (s : string) (z : Z) : Str.int s = Some z -> int_of s = ret z.
Proof. unfold int_of. now intros ->. Qed.

Lemma int_of_none (s : string) : Str.int s = None -> int_of s = raise ValueError.
Proof. unfold int_of. now intros ->. Qed.


(** ** The parser on rows it cannot read *)

(** The only exception the loop body can raise is [ValueError]. *)
Lemma parse_line_raises line rs e :
  outcome (plot_results.parse_line line rs) = Raise e -> e = ValueError.
Proof.
  unfold plot_results.parse_line.
  destruct (Nat.leb 5 _); [|discriminate].
  unfold int_of.
  destruct (Str.int (Str.strip (nth 1 _ _))); simpl; [|congruence].
  destruct (Re.pct_search (Str.strip (nth 2 _ _))) as [a|]; [|discriminate].
  destruct (Re.pct_search (Str.strip (nth 3 _ _))) as [m|]; [|discriminate].
  destruct (Re.pct_search (Str.strip (nth 4 _ _))) as [f|]; [|discriminate].
  destruct (Str.int a); simpl; [|congruence].
  destruct (Str.int m); simpl; [|congruence].
  destruct (Str.int f); simpl; [|congruence].
  destruct (Re.label_match _) as [[d ap]|]; discriminate.
Qed.

(** A row with five columns or more and a trial count that is not an
    integer literal raises, whatever was accumulated. *)
Lemma parse_line_bad_trials line rs :
  (5 <= length (Str.split "|" line))%nat ->
  Str.int (Str.strip (nth 1 (Str.split "|" line) "")) = None ->
  outcome (plot_results.parse_line line rs) = Raise ValueError.
Proof.
  intros Hlen Hint. unfold plot_results.parse_line.
  apply Nat.leb_le in Hlen. rewrite Hlen.
  apply outcome_bind_raise. rewrite outcome_int_of, Hint. reflexivity.
Qed.

Lemma for_each_raises (l : list string) :
  forall line rs,
    In line l ->
    (forall rs', outcome (plot_results.parse_line line rs') = Raise ValueError) ->
    outcome (for_each l plot_results.parse_line rs) = Raise ValueError.
Proof.
  induction l as [|x l IH]; intros line rs Hin Hbad; [destruct Hin|].
  simpl.
  destruct (outcome (plot_results.parse_line x rs)) as [rs'|e] eqn:Hx.
  - rewrite (outcome_bind_return _ _ _ Hx).
    destruct Hin as [->|Hin]; [rewrite Hbad in Hx; discriminate|].
    eapply IH; eauto.
  - rewrite (outcome_bind_raise _ _ _ Hx).
    f_equal. eapply parse_line_raises; eauto.
Qed.

(** C1 (the code departs from the claim).  The claim: a row with at
    least five columns whose second column is not an integer is skipped
    with a diagnostic and the other rows are still returned.  The code:
    [int(parts[1].strip())] is not guarded, so whenever the located
    section has such a data row, [parse_results] ends with [ValueError]
    and returns no record at all. *)
Theorem C1_bad_trials_aborts_parse (content body line : string) :
  Re.section_search content = Some body ->
  In line (plot_results.data_lines (Str.split LF (Str.strip body))) ->
  (5 <= length (Str.split "|" line))%nat ->
  Str.int (Str.strip (nth 1 (Str.split "|" line) "")) = None ->
  outcome (plot_results.parse_results content) = Raise ValueError.
Proof.
  intros Hsec Hin Hlen Hint.
  unfold plot_results.parse_results. rewrite Hsec.
  erewrite outcome_bind_return by reflexivity.
  apply outcome_bind_raise.
  eapply for_each_raises; eauto.
  intros rs'. apply parse_line_bad_trials; assumption.
Qed.

Lemma C1_bad_trials_witness :
  outcome (plot_results.parse_results bad_trials_report) = Raise ValueError.
Proof.
  apply (C1_bad_trials_aborts_parse bad_trials_report
           (String LF
              (unlines [ "Application | Trials | Automatic | Manual | Failed";
                         "------------|--------|-----------|--------|-------";
                         "snd/mp3_player | 100 | 79% | 16% | 5%";
                         "snd/audio_recorder | n/a | 44% | 56% | 0%";
                         "ide/compiler | 100 | 38% | 58% | 4%" ]))
           "snd/audio_recorder | n/a | 44% | 56% | 0%").
  - vm_compute. reflexivity.
  - vm_compute. right. left. reflexivity.
  - vm_compute. lia.
  - vm_compute. reflexivity.
Defined.

(** ** Parsing a generated report *)

Section RoundTrip.

Lemma word_not_space c : is_word c = true -> is_space c = false.
Proof.
  unfold is_word, is_digit, is_upper, is_lower, is_space, between.
  intros H. repeat (apply orb_true_iff in H as [H|H]).
  1-3: apply andb_true_iff in H as [H1 H2]; apply Nat.leb_le in H1, H2;
       apply orb_false_iff; split; apply andb_false_iff; right;
       apply Nat.leb_gt; lia.
  apply Ascii.eqb_eq in H. subst. reflexivity.
Qed.

Lemma word_no_char (x : ascii) (s : string) :
  all_chars is_word s = true -> is_word x = false -> Str.contains x s = false.
Proof. apply all_chars_contains. Qed.

Lemma label_match_words (d a : string) :
  word d -> word a -> Re.label_match (d ++ "/" ++ a) = Some (d, a).
Proof.
  intros [Hd Hdw] [Ha Haw]. unfold Re.label_match.
  rewrite span_app by (auto; reflexivity).
  destruct d as [|c d]; [contradiction|].
  change ("/" ++ a) with (String "/" a). cbv iota beta.
  rewrite Ascii.eqb_refl, span_all by assumption. simpl.
  destruct a; [contradiction | reflexivity].
Qed.

Variable r : plot_results.entry.
Hypothesis Hwf : well_formed r.

Let label : string := plot_results.driver r ++ "/" ++ plot_results.app r.

Lemma label_chars :
  all_chars (fun c => is_word c || Ascii.eqb c "/") label = true.
Proof.
  destruct Hwf as ((_ & Hd) & (_ & Ha) & _). unfold label.
  rewrite !all_chars_app. apply andb_true_iff; split; [|apply andb_true_iff; split].
  - eapply all_chars_weaken; [|exact Hd]. intros c ->. reflexivity.
  - reflexivity.
  - eapply all_chars_weaken; [|exact Ha]. intros c ->. reflexivity.
Qed.

Lemma label_no_space : all_chars (fun c => negb (is_space c)) label = true.
Proof.
  eapply all_chars_weaken; [|apply label_chars]. intros c H. simpl in H.
  apply orb_true_iff in H as [H|H].
  - now rewrite (word_not_space _ H).
  - apply Ascii.eqb_eq in H. subst. reflexivity.
Qed.

Lemma label_no_char (x : ascii) :
  is_word x || Ascii.eqb x "/" = false -> Str.contains x label = false.
Proof. intros H. eapply all_chars_contains; [apply label_chars | exact H]. Qed.

(** The five columns of a generated row *)
Lemma split_render_row :
  Str.split "|" (render_row r) =
  [ label ++ " ";
    " " ++ Str.of_Z (plot_results.trials r) ++ " ";
    " " ++ (Str.of_Z (plot_results.auto_pct r) ++ "%") ++ " ";
    " " ++ (Str.of_Z (plot_results.manual_pct r) ++ "%") ++ " ";
    " " ++ (Str.of_Z (plot_results.failed_pct r) ++ "%") ].
Proof.
  assert (E : render_row r =
    (label ++ " ") ++ String "|"
    ((" " ++ Str.of_Z (plot_results.trials r) ++ " ") ++ String "|"
    ((" " ++ (Str.of_Z (plot_results.auto_pct r) ++ "%") ++ " ") ++ String "|"
    ((" " ++ (Str.of_Z (plot_results.manual_pct r) ++ "%") ++ " ") ++ String "|"
    (" " ++ (Str.of_Z (plot_results.failed_pct r) ++ "%")))))).
  { unfold render_row, label. rewrite !append_assoc. reflexivity. }
  rewrite E.
  assert (Hz : forall z, Str.contains "|" (Str.of_Z z) = false)
    by (intros z; now apply of_Z_no_char).
  rewrite !split_app, split_none; try reflexivity;
    rewrite ?contains_app, ?Hz, ?label_no_char; reflexivity.
Qed.

Lemma pct_no_space (z : Z) :
  all_chars (fun c => negb (is_space c)) (Str.of_Z z ++ "%") = true.
Proof. rewrite all_chars_app, of_Z_no_space. reflexivity. Qed.

Lemma pct_search_of_Z (z : Z) :
  0 <= z -> Re.pct_search (Str.of_Z z ++ "%") = Some (Str.of_Z z).
Proof. intros Hz. rewrite of_Z_nonneg by assumption. apply pct_search_of_N. Qed.

(** The loop body on a generated row appends the entry of the row. *)
Lemma parse_line_render_row (acc : list plot_results.entry) :
  plot_results.parse_line (render_row r) acc = ret (acc ++ [reparsed r])%list.
Proof.
  destruct Hwf as (Hd & Ha & Hauto & Hman & Hfail).
  unfold plot_results.parse_line. rewrite split_render_row.
  cbn [length Nat.leb nth].
  rewrite (strip_r label) by apply label_no_space.
  rewrite !strip_lr, strip_l by (apply of_Z_no_space || apply pct_no_space).
  rewrite !pct_search_of_Z by assumption.
  unfold int_of. rewrite !int_of_Z, !bind_ret.
  unfold label. rewrite label_match_words by assumption.
  reflexivity.
Qed.

End RoundTrip.

Section Report.

Lemma after_first_app (lit before rest : string) :
  Re.after_first lit (before ++ lit) = Some "" ->
  Re.after_first lit (before ++ lit ++ rest) = Some rest.
Proof.
  induction before as [|c before IH]; intros H.
  - simpl (_ ++ _). destruct (lit ++ rest) eqn:E; cbn [Re.after_first];
      rewrite <- E, strip_prefix_app; reflexivity.
  - cbn [append Re.after_first] in *.
    destruct (Str.strip_prefix lit (String c (before ++ lit))) as [x|] eqn:E.
    + injection H as ->. apply strip_prefix_some in E.
      apply (f_equal String.length) in E. simpl in E.
      rewrite !length_append in E. simpl in E. lia.
    + change (String c (before ++ lit ++ rest))
        with ((String c before) ++ lit ++ rest).
      rewrite <- append_assoc.
      rewrite strip_prefix_none_app; [now apply IH | exact E |].
      simpl. rewrite length_append. lia.
Qed.

Lemma until_blank_line (l rest : string) :
  Str.contains LF l = false ->
  Re.until_blank (l ++ rest) = l ++ Re.until_blank rest.
Proof.
  induction l as [|c l IH]; intros H; [reflexivity|].
  simpl in H. apply orb_false_iff in H as [Hc Hl].
  cbn [append Re.until_blank]. unfold Re.blank_line. cbn [Str.strip_prefix].
  rewrite Ascii.eqb_sym, Hc. now rewrite IH.
Qed.

Lemma until_blank_lf (c : ascii) (rest : string) :
  Ascii.eqb c LF = false ->
  Re.until_blank (String LF (String c rest)) =
  String LF (Re.until_blank (String c rest)).
Proof.
  intros Hc. cbn [Re.until_blank]. unfold Re.blank_line.
  cbn [Str.strip_prefix]. rewrite Ascii.eqb_refl, Ascii.eqb_sym, Hc.
  reflexivity.
Qed.

Lemma table_line_head (l rest : string) :
  table_line l -> exists c s, l ++ rest = String c s /\ Ascii.eqb c LF = false.
Proof.
  intros [Hne Hlf]. destruct l as [|c l]; [contradiction|].
  exists c, (l ++ rest). split; [reflexivity|].
  simpl in Hlf. now apply orb_false_iff in Hlf as [-> _].
Qed.

Lemma unlines_cons (l l' : string) (ls : list string) :
  unlines (l :: l' :: ls) = l ++ String LF (unlines (l' :: ls)).
Proof. reflexivity. Qed.

Lemma unlines_head (l : string) (ls : list string) :
  exists rest, unlines (l :: ls) = l ++ rest.
Proof.
  destruct ls as [|l' ls]; [exists ""; simpl; now rewrite append_nil_r|].
  eexists. apply unlines_cons.
Qed.

Lemma until_blank_unlines (tail : string) (l : string) (ls : list string) :
  Re.until_blank tail = "" ->
  Forall table_line (l :: ls) ->
  Re.until_blank (unlines (l :: ls) ++ tail) = unlines (l :: ls).
Proof.
  intros Htail. revert l. induction ls as [|l' ls IH]; intros l H.
  - inversion H as [|? ? [_ Hlf] _]; subst. simpl unlines.
    rewrite until_blank_line, Htail by assumption. apply append_nil_r.
  - inversion H as [|? ? [_ Hlf] H']; subst.
    rewrite unlines_cons, append_assoc, until_blank_line by assumption.
    f_equal. cbn [append].
    destruct (unlines_head l' ls) as [x Hx].
    inversion H' as [|? ? Hl' _]; subst.
    destruct (table_line_head l' (x ++ tail) Hl') as (c & s & Hcs & Hc).
    assert (E : unlines (l' :: ls) ++ tail = String c s)
      by (now rewrite Hx, append_assoc).
    rewrite E, until_blank_lf, <- E by assumption.
    now rewrite IH.
Qed.

Lemma rstrip_unlines (l : string) (ls : list string) :
  Forall (fun x => x <> "" /\ Str.rstrip x = x) (l :: ls) ->
  Str.rstrip (unlines (l :: ls)) = unlines (l :: ls) /\ unlines (l :: ls) <> "".
Proof.
  revert l. induction ls as [|l' ls IH]; intros l H.
  - inversion H as [|? ? [Hne Hr] _]; subst. now split.
  - inversion H as [|? ? [Hne Hr] H']; subst.
    destruct (IH _ H') as [IH1 IH2]. rewrite unlines_cons. split.
    + change (l ++ String LF (unlines (l' :: ls)))
        with (l ++ (String LF "") ++ unlines (l' :: ls)).
      rewrite <- append_assoc, rstrip_app; rewrite IH1; auto.
    + destruct l; discriminate.
Qed.

Lemma render_row_facts (r : plot_results.entry) :
  well_formed r ->
  Str.contains LF (render_row r) = false /\
  Str.contains "|" (render_row r) = true /\
  render_row r <> "" /\
  Str.rstrip (render_row r) = render_row r.
Proof.
  intros Hwf. pose proof Hwf as ((_ & Hd) & (_ & Ha) & _).
  assert (Hz : forall z, Str.contains LF (Str.of_Z z) = false)
    by (intros z; now apply of_Z_no_char).
  repeat split.
  - unfold render_row. rewrite !contains_app, !Hz.
    rewrite (word_no_char LF _ Hd), (word_no_char LF _ Ha) by reflexivity.
    reflexivity.
  - unfold render_row. rewrite !contains_app. cbn. rewrite !orb_true_r. reflexivity.
  - intros E. apply (f_equal (Str.contains "/")) in E.
    unfold render_row in E. rewrite !contains_app in E. cbn in E.
    rewrite !orb_true_r in E. discriminate.
  - assert (E : render_row r =
      (plot_results.driver r ++ "/" ++ plot_results.app r
       ++ " | " ++ Str.of_Z (plot_results.trials r)
       ++ " | " ++ Str.of_Z (plot_results.auto_pct r) ++ "%"
       ++ " | " ++ Str.of_Z (plot_results.manual_pct r) ++ "%"
       ++ " | " ++ Str.of_Z (plot_results.failed_pct r)) ++ "%").
    { unfold render_row. rewrite !append_assoc. reflexivity. }
    rewrite E at 1. rewrite rstrip_app by discriminate. now rewrite E.
Qed.

Lemma for_each_rows (rs acc : list plot_results.entry) :
  Forall well_formed rs ->
  for_each (map render_row rs) plot_results.parse_line acc
  = ret (acc ++ map reparsed rs)%list.
Proof.
  revert acc. induction rs as [|r rs IH]; intros acc H.
  - simpl. now rewrite app_nil_r.
  - inversion H; subst. cbn [map for_each].
    rewrite parse_line_render_row, bind_ret, IH by assumption.
    now rewrite <- app_assoc.
Qed.

End Report.

Section ParseReport.

Variables h1 h2 : string.
Hypothesis Hh1 : header_line h1.
Hypothesis Hh2 : header_line h2.

Lemma filter_keep_all {A} (f : A -> bool) (l : list A) :
  Forall (fun x => f x = true) l -> filter f l = l.
Proof.
  induction 1 as [|x l Hx _ IH]; simpl; [reflexivity|]. now rewrite Hx, IH.
Qed.

Lemma pipe_not_space : is_space "|" = false.
Proof. reflexivity. Qed.

(** The candidate rows of a generated table are its rows. *)
Lemma data_lines_report (rs : list plot_results.entry) :
  Forall well_formed rs ->
  plot_results.data_lines
    (Str.split LF (Str.strip (String LF (unlines (h1 :: h2 :: map render_row rs)))))
  = map render_row rs.
Proof.
  intros Hrs. destruct Hh1 as [Hp1 Hl1], Hh2 as [Hp2 Hl2].
  pose proof (lstrip_contains "|" h1 pipe_not_space Hp1) as Hp1'.
  pose proof (lstrip_no_lf LF h1 Hl1) as Hl1'.
  unfold Str.strip. change (Str.lstrip (String LF ?x)) with (Str.lstrip x).
  rewrite unlines_cons, lstrip_app by (eapply contains_nonempty; eauto).
  destruct rs as [|r rs].
  - cbn [map unlines].
    change (Str.lstrip h1 ++ String LF h2)
      with (Str.lstrip h1 ++ (String LF "") ++ h2).
    rewrite <- append_assoc, rstrip_app
      by (eapply contains_nonempty, rstrip_contains; eauto using pipe_not_space).
    rewrite append_assoc. cbn [append].
    rewrite split_app, split_none by auto using rstrip_no_lf.
    unfold plot_results.data_lines. cbn [filter].
    rewrite Hp1', (rstrip_contains "|" h2 pipe_not_space Hp2). reflexivity.
  - assert (Hrows : Forall (fun x => x <> "" /\ Str.rstrip x = x)
                      (map render_row (r :: rs))).
    { apply Forall_map. eapply Forall_impl; [|exact Hrs].
      intros x Hx. now destruct (render_row_facts x Hx) as (_ & _ & ? & ?). }
    assert (Hlf : Forall (fun x => Str.contains LF x = false)
                    (map render_row (r :: rs))).
    { apply Forall_map. eapply Forall_impl; [|exact Hrs].
      intros x Hx. now destruct (render_row_facts x Hx) as (? & _). }
    assert (Hpipe : Forall (fun x => Str.contains "|" x = true)
                      (map render_row (r :: rs))).
    { apply Forall_map. eapply Forall_impl; [|exact Hrs].
      intros x Hx. now destruct (render_row_facts x Hx) as (_ & ? & _). }
    cbn [map] in *. destruct (rstrip_unlines _ _ Hrows) as [Hr Hne].
    rewrite unlines_cons.
    change (Str.lstrip h1 ++ String LF (h2 ++ String LF ?x))
      with (Str.lstrip h1 ++ (String LF "") ++ h2 ++ (String LF "") ++ x).
    rewrite <- !append_assoc, rstrip_app by now rewrite Hr.
    rewrite Hr, !append_assoc. cbn [append].
    rewrite !split_app, split_unlines by assumption.
    unfold plot_results.data_lines. cbn [filter].
    rewrite Hp1', Hp2. cbn [skipn].
    exact (filter_keep_all _ _ Hpipe).
Qed.

Variable before : string.
Hypothesis Hbefore :
  Re.after_first section_header (before ++ section_header) = Some "".

Lemma until_blank_after (after : option string) :
  Re.until_blank match after with
                 | None => ""
                 | Some text => Re.blank_line ++ text
                 end = "".
Proof. destruct after; reflexivity. Qed.

(** The section found in a generated report is its table. *)
Lemma section_search_report (rs : list plot_results.entry) (after : option string) :
  Forall well_formed rs ->
  Re.section_search (render_report before h1 h2 rs after)
  = Some (String LF (unlines (h1 :: h2 :: map render_row rs))).
Proof.
  intros Hrs. unfold Re.section_search, render_report.
  fold section_header. rewrite after_first_app by exact Hbefore.
  cbn [option_map]. f_equal.
  assert (Hlines : Forall table_line (h1 :: h2 :: map render_row rs)).
  { destruct Hh1 as [Hp1 Hl1], Hh2 as [Hp2 Hl2].
    repeat constructor; eauto using contains_nonempty.
    apply Forall_map. eapply Forall_impl; [|exact Hrs].
    intros x Hx. destruct (render_row_facts x Hx) as (? & _ & ? & _).
    now split. }
  cbn [append].
  destruct (unlines_head h1 (h2 :: map render_row rs)) as [x Hx].
  inversion Hlines as [|? ? Hl _]; subst.
  destruct (table_line_head h1 (x ++ match after with
                                     | None => ""
                                     | Some text => Re.blank_line ++ text
                                     end) Hl) as (c & s & Hcs & Hc).
  rewrite <- append_assoc, <- Hx in Hcs.
  rewrite Hcs, until_blank_lf, <- Hcs by assumption.
  now rewrite until_blank_unlines by auto using until_blank_after.
Qed.

End ParseReport.

(** C3.  Take entries whose driver and app are non-empty runs of word
    characters, whose trial count is any integer and whose percentages
    are non-negative integers.  Take a report made of any text, the
    header ['Fault Injection Results:'] (its first occurrence in the
    report), two table header lines containing ['|'], one row
    [driver/app | trials | auto% | manual% | failed%] per entry, and
    then the end of the text or an empty line and any text.  Parsing the
    report returns, in order, one entry per row with the same driver,
    app, trials and percentages (and the display name derived from app);
    nothing is skipped and no warning is printed. *)
Theorem C3_parse_recovers_entries
    (before h1 h2 : string) (rs : list plot_results.entry) (after : option string) :
  Re.after_first section_header (before ++ section_header) = Some "" ->
  header_line h1 -> header_line h2 ->
  Forall well_formed rs ->
  plot_results.parse_results (render_report before h1 h2 rs after) =
  ([ Print "Parsing results file...";
     Print ("Found " ++ Str.of_Z (Z.of_nat (length rs)) ++ " result entries.") ],
   Return (Some (map reparsed rs))).
Proof.
  intros Hbefore Hh1 Hh2 Hrs. unfold plot_results.parse_results.
  rewrite (section_search_report h1 h2 Hh1 Hh2 before Hbefore) by assumption.
  rewrite (data_lines_report h1 h2 Hh1 Hh2) by assumption.
  rewrite for_each_rows by assumption.
  rewrite bind_emit, bind_ret, bind_emit. cbn [app trace outcome ret fst snd].
  now rewrite length_map.
Qed.

Lemma C3_parse_recovers_entries_witness :
  plot_results.parse_results
    (render_report ("Report of run 7" ++ String LF "")
       "Application | Trials | Automatic | Manual | Failed"
       "------------|--------|-----------|--------|-------"
       two_entries (Some "End of report")) =
  ([ Print "Parsing results file..."; Print "Found 2 result entries." ],
   Return (Some two_entries)).
Proof.
  apply (C3_parse_recovers_entries ("Report of run 7" ++ String LF "")
           "Application | Trials | Automatic | Manual | Failed"
           "------------|--------|-----------|--------|-------"
           two_entries (Some "End of report")).
  - vm_compute. reflexivity.
  - split; vm_compute; reflexivity.
  - split; vm_compute; reflexivity.
  - repeat constructor; try discriminate; vm_compute; try reflexivity;
      discriminate.
Defined.

(** ** The shape of a row label *)

Section Label.

Lemma span_spec p (s x y : string) :
  Str.span p s = (x, y) ->
  s = x ++ y /\ all_chars p x = true /\
  match y with EmptyString => True | String c _ => p c = false end.
Proof.
  revert x y. induction s as [|c s IH]; intros x y; simpl.
  - intros [= <- <-]. auto.
  - destruct (p c) eqn:Hc.
    + destruct (Str.span p s) as [a b]. intros [= <- <-].
      destruct (IH a b eq_refl) as (-> & Ha & Hb).
      simpl. rewrite Hc, Ha. auto.
    + intros [= <- <-]. simpl. auto.
Qed.

(** What [re.match(r'(\w+)/(\w+)', s)] captures: the label starts with
    the two names, and the second one is as long as it can be. *)
Lemma label_match_some (s d a : string) :
  Re.label_match s = Some (d, a) <->
  word d /\ word a /\ exists rest, s = d ++ "/" ++ a ++ rest /\ no_word_ahead rest.
Proof.
  unfold Re.label_match. split.
  - destruct (Str.span is_word s) as [x y] eqn:E.
    apply span_spec in E as (-> & Hx & _).
    destruct x as [|c x]; [discriminate|].
    destruct y as [|c' y]; [discriminate|].
    destruct (Ascii.eqb_spec c' "/") as [->|]; [|discriminate].
    destruct (Str.span is_word y) as [x' y'] eqn:E'.
    apply span_spec in E' as (-> & Hx' & Hy'). cbn [fst].
    destruct x' as [|c' x']; [discriminate|].
    intros [= <- <-]. repeat split; try discriminate; auto.
    exists y'. auto.
  - intros ([Hd Hdw] & [Ha Haw] & rest & -> & Hrest).
    rewrite span_app by (auto; reflexivity).
    destruct d as [|c d]; [contradiction|].
    change ("/" ++ a ++ rest) with (String "/" (a ++ rest)). cbv iota beta.
    rewrite Ascii.eqb_refl, span_app by assumption. cbn [fst].
    destruct a; [contradiction | reflexivity].
Qed.



Lemma space_not_digit c : is_space c = true -> is_digit c = false.
Proof.
  intros H. destruct (is_digit c) eqn:E; [|reflexivity].
  apply digit_not_space in E. congruence.
Qed.

(** What [(\d+)\s*%] matches at the start of [s]: the digits, then
    whitespace, then the percent sign. *)
Lemma pct_here_some (s g : string) :
  Re.pct_here s = Some g <->
  g <> "" /\ all_chars is_digit g = true /\
  exists ws rest, all_chars is_space ws = true /\ s = g ++ ws ++ "%" ++ rest.
Proof.
  unfold Re.pct_here. split.
  - destruct (Str.span is_digit s) as [ds r] eqn:E.
    apply span_spec in E as (-> & Hds & _).
    destruct ds as [|c ds]; [discriminate|].
    destruct (Str.span is_space r) as [ws r'] eqn:E'.
    apply span_spec in E' as (-> & Hws & _). cbn [snd].
    destruct r' as [|c' r']; [discriminate|].
    destruct (Ascii.eqb_spec c' "%") as [->|]; [|discriminate].
    intros [= <-]. repeat split; try discriminate; auto.
    exists ws, r'. auto.
  - intros (Hne & Hd & ws & rest & Hws & ->).
    assert (Hnext : match ws ++ "%" ++ rest with
                    | EmptyString => True
                    | String c _ => is_digit c = false
                    end).
    { destruct ws as [|c ws]; [reflexivity|]. simpl in *.
      apply andb_true_iff in Hws as [Hc _]. now apply space_not_digit. }
    rewrite span_app by assumption.
    destruct g as [|c g]; [contradiction|].
    rewrite span_app by (auto; reflexivity). reflexivity.
Qed.

(** A captured percentage is a string of digits, so its conversion
    never fails. *)
Lemma pct_here_digits (s g : string) :
  Re.pct_here s = Some g -> g <> "" /\ all_chars is_digit g = true.
Proof.
  unfold Re.pct_here. destruct (Str.span is_digit s) as [ds r] eqn:E.
  apply span_spec in E as (_ & Hds & _).
  destruct ds as [|c ds]; [discriminate|].
  destruct (snd (Str.span is_space r)) as [|c' ?]; [discriminate|].
  destruct (Ascii.eqb c' "%"); [|discriminate].
  intros [= <-]. split; [discriminate | assumption].
Qed.

Lemma pct_search_digits (s g : string) :
  Re.pct_search s = Some g -> g <> "" /\ all_chars is_digit g = true.
Proof.
  induction s as [|c s IH]; cbn [Re.pct_search].
  - destruct (Re.pct_here "") eqn:E; [|discriminate].
    intros [= <-]. eapply pct_here_digits; eauto.
  - destruct (Re.pct_here (String c s)) eqn:E; [|exact IH].
    intros [= <-]. eapply pct_here_digits; eauto.
Qed.

Lemma int_digits_string (g : string) :
  g <> "" -> all_chars is_digit g = true -> exists z, Str.int g = Some z /\ 0 <= z.
Proof.
  intros Hne Hd. unfold Str.int, Str.strip.
  rewrite lstrip_no_space, rstrip_no_space by now apply digits_no_space.
  destruct g as [|c g]; [contradiction|].
  pose proof Hd as Hd'. simpl in Hd'. apply andb_true_iff in Hd' as [Hc _].
  rewrite (digit_is_not c "-"), (digit_is_not c "+") by (assumption || reflexivity).
  unfold Str.digits_value. rewrite int_digits_digits by (auto; left; discriminate).
  destruct (NilEmpty.uint_of_string (String c g)) as [u|] eqn:E.
  - eexists. split; [reflexivity | lia].
  - exfalso. clear - Hd E. revert E. generalize (String c g) as s, Hd.
    induction s as [|x s IH]; [discriminate|].
    simpl. intros H. apply andb_true_iff in H as [Hx Hs].
    destruct (NilEmpty.uint_of_string s) as [u|]; [|now specialize (IH Hs eq_refl)].
    intros E. clear IH.
    unfold is_digit, between, code in Hx.
    destruct x as [[] [] [] [] [] [] [] []]; try discriminate Hx; discriminate E.
Qed.

Lemma int_of_pct (s g : string) :
  Re.pct_search s = Some g -> exists z, int_of g = ret z /\ 0 <= z.
Proof.
  intros H. apply pct_search_digits in H as [Hne Hd].
  destruct (int_digits_string g Hne Hd) as (z & Hz & Hpos).
  exists z. unfold int_of. now rewrite Hz.
Qed.

End Label.




(** ** Candidate rows *)

Section Candidates.

(** A row with fewer than five columns leaves the accumulated entries
    as they are and prints nothing. *)
Lemma parse_line_short (line : string) (acc : list plot_results.entry) :
  (length (Str.split "|" line) < 5)%nat ->
  plot_results.parse_line line acc = ret acc.
Proof.
  intros H. unfold plot_results.parse_line.
  apply Nat.leb_gt in H. now rewrite H.
Qed.

Lemma for_each_long_rows (ls : list string) (acc : list plot_results.entry) :
  for_each ls plot_results.parse_line acc =
  for_each (filter long_enough ls) plot_results.parse_line acc.
Proof.
  revert acc. induction ls as [|l ls IH]; intros acc; [reflexivity|].
  cbn [filter]. unfold long_enough at 1.
  destruct (Nat.leb 5 (length (Str.split "|" l))) eqn:E.
  - cbn [for_each]. destruct (plot_results.parse_line l acc) as [t [acc'|e]];
      simpl; [now rewrite IH | reflexivity].
  - cbn [for_each]. rewrite parse_line_short by now apply Nat.leb_gt.
    rewrite bind_ret. apply IH.
Qed.

Lemma skipn_filter_in {A} (f : A -> bool) (n : nat) (l : list A) (x : A) :
  In x (skipn n (filter f l)) -> In x l /\ f x = true.
Proof.
  intros H. apply filter_In.
  rewrite <- (firstn_skipn n (filter f l)). apply in_or_app. now right.
Qed.

End Candidates.

(** C7.  When the results section is located, the candidate rows are
    lines of the trimmed section that contain ['|']; they are the
    pipe-containing lines without the first two of them, so there is no
    candidate, and the result is the empty list, when fewer than two
    such lines exist; and a candidate that splits into fewer than five
    columns adds nothing: the loop runs as if those rows were absent. *)
Theorem C7_candidate_rows (content body : string) :
  Re.section_search content = Some body ->
  let lines := Str.split LF (Str.strip body) in
  let piped := filter (Str.contains "|") lines in
  let candidates := plot_results.data_lines lines in
  (forall l, In l candidates -> In l lines /\ Str.contains "|" l = true) /\
  piped = (firstn 2 piped ++ candidates)%list /\
  length candidates = (length piped - 2)%nat /\
  ((length piped < 2)%nat ->
     candidates = [] /\
     outcome (plot_results.parse_results content) = Return (Some [])) /\
  (forall l acc, In l candidates -> (length (Str.split "|" l) < 5)%nat ->
     plot_results.parse_line l acc = ret acc) /\
  outcome (plot_results.parse_results content) =
  match outcome (for_each (filter long_enough candidates)
                   plot_results.parse_line []) with
  | Return results => Return (Some results)
  | Raise e => Raise e
  end.
Proof.
  intros Hsec lines piped candidates.
  assert (Hrun : outcome (plot_results.parse_results content) =
                 match outcome (for_each candidates plot_results.parse_line []) with
                 | Return results => Return (Some results)
                 | Raise e => Raise e
                 end).
  { unfold plot_results.parse_results. rewrite Hsec, bind_emit.
    cbn [outcome snd]. fold lines. fold candidates.
    destruct (for_each candidates plot_results.parse_line []) as [t [rs|e]];
      reflexivity. }
  repeat split.
  - eapply skipn_filter_in, H.
  - eapply skipn_filter_in, H.
  - symmetry. apply firstn_skipn.
  - unfold candidates, plot_results.data_lines. apply length_skipn.
  - unfold candidates, plot_results.data_lines. fold piped.
    apply skipn_all2. lia.
  - rewrite Hrun. unfold candidates, plot_results.data_lines. fold piped.
    rewrite skipn_all2 by lia. reflexivity.
  - intros l acc _. apply parse_line_short.
  - rewrite Hrun, <- for_each_long_rows. reflexivity.
Qed.

Lemma C7_candidate_rows_witness :
  outcome (plot_results.parse_results header_only_report) = Return (Some []) /\
  plot_results.parse_line "snd/mp3_player | 100 | 79%" [] = ret [].
Proof.
  pose proof (C7_candidate_rows header_only_report
                (String LF (unlines [ "Application | Trials | Automatic | Manual | Failed";
                                      "no table in this run" ]))) as H.
  cbv zeta in H.
  destruct H as (_ & _ & _ & Hfew & _); [vm_compute; reflexivity|].
  pose proof (C7_candidate_rows short_row_report
                (String LF (unlines [ "Application | Trials | Automatic | Manual | Failed";
                                      "------------|--------|-----------|--------|-------";
                                      "snd/mp3_player | 100 | 79%";
                                      "snd/audio_recorder | 100 | 44% | 56% | 0%" ]))) as H.
  cbv zeta in H.
  destruct H as (_ & _ & _ & _ & Hshort & _); [vm_compute; reflexivity|].
  split.
  - apply Hfew. vm_compute. lia.
  - apply Hshort; [vm_compute; left; reflexivity | vm_compute; lia].
Defined.

(** ** Display names *)

(** An entry is only ever appended by the loop body with the display
    name computed from its app. *)
Lemma parse_line_appends (line : string) (acc acc' : list plot_results.entry) :
  outcome (plot_results.parse_line line acc) = Return acc' ->
  acc' = acc \/
  exists d a t au m f,
    acc' = (acc ++ [plot_results.mk_entry d a (plot_results.readable_app a)
                      t au m f])%list.
Proof.
  unfold plot_results.parse_line. set (parts := Str.split "|" line).
  destruct (Nat.leb 5 (length parts)); [|intros [= <-]; now left].
  destruct (Str.int (Str.strip (nth 1 parts ""))) as [t|] eqn:Hint;
    [rewrite (int_of_some _ _ Hint), bind_ret
    |rewrite (int_of_none _ Hint); discriminate].
  destruct (Re.pct_search (Str.strip (nth 2 parts ""))) as [ga|] eqn:Ea;
    [|intros [= <-]; now left].
  destruct (Re.pct_search (Str.strip (nth 3 parts ""))) as [gm|] eqn:Em;
    [|intros [= <-]; now left].
  destruct (Re.pct_search (Str.strip (nth 4 parts ""))) as [gf|] eqn:Ef;
    [|intros [= <-]; now left].
  destruct (int_of_pct _ _ Ea) as (au & -> & _).
  destruct (int_of_pct _ _ Em) as (m & -> & _).
  destruct (int_of_pct _ _ Ef) as (f & -> & _).
  rewrite !bind_ret.
  destruct (Re.label_match _) as [[d a]|]; intros [= <-]; [right | now left].
  now exists d, a, t, au, m, f.
Qed.

(** C9.  The entry of every accepted row has the display name obtained
    from its app by replacing underscores with spaces and title-casing,
    except for the app of the override table, ["mp3_player"], shown as
    ["MP3 Player"]; ["audio_recorder"] is shown as ["Audio Recorder"]. *)
Theorem C9_display_name :
  (forall line acc e,
     outcome (plot_results.parse_line line acc) = Return (acc ++ [e])%list ->
     plot_results.display_name e =
     if String.eqb (plot_results.app e) "mp3_player" then "MP3 Player"
     else Str.title (Str.replace "_" " " (plot_results.app e))) /\
  plot_results.readable_app "mp3_player" = "MP3 Player" /\
  Str.title (Str.replace "_" " " "mp3_player") = "Mp3 Player" /\
  plot_results.readable_app "audio_recorder" = "Audio Recorder" /\
  outcome (plot_results.parse_line "snd/mp3_player | 100 | 79% | 16% | 5%" []) =
    Return [ plot_results.mk_entry "snd" "mp3_player" "MP3 Player" 100 79 16 5 ] /\
  outcome (plot_results.parse_line "snd/audio_recorder | 100 | 44% | 56% | 0%" []) =
    Return [ plot_results.mk_entry "snd" "audio_recorder" "Audio Recorder" 100 44 56 0 ].
Proof.
  split; [|repeat split; vm_compute; reflexivity].
  intros line acc e H. apply parse_line_appends in H as [H|H].
  - apply (f_equal (@length _)) in H. rewrite length_app in H. simpl in H. lia.
  - destruct H as (d & a & t & au & m & f & H).
    apply app_inv_head in H. injection H as ->. reflexivity.
Qed.

Lemma C9_display_name_witness :
  plot_results.display_name
    (plot_results.mk_entry "ide" "data_base" "Data Base" 7 1 2 3) = "Data Base".
Proof.
  apply (proj1 C9_display_name "ide/data_base | 7 | 1% | 2% | 3%" []
           (plot_results.mk_entry "ide" "data_base" "Data Base" 7 1 2 3)).
  vm_compute. reflexivity.
Defined.

(** ** The hardcoded dataset *)

(** C10.  Every entry of [simulation_results] has percentages that sum
    to 100 and 100 trials; the driver codes are snd, snd, e1000, e1000,
    ide, ide, so entries of one driver are next to each other: between
    two entries of the same driver every entry has that driver. *)
Theorem C10_simulation_results :
  Forall (fun r => plot.auto_pct r + plot.manual_pct r + plot.failed_pct r = 100
                   /\ plot.total_trials r = 100) plot.simulation_results /\
  map plot.driver plot.simulation_results =
    ["snd"; "snd"; "e1000"; "e1000"; "ide"; "ide"] /\
  (forall i j k,
     (i <= j <= k)%nat -> (k < length plot.simulation_results)%nat ->
     nth i (map plot.driver plot.simulation_results) "" =
     nth k (map plot.driver plot.simulation_results) "" ->
     nth j (map plot.driver plot.simulation_results) "" =
     nth i (map plot.driver plot.simulation_results) "").
Proof.
  split; [|split].
  - repeat constructor.
  - reflexivity.
  - intros i j k Hle Hk. simpl in Hk.
    assert (Hi : (i < 6)%nat) by lia. assert (Hj : (j < 6)%nat) by lia.
    destruct i as [|[|[|[|[|[|i]]]]]]; try lia;
      destruct j as [|[|[|[|[|[|j]]]]]]; try lia;
      destruct k as [|[|[|[|[|[|k]]]]]]; try lia;
      cbn; intros E; (reflexivity || discriminate E).
Qed.

Lemma C10_simulation_results_witness :
  nth 3 (map plot.driver plot.simulation_results) "" =
  nth 2 (map plot.driver plot.simulation_results) "".
Proof.
  apply (proj2 (proj2 C10_simulation_results) 2%nat 3%nat 3%nat).
  - lia.
  - simpl. lia.
  - reflexivity.
Defined.

(** ** Runs of categories *)

Section Runs.

Lemma group_acc_concat (l : list string) (c : string) (k : nat) :
  flat_map (fun '(c, k) => repeat c k) (group_acc c k l) = (repeat c k ++ l)%list.
Proof.
  revert c k. induction l as [|d l IH]; intros c k; simpl.
  - reflexivity.
  - destruct (String.eqb_spec d c) as [->|Hne].
    + rewrite IH. change (repeat c (S k)) with (c :: repeat c k).
      now rewrite (repeat_cons k c), <- app_assoc.
    + simpl. now rewrite IH.
Qed.

(** The runs put back together give the list. *)
Lemma group_concat (l : list string) :
  flat_map (fun '(c, k) => repeat c k) (group l) = l.
Proof. destruct l as [|c l]; [reflexivity|]. apply (group_acc_concat l c 1). Qed.

(** Runs are not empty. *)
Lemma group_acc_positive (l : list string) (c : string) (k : nat) :
  (0 < k)%nat -> Forall (fun ck => (0 < snd ck)%nat) (group_acc c k l).
Proof.
  revert c k. induction l as [|d l IH]; intros c k Hk; simpl.
  - repeat constructor. exact Hk.
  - destruct (String.eqb d c); [apply IH; lia|].
    constructor; [exact Hk | apply IH; lia].
Qed.

Lemma group_acc_head (l : list string) (c : string) (k : nat) :
  exists k' g, group_acc c k l = (c, k') :: g.
Proof.
  revert k. induction l as [|d l IH]; intros k; simpl; [now eexists _, _|].
  destruct (String.eqb d c); [apply IH | now eexists _, _].
Qed.

Lemma group_acc_alternating (l : list string) (c : string) (k : nat) :
  alternating (group_acc c k l).
Proof.
  revert c k. induction l as [|d l IH]; intros c k; simpl; [exact I|].
  destruct (String.eqb_spec d c) as [->|Hne]; [apply IH|].
  destruct (group_acc_head l d 1) as (k' & g & E).
  pose proof (IH d 1%nat) as H. rewrite E in *.
  split; [congruence | exact H].
Qed.

Lemma group_alternating (l : list string) : alternating (group l).
Proof. destruct l; [exact I | apply group_acc_alternating]. Qed.

Lemma group_single (c : string) : group [c] = [(c, 1%nat)].
Proof. reflexivity. Qed.

End Runs.

(** ** The loops of the renderers *)

Section Loops.

Lemma bind_run {A B} (t : list event) (a : A) (k : A -> Py B) :
  bind (t, Return a) k = ((t ++ trace (k a))%list, outcome (k a)).
Proof. unfold bind, trace, outcome. destruct (k a). reflexivity. Qed.

Lemma for_each_emit {A} (f : A -> event) (l : list A) :
  for_each l (fun a _ => emit (f a)) tt = (map f l, Return tt).
Proof.
  induction l as [|a l IH]; [reflexivity|].
  cbn [for_each map]. rewrite bind_emit, IH. reflexivity.
Qed.

Lemma changes_at (pre : list string) (cur d : string) (ds : list string) :
  changes (pre ++ cur :: d :: ds) (S (length pre)) = negb (String.eqb d cur).
Proof.
  unfold changes. rewrite app_nth2 by lia.
  replace (S (length pre) - length pre)%nat with 1%nat by lia.
  replace (S (length pre) - 1)%nat with (length pre) by lia.
  now rewrite nth_middle.
Qed.

(** [plot_results.py]: the positions collected by the separator loop.
    The loop is at slot [length pre + 1], [cur] is the category of the
    slot before and [ds] the categories still to come. *)
Lemma separator_loop_plot_results (ds pre : list string) (cur : string) (acc : list Q) :
  exists c,
    for_each (enumerate (Z.of_nat (S (length pre))) ds)
      plot_results.separator_step (acc, cur) =
    ret ((acc ++ map separator_at
                   (filter (changes (pre ++ cur :: ds))
                      (seq (S (length pre)) (length ds))))%list, c).
Proof.
  revert pre cur acc. induction ds as [|d ds IH]; intros pre cur acc.
  - exists cur. simpl. now rewrite app_nil_r.
  - cbn [enumerate for_each length seq filter].
    rewrite changes_at. unfold plot_results.separator_step at 1.
    replace (Z.of_nat (S (length pre)) + 1) with (Z.of_nat (S (length (pre ++ [cur]))))
      by (rewrite length_app; simpl; lia).
    replace (S (S (length pre))) with (S (length (pre ++ [cur])))
      by (rewrite length_app; simpl; lia).
    replace (pre ++ cur :: d :: ds)%list with ((pre ++ [cur]) ++ d :: ds)%list
      by now rewrite <- app_assoc.
    destruct (String.eqb_spec d cur) as [->|Hne]; cbn [negb]; rewrite bind_ret.
    + apply IH.
    + destruct (IH (pre ++ [cur])%list d (acc ++ [minus_half (Z.of_nat (S (length pre)))])%list)
        as [c Hc].
      exists c. rewrite Hc. cbn [map]. now rewrite <- app_assoc.
Qed.

(** [plot.py]: the lines drawn by the separator loop. *)
Lemma separator_loop_plot (ds pre : list string) (cur : string) :
  exists c,
    for_each (enumerate (Z.of_nat (S (length pre))) ds) plot.separator_step cur =
    (map AxVLine (map separator_at
                    (filter (changes (pre ++ cur :: ds))
                       (seq (S (length pre)) (length ds)))), Return c).
Proof.
  revert pre cur. induction ds as [|d ds IH]; intros pre cur.
  - exists cur. reflexivity.
  - cbn [enumerate for_each length seq filter].
    rewrite changes_at. unfold plot.separator_step at 1.
    replace (Z.of_nat (S (length pre)) + 1) with (Z.of_nat (S (length (pre ++ [cur]))))
      by (rewrite length_app; simpl; lia).
    replace (S (S (length pre))) with (S (length (pre ++ [cur])))
      by (rewrite length_app; simpl; lia).
    replace (pre ++ cur :: d :: ds)%list with ((pre ++ [cur]) ++ d :: ds)%list
      by now rewrite <- app_assoc.
    destruct (String.eqb_spec d cur) as [->|Hne]; cbn [negb].
    + destruct (IH (pre ++ [cur])%list cur) as [c Hc].
      exists c. rewrite bind_ret. exact Hc.
    + destruct (IH (pre ++ [cur])%list d) as [c Hc].
      exists c. rewrite bind_emit. cbn [trace outcome ret fst snd].
      rewrite bind_run, Hc. reflexivity.
Qed.


(** [plot_results.py]: the label loop.  The loop is at slot [i], the
    current run is of category [c], began at slot [st] and has [k]
    slots so far; [ds] are the categories still to come.  What the loop
    and the statements after it draw is the label and bracket of each
    run. *)
Lemma label_loop_plot_results (ds : list string) :
  forall (c : string) (k : nat) (st i n : Z),
    i = st + Z.of_nat k -> n = i + Z.of_nat (length ds) ->
    exists t st' c',
      for_each (enumerate i ds) plot_results.label_step (Some c, st) =
      (t, Return (Some c', st')) /\
      (t ++ [ Text (half (st' + n - 1)) 105 c' Bottom;
              PlotLine (minus_half st') 104 (minus_half n) 104 ])%list =
      labelled_runs true (spans st (group_acc c k ds)).
Proof.
  induction ds as [|d ds IH]; intros c k st i n Hi Hn.
  - exists [], st, c. split; [reflexivity|]. simpl in *.
    repeat (f_equal; try lia).
  - cbn [enumerate for_each group_acc length] in *.
    unfold plot_results.label_step at 1. cbn [differs].
    destruct (String.eqb_spec d c) as [->|Hne]; cbn [negb].
    + destruct (IH c (S k) st (i + 1) n) as (t & st' & c' & Hrun & Hev); try lia.
      exists t, st', c'. rewrite bind_ret. auto.
    + destruct (IH d 1%nat i (i + 1) n) as (t & st' & c' & Hrun & Hev); try lia.
      exists ([ Text (half (st + i - 1)) 105 c Bottom;
                PlotLine (minus_half st) 104 (minus_half i) 104 ] ++ t)%list, st', c'.
      split.
      * cbv [bind emit ret]. rewrite Hrun. reflexivity.
      * rewrite <- app_assoc, Hev. cbn [spans labelled_runs flat_map app].
        replace (st + Z.of_nat k) with i by lia.
        repeat (f_equal; try lia).
Qed.

(** [plot.py]: the label loop, which draws no bracket. *)
Lemma label_loop_plot (ds : list string) :
  forall (c : string) (k : nat) (st i n : Z),
    i = st + Z.of_nat k -> n = i + Z.of_nat (length ds) ->
    exists t st' c',
      for_each (enumerate i ds) plot.label_step (Some c, st) =
      (t, Return (Some c', st')) /\
      (t ++ [ Text (half (st' + n - 1)) 105 c' Bottom ])%list =
      labelled_runs false (spans st (group_acc c k ds)).
Proof.
  induction ds as [|d ds IH]; intros c k st i n Hi Hn.
  - exists [], st, c. split; [reflexivity|]. simpl in *.
    repeat (f_equal; try lia).
  - cbn [enumerate for_each group_acc length] in *.
    unfold plot.label_step at 1. cbn [differs].
    destruct (String.eqb_spec d c) as [->|Hne]; cbn [negb].
    + destruct (IH c (S k) st (i + 1) n) as (t & st' & c' & Hrun & Hev); try lia.
      exists t, st', c'. rewrite bind_ret. auto.
    + destruct (IH d 1%nat i (i + 1) n) as (t & st' & c' & Hrun & Hev); try lia.
      exists ([ Text (half (st + i - 1)) 105 c Bottom ] ++ t)%list, st', c'.
      split.
      * cbv [bind emit ret]. rewrite Hrun. reflexivity.
      * rewrite <- app_assoc, Hev. cbn [spans labelled_runs flat_map app].
        replace (st + Z.of_nat k) with i by lia.
        repeat (f_equal; try lia).
Qed.


(** *** Bars *)

Lemma enumerate_map {A B} (f : A -> B) (l : list A) (k : Z) :
  enumerate k (map f l) = map (fun '(i, a) => (i, f a)) (enumerate k l).
Proof.
  revert k. induction l as [|a l IH]; intros k; simpl; [reflexivity|].
  now rewrite IH.
Qed.

Lemma zip_arange {A} (l : list A) (k : nat) :
  zip (map Z.of_nat (seq k (length l))) l = enumerate (Z.of_nat k) l.
Proof.
  revert k. induction l as [|a l IH]; intros k; simpl; [reflexivity|].
  rewrite IH. do 2 f_equal. lia.
Qed.

Lemma zip_map {A B C} (f : A -> B) (g : A -> C) (l : list A) :
  zip (map f l) (map g l) = map (fun a => (f a, g a)) l.
Proof. induction l as [|a l IH]; simpl; [reflexivity | now rewrite IH]. Qed.

Lemma zip_enumerate_map {A B} (f : A -> B) (l : list A) (k : Z) :
  zip (enumerate k l) (map f l) = map (fun '(i, a) => (i, a, f a)) (enumerate k l).
Proof.
  revert k. induction l as [|a l IH]; intros k; simpl; [reflexivity|].
  now rewrite IH.
Qed.

Section Bars.

Context {R : Type} (fa fm ff : R -> Z) (w : Q) (rs : list R).

Lemma rectangles_auto :
  rectangles (arange (length rs)) (map fa rs) w None =
  map (fun '(i, r) => auto_segment w i (fa r)) (enumerate 0 rs).
Proof.
  unfold rectangles, arange. rewrite <- (length_map fa).
  rewrite (zip_arange (map fa rs) 0).
  rewrite enumerate_map, map_map. apply map_ext. now intros [i r].
Qed.

Lemma rectangles_manual :
  rectangles (arange (length rs)) (map fm rs) w (Some (map fa rs)) =
  map (fun '(i, r) => manual_segment w i (fa r) (fm r)) (enumerate 0 rs).
Proof.
  unfold rectangles, arange. rewrite <- (length_map fm).
  rewrite (zip_arange (map fm rs) 0), enumerate_map.
  change (Z.of_nat 0) with 0.
  assert (E : forall k,
    zip (map (fun '(i, a) => (i, fm a)) (enumerate k rs)) (map fa rs) =
    map (fun '(i, r) => (i, fm r, fa r)) (enumerate k rs)).
  { induction rs as [|r l IH]; intros k; simpl; [reflexivity | now rewrite IH]. }
  rewrite E, map_map. apply map_ext. now intros [i r].
Qed.

Lemma rectangles_failed :
  rectangles (arange (length rs)) (map ff rs) w
    (Some (map (fun '(a, m) => a + m) (zip (map fa rs) (map fm rs)))) =
  map (fun '(i, r) => failed_segment w i (fa r) (fm r) (ff r)) (enumerate 0 rs).
Proof.
  unfold rectangles, arange. rewrite <- (length_map ff).
  rewrite (zip_arange (map ff rs) 0), enumerate_map, zip_map, map_map.
  change (Z.of_nat 0) with 0.
  assert (E : forall k,
    zip (map (fun '(i, a) => (i, ff a)) (enumerate k rs))
        (map (fun r => fa r + fm r) rs) =
    map (fun '(i, r) => (i, ff r, fa r + fm r)) (enumerate k rs)).
  { induction rs as [|r l IH]; intros k; simpl; [reflexivity | now rewrite IH]. }
  rewrite E, map_map. apply map_ext. now intros [i r].
Qed.

End Bars.

(** *** Numbers inside the bars *)

(** [plot_results.py]: the overlay loop, at slot [length pre]. *)
Lemma overlay_loop_plot_results (w : Q) (rs pre : list Z) :
  for_each
    (enumerate (Z.of_nat (length pre))
       (map (fun '(i, a) => auto_segment w i a) (enumerate (Z.of_nat (length pre)) rs)))
    (plot_results.overlay_step (pre ++ rs)) tt =
  (map number_text
     (flat_map (guarded_number w) (enumerate (Z.of_nat (length pre)) rs)),
   Return tt).
Proof.
  revert pre. induction rs as [|a rs IH]; intros pre; [reflexivity|].
  cbn [enumerate map for_each flat_map].
  unfold plot_results.overlay_step at 1.
  cbn [auto_segment get_height height guarded_number].
  rewrite Nat2Z.id, nth_middle.
  replace (Z.of_nat (length pre) + 1) with (Z.of_nat (length (pre ++ [a])))
    by (rewrite length_app; simpl; lia).
  replace (pre ++ a :: rs)%list with ((pre ++ [a]) ++ rs)%list
    by now rewrite <- app_assoc.
  specialize (IH (pre ++ [a])%list).
  destruct (0 <? a)%Z.
  - rewrite bind_emit, IH. reflexivity.
  - rewrite bind_ret, IH. reflexivity.
Qed.

(** [plot.py]: the overlay loop. *)
Lemma overlay_loop_plot (l : list Z) (k : Z) :
  for_each (enumerate k l) plot.overlay_step tt =
  (map number_text (map plain_number (enumerate k l)), Return tt).
Proof.
  revert k. induction l as [|a l IH]; intros k; [reflexivity|].
  cbn [enumerate for_each map]. unfold plot.overlay_step at 1.
  rewrite bind_emit, IH. reflexivity.
Qed.

End Loops.

(** ** The renderers in closed form *)

Section Drawings.

Lemma rectangles_plain (w : Q) (hs : list Z) :
  rectangles (arange (length hs)) hs w None =
  map (fun '(i, a) => auto_segment w i a) (enumerate 0 hs).
Proof.
  unfold rectangles, arange. rewrite (zip_arange hs 0).
  apply map_ext. now intros [i a].
Qed.

Lemma for_each_events {A} (f : A -> event) (l : list A) :
  for_each l (fun a _ => ([f a], Return tt)) tt = (map f l, Return tt).
Proof. exact (for_each_emit f l). Qed.

Lemma change_points_cons (c : string) (cs : list string) :
  change_points (c :: cs) = filter (changes (c :: cs)) (seq 1 (length cs)).
Proof.
  unfold change_points. cbn [length app].
  now replace (S (length cs) - 1)%nat with (length cs) by lia.
Qed.

(** A run of [plot_results.create_graph] on a non-empty list draws
    [plot_results_drawing] and returns. *)
Lemma plot_results_create_graph_run (results : list plot_results.entry) :
  results <> [] ->
  plot_results.create_graph results = (plot_results_drawing results, Return tt).
Proof.
  destruct results as [|r rs]; [contradiction|]. intros _.
  unfold plot_results.create_graph, plot_results_drawing.
  cbv beta iota zeta. set (results := r :: rs).
  set (autos := map plot_results.auto_pct results).
  set (cats := plot_results.categories (map plot_results.driver results)).
  assert (Hn : length (map plot_results.display_name results) = length autos)
    by (unfold autos; now rewrite !length_map).
  pose proof (overlay_loop_plot_results (8 # 10) autos []) as Hov.
  cbn [length app] in Hov. change (Z.of_nat 0) with 0 in Hov.
  rewrite <- rectangles_plain, <- Hn in Hov.
  assert (Hcats : cats = (plot_results.categories [plot_results.driver r]
                          ++ plot_results.categories (map plot_results.driver rs))%list)
    by reflexivity.
  cbn [plot_results.categories map app] in Hcats.
  set (c0 := dict_get plot_results.driver_names (plot_results.driver r)
               (Str.upper (plot_results.driver r))) in Hcats.
  set (cs := plot_results.categories (map plot_results.driver rs)) in Hcats.
  destruct (separator_loop_plot_results cs [] c0 []) as [c Hsep].
  cbn [length app] in Hsep. change (Z.of_nat 1) with 1 in Hsep.
  rewrite <- change_points_cons, <- Hcats in Hsep.
  destruct (label_loop_plot_results cs c0 1 0 1 (Z.of_nat (length cats)))
    as (t & st' & c' & Hlab & Hev);
    [reflexivity | rewrite Hcats; cbn [length]; lia |].
  change (group_acc c0 1 cs) with (group (c0 :: cs)) in Hev.
  rewrite <- Hcats in Hev.
  assert (Hlab' : for_each (enumerate 0 cats) plot_results.label_step (None, 0)
                  = (t, Return (Some c', st'))).
  { rewrite Hcats. cbn [enumerate for_each].
    unfold plot_results.label_step at 1. cbn [differs].
    rewrite !bind_ret. exact Hlab. }
  assert (Hfirst : first cats = ret c0) by now rewrite Hcats.
  assert (Htl : tl cats = cs) by now rewrite Hcats.
  rewrite Hfirst, Htl.
  cbv [bind emit ax_bar ret].
  rewrite Hov; cbv beta iota. rewrite Hsep; cbv [ret]; cbv beta iota. cbn [fst].
  rewrite for_each_events; cbv beta iota. rewrite Hlab'; cbv beta iota.
  cbn [fst snd app]. f_equal.
  rewrite <- Hev, <- app_assoc. reflexivity.
Qed.


(** A run of [plot.create_graph] on a non-empty list draws
    [plot_drawing] and returns. *)
Lemma plot_create_graph_run (results : list plot.entry) :
  results <> [] ->
  plot.create_graph results = (plot_drawing results, Return tt).
Proof.
  destruct results as [|r rs]; [contradiction|]. intros _.
  unfold plot.create_graph, plot_drawing.
  cbv beta iota zeta. set (results := r :: rs).
  set (autos := map plot.auto_pct results).
  set (cats := plot.categories (map plot.driver results)).
  pose proof (overlay_loop_plot autos 0) as Hov.
  assert (Hcats : cats = (plot.categories [plot.driver r]
                          ++ plot.categories (map plot.driver rs))%list)
    by reflexivity.
  cbn [plot.categories map app] in Hcats.
  set (c0 := dict_get plot.driver_names (plot.driver r)
               (Str.upper (plot.driver r))) in Hcats.
  set (cs := plot.categories (map plot.driver rs)) in Hcats.
  destruct (separator_loop_plot cs [] c0) as [c Hsep].
  cbn [length app] in Hsep. change (Z.of_nat 1) with 1 in Hsep.
  rewrite <- change_points_cons, <- Hcats in Hsep.
  destruct (label_loop_plot cs c0 1 0 1 (Z.of_nat (length cats)))
    as (t & st' & c' & Hlab & Hev);
    [reflexivity | rewrite Hcats; cbn [length]; lia |].
  change (group_acc c0 1 cs) with (group (c0 :: cs)) in Hev.
  rewrite <- Hcats in Hev.
  assert (Hlab' : for_each (enumerate 0 cats) plot.label_step (None, 0)
                  = (t, Return (Some c', st'))).
  { rewrite Hcats. cbn [enumerate for_each].
    unfold plot.label_step at 1. cbn [differs].
    rewrite !bind_ret. exact Hlab. }
  assert (Hfirst : first cats = ret c0) by now rewrite Hcats.
  assert (Htl : tl cats = cs) by now rewrite Hcats.
  rewrite Hfirst, Htl.
  cbv [bind emit ax_bar ret].
  rewrite Hov; cbv beta iota. rewrite Hsep; cbv beta iota.
  rewrite Hlab'; cbv beta iota. rewrite for_each_events.
  cbn [fst snd app]. f_equal.
  rewrite <- Hev, <- app_assoc. reflexivity.
Qed.

(** On the empty list [plot.create_graph] stops at [drivers[0]]. *)
Lemma plot_create_graph_empty :
  plot.create_graph [] =
  ([ Print "Generating graph based on simulation results...";
     Bar [] [] (6 # 10) None;
     Bar [] [] (6 # 10) (Some []);
     Bar [] [] (6 # 10) (Some []);
     SetYLim 0 100;
     SetXTickLabels [] ], Raise IndexError).
Proof. reflexivity. Qed.

End Drawings.

(** ** Reading the drawings *)

Section Reading.

Lemma flat_map_map_nil {A B C} (f : B -> list C) (g : A -> B) (l : list A) :
  (forall a, f (g a) = []) -> flat_map f (map g l) = [].
Proof. intros H. induction l as [|a l IH]; simpl; [reflexivity | now rewrite H, IH]. Qed.

Lemma flat_map_map_one {A B C} (f : B -> list C) (g : A -> B) (h : A -> C)
    (l : list A) :
  (forall a, f (g a) = [h a]) -> flat_map f (map g l) = map h l.
Proof. intros H. induction l as [|a l IH]; simpl; [reflexivity | now rewrite H, IH]. Qed.

Lemma numbers_number_text (l : list (Q * Q * string)) :
  numbers (map number_text l) = l.
Proof.
  unfold numbers. rewrite (flat_map_map_one _ _ (fun n => n)), map_id; auto.
  now intros [[x y] s].
Qed.

Lemma numbers_vlines (l : list Q) : numbers (map AxVLine l) = [].
Proof. now apply flat_map_map_nil. Qed.

Lemma numbers_runs (b : bool) (runs : list (Z * Z * string)) :
  numbers (labelled_runs b runs) = [].
Proof.
  induction runs as [|[[s e] c] runs IH]; [reflexivity|].
  unfold numbers, labelled_runs in *. cbn [flat_map]. rewrite flat_map_app, IH.
  destruct b; reflexivity.
Qed.

Lemma numbers_summary (l : list plot.entry) :
  numbers (map (fun r => Print (plot.summary_line r)) l) = [].
Proof. now apply flat_map_map_nil. Qed.

Lemma labels_number_text (l : list (Q * Q * string)) :
  labels (map number_text l) = [].
Proof. apply flat_map_map_nil. now intros [[x y] s]. Qed.

Lemma labels_vlines (l : list Q) : labels (map AxVLine l) = [].
Proof. now apply flat_map_map_nil. Qed.

Lemma labels_runs (b : bool) (runs : list (Z * Z * string)) :
  labels (labelled_runs b runs) = map run_label runs.
Proof.
  induction runs as [|[[s e] c] runs IH]; [reflexivity|].
  unfold labels, labelled_runs in *. cbn [flat_map map]. rewrite flat_map_app, IH.
  destruct b; reflexivity.
Qed.

Lemma labels_summary (l : list plot.entry) :
  labels (map (fun r => Print (plot.summary_line r)) l) = [].
Proof. now apply flat_map_map_nil. Qed.

Lemma vlines_number_text (l : list (Q * Q * string)) :
  vlines (map number_text l) = [].
Proof. apply flat_map_map_nil. now intros [[x y] s]. Qed.

Lemma vlines_vlines (l : list Q) : vlines (map AxVLine l) = l.
Proof.
  unfold vlines. rewrite (flat_map_map_one _ _ (fun x => x)), map_id; auto.
Qed.

Lemma vlines_runs (b : bool) (runs : list (Z * Z * string)) :
  vlines (labelled_runs b runs) = [].
Proof.
  induction runs as [|[[s e] c] runs IH]; [reflexivity|].
  unfold vlines, labelled_runs in *. cbn [flat_map]. rewrite flat_map_app, IH.
  destruct b; reflexivity.
Qed.

Lemma vlines_summary (l : list plot.entry) :
  vlines (map (fun r => Print (plot.summary_line r)) l) = [].
Proof. now apply flat_map_map_nil. Qed.

Lemma bars_number_text (l : list (Q * Q * string)) :
  bars (map number_text l) = [].
Proof. apply flat_map_map_nil. now intros [[x y] s]. Qed.

Lemma bars_vlines (l : list Q) : bars (map AxVLine l) = [].
Proof. now apply flat_map_map_nil. Qed.

Lemma bars_runs (b : bool) (runs : list (Z * Z * string)) :
  bars (labelled_runs b runs) = [].
Proof.
  induction runs as [|[[s e] c] runs IH]; [reflexivity|].
  unfold bars, labelled_runs in *. cbn [flat_map]. rewrite flat_map_app, IH.
  destruct b; reflexivity.
Qed.

Lemma bars_summary (l : list plot.entry) :
  bars (map (fun r => Print (plot.summary_line r)) l) = [].
Proof. now apply flat_map_map_nil. Qed.

Lemma bars_app (t t' : list event) : bars (t ++ t') = (bars t ++ bars t')%list.
Proof. apply flat_map_app. Qed.

Lemma vlines_app (t t' : list event) : vlines (t ++ t') = (vlines t ++ vlines t')%list.
Proof. apply flat_map_app. Qed.

Lemma numbers_app (t t' : list event) :
  numbers (t ++ t') = (numbers t ++ numbers t')%list.
Proof. apply flat_map_app. Qed.

Lemma labels_app (t t' : list event) : labels (t ++ t') = (labels t ++ labels t')%list.
Proof. apply flat_map_app. Qed.

End Reading.

(** *** What each reading finds in the two drawings *)

Section ReadDrawings.

Variable results : list plot_results.entry.
Variable results' : list plot.entry.

Lemma bars_plot_results_drawing :
  bars (plot_results_drawing results) =
  [ map (fun '(i, r) => auto_segment (8 # 10) i (plot_results.auto_pct r))
        (enumerate 0 results);
    map (fun '(i, r) => manual_segment (8 # 10) i (plot_results.auto_pct r)
                          (plot_results.manual_pct r))
        (enumerate 0 results);
    map (fun '(i, r) => failed_segment (8 # 10) i (plot_results.auto_pct r)
                          (plot_results.manual_pct r) (plot_results.failed_pct r))
        (enumerate 0 results) ].
Proof.
  unfold plot_results_drawing. rewrite !bars_app.
  rewrite bars_number_text, bars_vlines, bars_runs.
  cbn [bars flat_map app]. rewrite length_map.
  rewrite (rectangles_auto plot_results.auto_pct).
  rewrite (rectangles_manual plot_results.auto_pct plot_results.manual_pct).
  rewrite (rectangles_failed plot_results.auto_pct plot_results.manual_pct
             plot_results.failed_pct).
  reflexivity.
Qed.

Lemma bars_plot_drawing :
  bars (plot_drawing results') =
  [ map (fun '(i, r) => auto_segment (6 # 10) i (plot.auto_pct r))
        (enumerate 0 results');
    map (fun '(i, r) => manual_segment (6 # 10) i (plot.auto_pct r)
                          (plot.manual_pct r))
        (enumerate 0 results');
    map (fun '(i, r) => failed_segment (6 # 10) i (plot.auto_pct r)
                          (plot.manual_pct r) (plot.failed_pct r))
        (enumerate 0 results') ].
Proof.
  unfold plot_drawing. rewrite !bars_app.
  rewrite bars_number_text, bars_vlines, bars_runs, bars_summary.
  cbn [bars flat_map app]. rewrite length_map.
  rewrite (rectangles_auto plot.auto_pct).
  rewrite (rectangles_manual plot.auto_pct plot.manual_pct).
  rewrite (rectangles_failed plot.auto_pct plot.manual_pct plot.failed_pct).
  reflexivity.
Qed.

Lemma vlines_plot_results_drawing :
  vlines (plot_results_drawing results) =
  map separator_at
    (change_points (plot_results.categories (map plot_results.driver results))).
Proof.
  unfold plot_results_drawing. rewrite !vlines_app.
  rewrite vlines_number_text, vlines_vlines, vlines_runs.
  cbn [vlines flat_map app]. now rewrite app_nil_r.
Qed.

Lemma vlines_plot_drawing :
  vlines (plot_drawing results') =
  map separator_at (change_points (plot.categories (map plot.driver results'))).
Proof.
  unfold plot_drawing. rewrite !vlines_app.
  rewrite vlines_number_text, vlines_vlines, vlines_runs, vlines_summary.
  cbn [vlines flat_map app]. now rewrite app_nil_r.
Qed.

Lemma labels_plot_results_drawing :
  labels (plot_results_drawing results) =
  map run_label
    (spans 0 (group (plot_results.categories (map plot_results.driver results)))).
Proof.
  unfold plot_results_drawing. rewrite !labels_app.
  rewrite labels_number_text, labels_vlines, labels_runs.
  cbn [labels flat_map app]. now rewrite app_nil_r.
Qed.

Lemma labels_plot_drawing :
  labels (plot_drawing results') =
  map run_label (spans 0 (group (plot.categories (map plot.driver results')))).
Proof.
  unfold plot_drawing. rewrite !labels_app.
  rewrite labels_number_text, labels_vlines, labels_runs, labels_summary.
  cbn [labels flat_map app]. now rewrite app_nil_r.
Qed.

Lemma numbers_plot_results_drawing :
  numbers (plot_results_drawing results) =
  flat_map (guarded_number (8 # 10))
    (enumerate 0 (map plot_results.auto_pct results)).
Proof.
  unfold plot_results_drawing. rewrite !numbers_app.
  rewrite numbers_number_text, numbers_vlines, numbers_runs.
  cbn [numbers flat_map app]. now rewrite app_nil_r.
Qed.

Lemma numbers_plot_drawing :
  numbers (plot_drawing results') =
  map plain_number (enumerate 0 (map plot.auto_pct results')).
Proof.
  unfold plot_drawing. rewrite !numbers_app.
  rewrite numbers_number_text, numbers_vlines, numbers_runs, numbers_summary.
  cbn [numbers flat_map app]. now rewrite app_nil_r.
Qed.

End ReadDrawings.

(** ** Stacked bars *)

(** C2.  For a non-empty list, both renderers draw exactly three bar
    containers, in the order automatic, manual, failed; the segments of
    entry number [i] start at 0, at [auto_pct] and at
    [auto_pct + manual_pct], each segment starts where the one below
    ends, and the stack ends at [auto_pct + manual_pct + failed_pct],
    whatever that sum is. *)
Theorem C2_stacked_segments :
  (forall results, results <> [] ->
     bars (trace (plot_results.create_graph results)) =
     [ map (fun '(i, r) => auto_segment (8 # 10) i (plot_results.auto_pct r))
           (enumerate 0 results);
       map (fun '(i, r) => manual_segment (8 # 10) i (plot_results.auto_pct r)
                             (plot_results.manual_pct r))
           (enumerate 0 results);
       map (fun '(i, r) => failed_segment (8 # 10) i (plot_results.auto_pct r)
                             (plot_results.manual_pct r) (plot_results.failed_pct r))
           (enumerate 0 results) ]) /\
  (forall results, results <> [] ->
     bars (trace (plot.create_graph results)) =
     [ map (fun '(i, r) => auto_segment (6 # 10) i (plot.auto_pct r))
           (enumerate 0 results);
       map (fun '(i, r) => manual_segment (6 # 10) i (plot.auto_pct r)
                             (plot.manual_pct r))
           (enumerate 0 results);
       map (fun '(i, r) => failed_segment (6 # 10) i (plot.auto_pct r)
                             (plot.manual_pct r) (plot.failed_pct r))
           (enumerate 0 results) ]) /\
  (forall w i a m f,
     bottom (auto_segment w i a) = 0 /\
     height (auto_segment w i a) = a /\
     bottom (manual_segment w i a m) = top (auto_segment w i a) /\
     bottom (manual_segment w i a m) = a /\
     height (manual_segment w i a m) = m /\
     bottom (failed_segment w i a m f) = top (manual_segment w i a m) /\
     bottom (failed_segment w i a m f) = a + m /\
     height (failed_segment w i a m f) = f /\
     top (failed_segment w i a m f) = a + m + f).
Proof.
  split; [|split].
  - intros results Hne. rewrite plot_results_create_graph_run by assumption.
    apply bars_plot_results_drawing.
  - intros results Hne. rewrite plot_create_graph_run by assumption.
    apply bars_plot_drawing.
  - intros. unfold top. cbn. repeat split; lia.
Qed.

Lemma C2_stacked_segments_witness :
  bars (trace (plot_results.create_graph [overfull])) =
  [ [mk_rect 0 0 90 (8 # 10)]; [mk_rect 0 90 30 (8 # 10)];
    [mk_rect 0 120 10 (8 # 10)] ] /\
  top (mk_rect 0 120 10 (8 # 10)) = 130.
Proof.
  split; [|reflexivity].
  apply (proj1 C2_stacked_segments [overfull]). discriminate.
Defined.

(** ** Separators and category labels *)

(** C4.  For a non-empty list, both renderers draw a vertical line at
    [i - 0.5] for exactly the slots [i >= 1] whose category differs
    from that of slot [i - 1], in order, and one label per run of equal
    adjacent categories, at the middle of the run and at height 105.
    The runs are the blocks of [group]: put back together they give the
    category list, and two adjacent blocks differ in category.  A list
    of one entry gets no line and one label. *)
Theorem C4_separators_and_labels :
  (forall results, results <> [] ->
     let cats := plot_results.categories (map plot_results.driver results) in
     let t := trace (plot_results.create_graph results) in
     vlines t = map separator_at (change_points cats) /\
     labels t = map run_label (spans 0 (group cats)) /\
     (length results = 1%nat ->
      vlines t = [] /\ labels t = [(half 0, 105%Q, nth 0 cats "")])) /\
  (forall results, results <> [] ->
     let cats := plot.categories (map plot.driver results) in
     let t := trace (plot.create_graph results) in
     vlines t = map separator_at (change_points cats) /\
     labels t = map run_label (spans 0 (group cats)) /\
     (length results = 1%nat ->
      vlines t = [] /\ labels t = [(half 0, 105%Q, nth 0 cats "")])) /\
  (forall cats : list string,
     flat_map (fun '(c, k) => repeat c k) (group cats) = cats /\
     Forall (fun ck => (0 < snd ck)%nat) (group cats) /\
     alternating (group cats)) /\
  (forall i : nat, (separator_at i == inject_Z (Z.of_nat i) - (1 # 2))%Q) /\
  (forall s e c, exists x,
     run_label (s, e, c) = (x, 105%Q, c) /\ (x == inject_Z (s + e) / 2)%Q).
Proof.
  split; [|split; [|split; [|split]]].
  - intros results Hne cats t. subst t cats.
    rewrite plot_results_create_graph_run by assumption. cbn [trace fst].
    rewrite vlines_plot_results_drawing, labels_plot_results_drawing.
    repeat split.
    + destruct results as [|r [|r' rs]]; [contradiction | | discriminate].
      reflexivity.
    + destruct results as [|r [|r' rs]]; [contradiction | | discriminate].
      reflexivity.
  - intros results Hne cats t. subst t cats.
    rewrite plot_create_graph_run by assumption. cbn [trace fst].
    rewrite vlines_plot_drawing, labels_plot_drawing.
    repeat split.
    + destruct results as [|r [|r' rs]]; [contradiction | | discriminate].
      reflexivity.
    + destruct results as [|r [|r' rs]]; [contradiction | | discriminate].
      reflexivity.
  - intros cats. split; [apply group_concat|split].
    + destruct cats; [constructor | apply group_acc_positive; lia].
    + apply group_alternating.
  - intros i. reflexivity.
  - intros s e c. eexists. split; reflexivity.
Qed.

Lemma C4_separators_and_labels_witness :
  vlines (trace (plot_results.create_graph ungrouped)) =
    [ minus_half 1; minus_half 2 ] /\
  labels (trace (plot_results.create_graph ungrouped)) =
    [ (half (0 + (0 + 1 - 1)), 105%Q, "Sound");
      (half (1 + (1 + 1 - 1)), 105%Q, "IDE");
      (half (2 + (2 + 1 - 1)), 105%Q, "Sound") ].
Proof.
  split.
  - apply (proj1 C4_separators_and_labels ungrouped). discriminate.
  - apply (proj1 C4_separators_and_labels ungrouped). discriminate.
Defined.

(** ** Numbers inside the bars *)

(** C6 (the code departs from the claim in [plot.py]).  The claim: the
    automatic percentage of an entry is written inside its
    automatic-recovery segment, at the middle of the bar and at half the
    height of the segment, only when that height is positive, and an
    entry with [auto_pct = 0] gets no number.
    [plot_results.create_graph] does so: its overlay loop tests
    [height > 0].  The overlay loop of [plot.create_graph] has no such
    test and writes the number of every entry: the entry
    [never_automatic_plot], with [auto_pct = 0], gets the number ["0"]
    at the foot of its bar. *)
Theorem C6_numbers_in_bars :
  (forall results, results <> [] ->
     numbers (trace (plot_results.create_graph results)) =
     flat_map (guarded_number (8 # 10))
       (enumerate 0 (map plot_results.auto_pct results))) /\
  (forall w i a, a <= 0 -> guarded_number w (i, a) = []) /\
  (forall w i a, 0 < a ->
     guarded_number w (i, a) = [(slot_center w i, half a, Str.of_Z a)]) /\
  (forall w i, (slot_center w i == inject_Z i)%Q) /\
  (forall a, (half a == inject_Z a / 2)%Q) /\
  (forall results, results <> [] ->
     numbers (trace (plot.create_graph results)) =
     map plain_number (enumerate 0 (map plot.auto_pct results))) /\
  plot.auto_pct never_automatic_plot = 0 /\
  numbers (trace (plot.create_graph [never_automatic_plot])) =
    [ (inject_Z 0, half 0, "0") ].
Proof.
  repeat split.
  - intros results Hne. rewrite plot_results_create_graph_run by assumption.
    apply numbers_plot_results_drawing.
  - intros w i a Ha. unfold guarded_number.
    destruct (Z.ltb_spec 0 a); [lia | reflexivity].
  - intros w i a Ha. unfold guarded_number.
    destruct (Z.ltb_spec 0 a); [reflexivity | lia].
  - intros w i. unfold slot_center. ring.
  - intros results Hne. rewrite plot_create_graph_run by assumption.
    apply numbers_plot_drawing.
Qed.

Lemma C6_numbers_in_bars_witness :
  numbers (trace (plot_results.create_graph [overfull; never_automatic])) =
  [ (slot_center (8 # 10) 0, half 90, "90") ].
Proof.
  apply (proj1 C6_numbers_in_bars [overfull; never_automatic]). discriminate.
Defined.

(** ** The empty list *)

(** C8 (the code departs from the claim in [plot.py]).  The claim: for
    the empty list the renderer reports the error and returns, and
    writes no file.  [plot_results.create_graph] does so: it prints
    ["No results to plot!"] and returns, having drawn nothing.
    [plot.create_graph] has no test for the empty list: it prints its
    opening message, sets up the empty bars and raises [IndexError] at
    [drivers[0]]; it reports nothing and does not return.  Neither
    writes a file. *)
Theorem C8_empty_list :
  plot_results.create_graph [] = ([Print "No results to plot!"], Return tt) /\
  files_of (trace (plot_results.create_graph [])) = [] /\
  outcome (plot.create_graph []) = Raise IndexError /\
  printed (trace (plot.create_graph [])) =
    [ "Generating graph based on simulation results..." ] /\
  files_of (trace (plot.create_graph [])) = [].
Proof. repeat split. Qed.

(** On a non-empty list the files are written: the image and the CSV
    file by [plot_results.py], the image and the PDF by [plot.py]. *)
Lemma files_written :
  (forall results, results <> [] ->
     files_of (trace (plot_results.create_graph results)) =
     ["fault_injection_outcomes.png"; "fault_injection_results.csv"]) /\
  (forall results, results <> [] ->
     files_of (trace (plot.create_graph results)) =
     ["fault_injection_outcomes.png"; "fault_injection_outcomes.pdf"]).
Proof.
  assert (Hn : forall l, files_of (map number_text l) = [])
    by (intros l; apply flat_map_map_nil; now intros [[x y] s]).
  assert (Hv : forall l, files_of (map AxVLine l) = [])
    by (intros l; now apply flat_map_map_nil).
  assert (Hr : forall b runs, files_of (labelled_runs b runs) = []).
  { intros b runs. induction runs as [|[[s e] c] runs IH]; [reflexivity|].
    unfold files_of, labelled_runs in *. cbn [flat_map].
    rewrite flat_map_app, IH. destruct b; reflexivity. }
  assert (Hs : forall l, files_of (map (fun r => Print (plot.summary_line r)) l) = [])
    by (intros l; now apply flat_map_map_nil).
  split; intros results Hne.
  - rewrite plot_results_create_graph_run by assumption. cbn [trace fst].
    unfold plot_results_drawing, files_of.
    rewrite !flat_map_app. fold files_of. rewrite Hn, Hv, Hr. reflexivity.
  - rewrite plot_create_graph_run by assumption. cbn [trace fst].
    unfold plot_drawing, files_of.
    rewrite !flat_map_app. fold files_of. rewrite Hn, Hv, Hr, Hs. reflexivity.
Qed.

(** * Further properties of the code *)

(** ** The results section *)

Section Section_search.

Lemma after_first_some (lit s r : string) :
  Re.after_first lit s = Some r -> exists a, s = a ++ lit ++ r.
Proof.
  induction s as [|c s IH]; cbn [Re.after_first].
  - destruct (Str.strip_prefix lit "") as [x|] eqn:E; [|discriminate].
    intros [= <-]. apply strip_prefix_some in E. now exists "".
  - destruct (Str.strip_prefix lit (String c s)) as [x|] eqn:E.
    + intros [= <-]. apply strip_prefix_some in E. now exists "".
    + intros H. destruct (IH H) as [a ->]. now exists (String c a).
Qed.

Lemma after_first_occurs (lit a b : string) :
  Re.after_first lit (a ++ lit ++ b) <> None.
Proof.
  induction a as [|c a IH].
  - cbn [append]. destruct (lit ++ b) eqn:E; cbn [Re.after_first];
      rewrite <- E, strip_prefix_app; discriminate.
  - cbn [append Re.after_first].
    destruct (Str.strip_prefix lit (String c (a ++ lit ++ b))); [discriminate|].
    exact IH.
Qed.

Lemma after_first_none (lit s : string) :
  Re.after_first lit s = None <-> ~ occurs lit s.
Proof.
  split.
  - intros H (a & b & ->). now apply (after_first_occurs lit a b).
  - intros H. destruct (Re.after_first lit s) as [r|] eqn:E; [|reflexivity].
    exfalso. apply H. apply after_first_some in E as [a ->]. now exists a, r.
Qed.

End Section_search.

(** X1.  [parse_results] returns [None] exactly when the text
    ["Fault Injection Results:"] occurs nowhere in the contents of the
    file; it then prints the error message and raises nothing.  When the
    text occurs, the result is a list or an exception, never [None]. *)
Theorem X1_section_not_found (content : string) :
  (outcome (plot_results.parse_results content) = Return None <->
   ~ occurs section_header content) /\
  (~ occurs section_header content ->
   plot_results.parse_results content =
   ([ Print "Parsing results file...";
      Print "Error: Results section not found in the file!" ], Return None)).
Proof.
  assert (Hnone : Re.section_search content = None <->
                  ~ occurs section_header content).
  { unfold Re.section_search. fold section_header.
    rewrite <- after_first_none.
    destruct (Re.after_first section_header content); simpl; split; congruence. }
  split; [split|].
  - intros H. apply Hnone.
    unfold plot_results.parse_results in H.
    destruct (Re.section_search content) as [body|]; [|reflexivity].
    exfalso. rewrite bind_emit in H. cbn [outcome snd] in H.
    destruct (for_each _ plot_results.parse_line []) as [t [rs|e]];
      cbn in H; discriminate.
  - intros H. apply Hnone in H. unfold plot_results.parse_results.
    now rewrite H.
  - intros H. apply Hnone in H. unfold plot_results.parse_results.
    now rewrite H.
Qed.

Lemma X1_section_not_found_witness :
  plot_results.parse_results "Fault injection results" =
  ([ Print "Parsing results file...";
     Print "Error: Results section not found in the file!" ], Return None).
Proof.
  apply (proj2 (X1_section_not_found "Fault injection results")).
  apply after_first_none. vm_compute. reflexivity.
Defined.

(** ** Rows that can be read *)

Section Readable_rows.

(** The loop body on a readable row: a warning or not, an entry or
    not, by the shape of the row alone. *)
Lemma parse_line_readable (line : string) :
  readable line ->
  exists oe : option plot_results.entry,
    (forall acc,
       plot_results.parse_line line acc =
       (if warned line then [Print (warning line)] else [],
        Return (acc ++ option_list oe)%list)) /\
    (oe <> None <-> accepted line = true) /\
    (forall e, oe = Some e -> parsed_entry e).
Proof.
  intros Hread. unfold readable, trials_of, long_enough in Hread.
  unfold warned, accepted, pcts_found, label_found, label_of, long_enough,
    plot_results.parse_line.
  set (parts := Str.split "|" line) in *.
  destruct (Nat.leb 5 (length parts)).
  2:{ exists None. split; [intros acc; cbn; now rewrite app_nil_r|].
      cbn. repeat split; congruence. }
  destruct (Str.int (Str.strip (nth 1 parts ""))) as [t|] eqn:Hint;
    [|now specialize (Hread eq_refl)].
  rewrite (int_of_some _ _ Hint).
  destruct (Re.pct_search (Str.strip (nth 2 parts ""))) as [ga|] eqn:Ea.
  2:{ exists None. split; [intros acc; rewrite bind_ret; cbn; now rewrite app_nil_r|].
      cbn. repeat split; congruence. }
  destruct (Re.pct_search (Str.strip (nth 3 parts ""))) as [gm|] eqn:Em.
  2:{ exists None. split; [intros acc; rewrite bind_ret; cbn; now rewrite app_nil_r|].
      cbn. repeat split; congruence. }
  destruct (Re.pct_search (Str.strip (nth 4 parts ""))) as [gf|] eqn:Ef.
  2:{ exists None. split; [intros acc; rewrite bind_ret; cbn; now rewrite app_nil_r|].
      cbn. repeat split; congruence. }
  destruct (int_of_pct _ _ Ea) as (au & Hau & Hau0).
  destruct (int_of_pct _ _ Em) as (m & Hm & Hm0).
  destruct (int_of_pct _ _ Ef) as (f & Hf & Hf0).
  rewrite Hau, Hm, Hf.
  destruct (Re.label_match (Str.strip (nth 0 parts ""))) as [[d a]|] eqn:El.
  - exists (Some (plot_results.mk_entry d a (plot_results.readable_app a) t au m f)).
    split; [intros acc; now rewrite !bind_ret|].
    split; [cbn; split; congruence|].
    intros e [= <-]. apply label_match_some in El as (Hd & Ha & _).
    repeat split; cbn; auto; try apply Hd; apply Ha.
  - exists None. split; [intros acc; rewrite !bind_ret; cbn; now rewrite app_nil_r|].
    cbn. repeat split; congruence.
Qed.

(** The loop over readable rows. *)
Lemma for_each_readable (ls : list string) :
  Forall readable ls ->
  exists es,
    (forall acc,
       for_each ls plot_results.parse_line acc =
       (map Print (map warning (filter warned ls)), Return (acc ++ es)%list)) /\
    length es = length (filter accepted ls) /\
    Forall parsed_entry es.
Proof.
  induction 1 as [|l ls Hl _ (es & Hrun & Hlen & Hes)].
  - exists []. repeat split; auto. intros acc. cbn. now rewrite app_nil_r.
  - destruct (parse_line_readable l Hl) as (oe & Hstep & Hacc & Hok).
    exists (option_list oe ++ es)%list. repeat split.
    + intros acc. cbn [for_each filter]. rewrite Hstep, bind_run, Hrun.
      cbn [trace outcome fst snd]. rewrite <- app_assoc.
      destruct (warned l); reflexivity.
    + cbn [filter]. rewrite length_app, Hlen.
      destruct oe as [e|]; destruct (accepted l) eqn:E; cbn; try reflexivity.
      * assert (Some e <> None) by discriminate. apply Hacc in H. congruence.
      * assert (@None plot_results.entry <> None) by now apply Hacc.
        congruence.
    + apply Forall_app. split; [|exact Hes].
      destruct oe as [e|]; cbn; auto.
Qed.

(** A row that cannot be read: five columns or more and a trial count
    that is no integer literal. *)
Lemma readable_dec (l : string) :
  readable l \/ (long_enough l = true /\ Str.int (trials_of l) = None).
Proof.
  unfold readable. destruct (long_enough l); [|left; discriminate].
  destruct (Str.int (trials_of l)); [left; discriminate | right; auto].
Qed.

Lemma for_each_returns_readable (ls : list string) :
  forall acc rs,
    outcome (for_each ls plot_results.parse_line acc) = Return rs ->
    Forall readable ls.
Proof.
  induction ls as [|l ls IH]; intros acc rs H; [constructor|].
  destruct (readable_dec l) as [Hl|[Hlong Hint]].
  - constructor; [exact Hl|].
    destruct (parse_line_readable l Hl) as (oe & Hstep & _).
    cbn [for_each] in H. rewrite Hstep, bind_run in H. cbn [outcome snd] in H.
    eapply IH. exact H.
  - exfalso. cbn [for_each] in H.
    rewrite outcome_bind_raise with (e := ValueError) in H; [discriminate|].
    apply parse_line_bad_trials; [|exact Hint].
    unfold long_enough in Hlong. now apply Nat.leb_le.
Qed.

End Readable_rows.

(** X2.  When the section is located, [parse_results] returns a list
    exactly when every candidate row with five columns or more has an
    integer literal as its trial count; otherwise it raises, and the
    only exception it can raise is [ValueError]. *)
Theorem X2_returns_iff_readable (content body : string) :
  Re.section_search content = Some body ->
  let candidates := plot_results.data_lines (Str.split LF (Str.strip body)) in
  ((exists rs, outcome (plot_results.parse_results content) = Return (Some rs))
   <-> Forall readable candidates) /\
  (forall e, outcome (plot_results.parse_results content) = Raise e ->
             e = ValueError /\ ~ Forall readable candidates).
Proof.
  intros Hsec candidates.
  assert (Hrun : outcome (plot_results.parse_results content) =
                 match outcome (for_each candidates plot_results.parse_line []) with
                 | Return results => Return (Some results)
                 | Raise e => Raise e
                 end).
  { unfold plot_results.parse_results. rewrite Hsec, bind_emit.
    cbn [outcome snd]. fold candidates.
    destruct (for_each candidates plot_results.parse_line []) as [t [rs|e]];
      reflexivity. }
  assert (Hiff : (exists rs, outcome (plot_results.parse_results content)
                             = Return (Some rs))
                 <-> Forall readable candidates).
  { rewrite Hrun. split.
    - intros [rs H].
      destruct (outcome (for_each candidates plot_results.parse_line []))
        as [rs'|e] eqn:E; [|discriminate].
      eapply for_each_returns_readable. exact E.
    - intros H. destruct (for_each_readable candidates H) as (es & Hes & _).
      exists es. now rewrite Hes. }
  split; [exact Hiff|].
  intros e He. split.
  - rewrite Hrun in He.
    destruct (outcome (for_each candidates plot_results.parse_line []))
      as [rs'|e'] eqn:E; [discriminate|]. injection He as <-.
    clear - E. revert E. generalize (@nil plot_results.entry) as acc.
    induction candidates as [|l ls IH]; intros acc E; [discriminate|].
    cbn [for_each] in E.
    destruct (outcome (plot_results.parse_line l acc)) as [acc'|e''] eqn:El.
    + rewrite (outcome_bind_return _ _ _ El) in E. eapply IH. exact E.
    + rewrite (outcome_bind_raise _ _ _ El) in E. injection E as <-.
      eapply parse_line_raises. exact El.
  - intros H. apply Hiff in H as [rs H]. congruence.
Qed.

Lemma X2_returns_iff_readable_witness :
  exists rs, outcome (plot_results.parse_results short_row_report) = Return (Some rs).
Proof.
  pose proof (X2_returns_iff_readable short_row_report
                (String LF (unlines [ "Application | Trials | Automatic | Manual | Failed";
                                      "------------|--------|-----------|--------|-------";
                                      "snd/mp3_player | 100 | 79%";
                                      "snd/audio_recorder | 100 | 44% | 56% | 0%" ]))) as H.
  cbv zeta in H. destruct H as [H _]; [vm_compute; reflexivity|].
  apply H. vm_compute. repeat constructor; discriminate.
Defined.



(** X4.  When the section is located and no row makes the loop raise,
    the run of [parse_results] is known row by row: it prints the
    opening line, one warning for each candidate row that has five
    columns or more but lacks a percentage, in order, and the count of
    the entries found; the entries are as many as the candidate rows
    with five columns or more, three percentages and a label that
    starts with [driver/app], so never more than the candidate rows. *)
Theorem X4_log_and_count (content body : string) :
  Re.section_search content = Some body ->
  let candidates := plot_results.data_lines (Str.split LF (Str.strip body)) in
  Forall readable candidates ->
  exists rs,
    plot_results.parse_results content =
    ((Print "Parsing results file..."
      :: map Print (map warning (filter warned candidates))
      ++ [Print ("Found " ++ Str.of_Z (Z.of_nat (length rs)) ++ " result entries.")])%list,
     Return (Some rs)) /\
    length rs = length (filter accepted candidates) /\
    (length rs <= length candidates)%nat.
Proof.
  intros Hsec candidates Hread.
  destruct (for_each_readable candidates Hread) as (es & Hes & Hlen & _).
  exists es. split; [|split; [exact Hlen|]].
  - unfold plot_results.parse_results. rewrite Hsec. fold candidates.
    rewrite bind_emit, Hes, bind_run, bind_emit. reflexivity.
  - rewrite Hlen. apply filter_length_le.
Qed.

Lemma X4_log_and_count_witness :
  exists rs,
    plot_results.parse_results warned_report =
    ([ Print "Parsing results file...";
       Print (warning "snd/mixer | 5 | n/a | 60% | 40%");
       Print ("Found " ++ Str.of_Z (Z.of_nat (length rs)) ++ " result entries.") ],
     Return (Some rs)) /\
    length rs = 1%nat.
Proof.
  pose proof (X4_log_and_count warned_report
                (String LF (unlines [ "Application | Trials | Automatic | Manual | Failed";
                                      "------------|--------|-----------|--------|-------";
                                      "snd/mixer | 5 | n/a | 60% | 40%";
                                      "snd/audio_recorder | 100 | 44% | 56% | 0%" ]))) as H.
  cbv zeta in H.
  destruct H as (rs & Hrun & Hlen & _);
    [vm_compute; reflexivity | vm_compute; repeat constructor; discriminate |].
  exists rs. split; [exact Hrun | exact Hlen].
Defined.

(** ** Percentage columns *)

Lemma pct_here_has_pct (s g : string) :
  Re.pct_here s = Some g -> Str.contains "%" s = true.
Proof.
  intros H. apply pct_here_some in H as (_ & _ & ws & rest & _ & ->).
  rewrite !contains_app. cbn. now rewrite !orb_true_r.
Qed.

Lemma pct_search_has_pct (s g : string) :
  Re.pct_search s = Some g -> Str.contains "%" s = true.
Proof.
  induction s as [|c s IH]; cbn [Re.pct_search].
  - destruct (Re.pct_here "") eqn:E; [|discriminate].
    intros _. eapply pct_here_has_pct; eauto.
  - destruct (Re.pct_here (String c s)) eqn:E.
    + intros _. eapply pct_here_has_pct; eauto.
    + intros H. cbn. now rewrite (IH H), orb_true_r.
Qed.

Lemma strip_no_char (c : ascii) (s : string) :
  Str.contains c s = false -> Str.contains c (Str.strip s) = false.
Proof. intros H. unfold Str.strip. now apply rstrip_no_lf, lstrip_no_lf. Qed.

(** X5.  A row with five columns or more and an integer trial count in
    which one of the columns 2, 3 and 4 has no percent sign adds no
    entry: the loop body prints the warning with the raw text of the
    row and goes on. *)
Theorem X5_no_percent_sign (line : string) (acc : list plot_results.entry) (k : nat) :
  long_enough line = true ->
  Str.int (trials_of line) <> None ->
  (2 <= k <= 4)%nat ->
  Str.contains "%" (nth k (Str.split "|" line) "") = false ->
  plot_results.parse_line line acc = ([Print (warning line)], Return acc).
Proof.
  intros Hlong Hint Hk Hpct.
  assert (Hnone : Re.pct_search (Str.strip (nth k (Str.split "|" line) "")) = None).
  { destruct (Re.pct_search _) as [g|] eqn:E; [|reflexivity].
    apply pct_search_has_pct in E. rewrite strip_no_char in E by assumption.
    discriminate. }
  unfold plot_results.parse_line, long_enough, trials_of in *.
  set (parts := Str.split "|" line) in *. rewrite Hlong.
  destruct (Str.int (Str.strip (nth 1 parts ""))) as [t|] eqn:Et; [|contradiction].
  rewrite (int_of_some _ _ Et), bind_ret.
  assert (Hk' : k = 2%nat \/ k = 3%nat \/ k = 4%nat) by lia.
  destruct Hk' as [->|[->| ->]]; rewrite Hnone.
  - reflexivity.
  - destruct (Re.pct_search (Str.strip (nth 2 parts ""))); reflexivity.
  - destruct (Re.pct_search (Str.strip (nth 2 parts "")));
      destruct (Re.pct_search (Str.strip (nth 3 parts ""))); reflexivity.
Qed.

Lemma X5_no_percent_sign_witness :
  plot_results.parse_line "snd/mixer | 5 | 0% | 60 | 40%" [] =
  ([Print (warning "snd/mixer | 5 | 0% | 60 | 40%")], Return []).
Proof.
  apply (X5_no_percent_sign "snd/mixer | 5 | 0% | 60 | 40%" [] 3).
  - vm_compute. reflexivity.
  - vm_compute. discriminate.
  - lia.
  - vm_compute. reflexivity.
Defined.

(** ** Whitespace around the columns *)

Section Padding.

Lemma lstrip_spaces (l x : string) :
  whitespace l -> Str.lstrip (l ++ x) = Str.lstrip x.
Proof.
  unfold whitespace. induction l as [|c l IH]; cbn; [reflexivity|].
  intros H. apply andb_true_iff in H as [-> Hl]. now apply IH.
Qed.

Lemma rstrip_spaces (r : string) : whitespace r -> Str.rstrip r = "".
Proof.
  unfold whitespace. induction r as [|c r IH]; cbn; [reflexivity|].
  intros H. apply andb_true_iff in H as [-> Hr]. now rewrite IH.
Qed.

Lemma rstrip_app_spaces (x r : string) :
  whitespace r -> Str.rstrip (x ++ r) = Str.rstrip x.
Proof.
  intros Hr. induction x as [|c x IH]; cbn.
  - now apply rstrip_spaces.
  - now rewrite IH.
Qed.

(** [strip] removes the padding of a text that begins and ends with a
    character that is no whitespace. *)
Lemma strip_pads (l r s : string) :
  whitespace l -> whitespace r ->
  Str.lstrip s = s -> Str.rstrip s = s ->
  Str.strip (l ++ s ++ r) = s.
Proof.
  intros Hl Hr Hls Hrs. unfold Str.strip.
  rewrite lstrip_spaces by assumption.
  destruct s as [|c s].
  { cbn [append]. rewrite <- (append_nil_r r), lstrip_spaces by assumption.
    reflexivity. }
  rewrite lstrip_app by (rewrite Hls; discriminate).
  now rewrite Hls, rstrip_app_spaces.
Qed.

Lemma whitespace_no_pipe (s : string) : whitespace s -> Str.contains "|" s = false.
Proof. intros H. now apply (all_chars_contains is_space). Qed.

Lemma whitespace_no_digit (s x : string) :
  whitespace s ->
  match s ++ String "%" x with
  | EmptyString => True
  | String c _ => is_digit c = false
  end.
Proof.
  destruct s as [|c s]; [reflexivity|]. unfold whitespace. cbn.
  intros H. apply andb_true_iff in H as [Hc _]. now apply space_not_digit.
Qed.

Variable pad : nat -> string.
Hypothesis Hpad : forall i, whitespace (pad i).
Variable r : plot_results.entry.
Hypothesis Hwf : well_formed r.

Let label : string := plot_results.driver r ++ "/" ++ plot_results.app r.

Lemma pct_padded (z : Z) (i : nat) :
  0 <= z ->
  Str.lstrip (Str.of_Z z ++ pad i ++ "%") = Str.of_Z z ++ pad i ++ "%" /\
  Str.rstrip (Str.of_Z z ++ pad i ++ "%") = Str.of_Z z ++ pad i ++ "%" /\
  Re.pct_search (Str.of_Z z ++ pad i ++ "%") = Some (Str.of_Z z) /\
  Str.contains "|" (Str.of_Z z ++ pad i ++ "%") = false.
Proof.
  intros Hz. rewrite of_Z_nonneg by assumption.
  pose proof (of_N_digits (Z.to_N z)) as Hd.
  pose proof (of_N_nonempty (Z.to_N z)) as Hne.
  repeat split.
  - destruct (Str.of_N (Z.to_N z)) as [|c s]; [contradiction|].
    cbn in *. apply andb_true_iff in Hd as [Hc _].
    now rewrite (digit_not_space _ Hc).
  - rewrite <- append_assoc. rewrite rstrip_app by discriminate.
    reflexivity.
  - apply pct_search_here, pct_here_some. repeat split; auto.
    exists (pad i), "". split; [apply Hpad | reflexivity].
  - rewrite !contains_app, (whitespace_no_pipe (pad i)) by apply Hpad.
    rewrite (all_chars_contains is_digit _ (Str.of_N (Z.to_N z)))
      by (assumption || reflexivity).
    reflexivity.
Qed.

(** The loop body on a padded row appends the entry of the row. *)
Lemma parse_line_padded (extra : string) (acc : list plot_results.entry) :
  extra = "" \/ (exists x, extra = String "|" x) ->
  plot_results.parse_line (padded_row pad r extra) acc =
  ret (acc ++ [reparsed r])%list.
Proof.
  intros Hextra.
  destruct Hwf as (Hd & Ha & Hauto & Hman & Hfail).
  destruct (pct_padded _ 5%nat Hauto) as (Hla & Hra & Hsa & Hpa).
  destruct (pct_padded _ 8%nat Hman) as (Hlm & Hrm & Hsm & Hpm).
  destruct (pct_padded _ 11%nat Hfail) as (Hlf & Hrf & Hsf & Hpf).
  assert (Hz : forall z, Str.contains "|" (Str.of_Z z) = false)
    by (intros z; now apply of_Z_no_char).
  assert (Hp : forall i, Str.contains "|" (pad i) = false)
    by (intros i; apply whitespace_no_pipe, Hpad).
  assert (Hsplit : exists more,
    Str.split "|" (padded_row pad r extra) =
    (pad 0%nat ++ label ++ pad 1%nat)
    :: (pad 2%nat ++ Str.of_Z (plot_results.trials r) ++ pad 3%nat)
    :: (pad 4%nat ++ (Str.of_Z (plot_results.auto_pct r) ++ pad 5%nat ++ "%")
        ++ pad 6%nat)
    :: (pad 7%nat ++ (Str.of_Z (plot_results.manual_pct r) ++ pad 8%nat ++ "%")
        ++ pad 9%nat)
    :: (pad 10%nat ++ (Str.of_Z (plot_results.failed_pct r) ++ pad 11%nat ++ "%")
        ++ pad 12%nat)
    :: more).
  { assert (E : forall x, padded_row pad r x =
      (pad 0%nat ++ label ++ pad 1%nat) ++ String "|"
      ((pad 2%nat ++ Str.of_Z (plot_results.trials r) ++ pad 3%nat) ++ String "|"
      ((pad 4%nat ++ (Str.of_Z (plot_results.auto_pct r) ++ pad 5%nat ++ "%")
        ++ pad 6%nat) ++ String "|"
      ((pad 7%nat ++ (Str.of_Z (plot_results.manual_pct r) ++ pad 8%nat ++ "%")
        ++ pad 9%nat) ++ String "|"
      ((pad 10%nat ++ (Str.of_Z (plot_results.failed_pct r) ++ pad 11%nat ++ "%")
        ++ pad 12%nat) ++ x))))).
    { intros x. unfold padded_row, label. rewrite !append_assoc. reflexivity. }
    assert (Hlab : Str.contains "|" label = false)
      by (apply (label_no_char r Hwf); reflexivity).
    destruct Hextra as [->|[x ->]].
    - exists []. rewrite E, append_nil_r.
      rewrite !split_app, split_none; try reflexivity;
        rewrite ?contains_app, ?Hz, ?Hp, ?Hpa, ?Hpm, ?Hpf, ?Hlab; reflexivity.
    - exists (Str.split "|" x). rewrite E.
      rewrite !split_app; try reflexivity;
        rewrite ?contains_app, ?Hz, ?Hp, ?Hpa, ?Hpm, ?Hpf, ?Hlab; reflexivity. }
  destruct Hsplit as [more Hsplit].
  unfold plot_results.parse_line. rewrite Hsplit.
  cbn [length Nat.leb nth].
  pose proof (label_no_space r Hwf) as Hls. fold label in Hls.
  rewrite (strip_pads (pad 0%nat) (pad 1%nat) label)
    by (auto using lstrip_no_space, rstrip_no_space).
  rewrite (strip_pads (pad 2%nat) (pad 3%nat))
    by (auto using lstrip_no_space, rstrip_no_space, of_Z_no_space).
  rewrite !strip_pads by auto.
  rewrite Hsa, Hsm, Hsf.
  unfold int_of. rewrite !int_of_Z, !bind_ret.
  unfold label. rewrite label_match_words by assumption.
  reflexivity.
Qed.

End Padding.

(** X6.  The loop body reads a row whatever whitespace surrounds its
    columns or stands between a percentage and its percent sign, and
    whatever follows the fifth column: for a driver and an app that are
    runs of word characters and percentages that are not negative, the
    row gives the entry with those fields. *)
Theorem X6_padding_ignored (pad : nat -> string) (r : plot_results.entry)
    (extra : string) (acc : list plot_results.entry) :
  (forall i, whitespace (pad i)) ->
  well_formed r ->
  extra = "" \/ (exists x, extra = String "|" x) ->
  plot_results.parse_line (padded_row pad r extra) acc =
  ret (acc ++ [reparsed r])%list.
Proof. intros. now apply parse_line_padded. Qed.

Lemma X6_padding_ignored_witness :
  plot_results.parse_line
    (padded_row tabs_and_spaces overfull "| checked by hand | twice") [] =
  ret [overfull].
Proof.
  apply (X6_padding_ignored tabs_and_spaces overfull "| checked by hand | twice" []).
  - intros i. unfold tabs_and_spaces. destruct (Nat.even i); reflexivity.
  - repeat split; try discriminate; vm_compute; try reflexivity; discriminate.
  - right. eexists. reflexivity.
Defined.

(** ** Text around the section *)

Section Around.

Lemma strip_prefix_app_r (p s r t : string) :
  Str.strip_prefix p s = Some r -> Str.strip_prefix p (s ++ t) = Some (r ++ t).
Proof.
  revert s. induction p as [|c p IH]; intros s; cbn.
  - now intros [= ->].
  - destruct s as [|x s]; [discriminate|]. cbn.
    destruct (Ascii.eqb c x); [apply IH | discriminate].
Qed.

Lemma after_first_length (lit s r : string) :
  Re.after_first lit s = Some r -> (String.length lit <= String.length s)%nat.
Proof.
  intros H. apply after_first_some in H as [a ->].
  rewrite !length_append. lia.
Qed.

(** The leftmost occurrence stays the leftmost when text is appended. *)
Lemma after_first_app_r (lit s r t : string) :
  Re.after_first lit s = Some r -> Re.after_first lit (s ++ t) = Some (r ++ t).
Proof.
  induction s as [|c s IH]; cbn [Re.after_first append].
  - destruct (Str.strip_prefix lit "") as [x|] eqn:E; [|discriminate].
    intros [= <-]. apply (strip_prefix_app_r _ _ _ t) in E. cbn [append] in E.
    destruct t; cbn [Re.after_first]; now rewrite E.
  - destruct (Str.strip_prefix lit (String c s)) as [x|] eqn:E.
    + intros [= <-]. apply (strip_prefix_app_r _ _ _ t) in E.
      cbn [append] in E. now rewrite E.
    + intros H. pose proof (after_first_length _ _ _ H) as Hlen.
      change (String c (s ++ t)) with (String c s ++ t).
      rewrite strip_prefix_none_app by (auto; cbn; lia).
      now apply IH.
Qed.

(** What follows the first empty line does not matter. *)
Lemma until_blank_app (x t : string) :
  Re.until_blank (x ++ Re.blank_line ++ t) = Re.until_blank (x ++ Re.blank_line).
Proof.
  induction x as [|c x IH]; [reflexivity|].
  cbn [append Re.until_blank]. rewrite IH.
  assert (E : match Str.strip_prefix Re.blank_line (String c (x ++ Re.blank_line ++ t)) with
              | Some _ => true
              | None => false
              end =
              match Str.strip_prefix Re.blank_line (String c (x ++ Re.blank_line)) with
              | Some _ => true
              | None => false
              end).
  { unfold Re.blank_line. destruct x as [|c' x]; cbn [append Str.strip_prefix];
      destruct (Ascii.eqb LF c); try reflexivity;
      destruct (Ascii.eqb LF _); reflexivity. }
  destruct (Str.strip_prefix Re.blank_line (String c (x ++ Re.blank_line ++ t)));
    destruct (Str.strip_prefix Re.blank_line (String c (x ++ Re.blank_line)));
    (reflexivity || discriminate E).
Qed.

End Around.

(** X7.  Once the section is closed by an empty line, what comes later
    in the file is not read: appending any text to such contents gives
    the same run of [parse_results], prints and result alike. *)
Theorem X7_text_after_section_ignored (content x y t : string) :
  Re.after_first section_header content = Some (x ++ Re.blank_line ++ y) ->
  plot_results.parse_results (content ++ t) = plot_results.parse_results content.
Proof.
  intros H. unfold plot_results.parse_results, Re.section_search.
  fold section_header.
  rewrite (after_first_app_r _ _ _ t H), H. cbn [option_map].
  rewrite !append_assoc, until_blank_app, (until_blank_app x y).
  reflexivity.
Qed.

Lemma X7_text_after_section_ignored_witness :
  plot_results.parse_results
    (sample_report ++ String LF "Fault Injection Results: a | b | c | d | e") =
  plot_results.parse_results sample_report.
Proof.
  apply (X7_text_after_section_ignored sample_report
           (String LF (unlines [ "Application | Trials | Automatic | Manual | Failed";
                                 "------------|--------|-----------|--------|-------";
                                 "snd/mp3_player | 100 | 79% | 16% | 5%";
                                 "snd/audio_recorder | 100 | 44% | 56% | 0%" ]))
           "End of report").
  vm_compute. reflexivity.
Defined.

(** X8.  What comes before the section header is not read either, as
    long as the header text does not occur in it: the run of
    [parse_results] is the one on the contents from the header on. *)
Theorem X8_text_before_section_ignored (before rest : string) :
  Re.after_first section_header (before ++ section_header) = Some "" ->
  plot_results.parse_results (before ++ section_header ++ rest) =
  plot_results.parse_results (section_header ++ rest).
Proof.
  intros H. unfold plot_results.parse_results, Re.section_search.
  fold section_header.
  rewrite (after_first_app section_header before rest H).
  pose proof (after_first_app section_header "" rest eq_refl) as E.
  cbn [append] in E. unfold section_header in *. now rewrite E.
Qed.

Lemma X8_text_before_section_ignored_witness :
  plot_results.parse_results
    ("Fault Injection Report" ++ String LF "" ++ section_header ++ " a|b") =
  plot_results.parse_results (section_header ++ " a|b").
Proof.
  apply (X8_text_before_section_ignored ("Fault Injection Report" ++ String LF "")
           " a|b").
  vm_compute. reflexivity.
Defined.

(** ** Display names and tick labels *)

Section Names.











End Names.


(** ** Runs, labels and separators *)

Section Spans.

Lemma spans_tiles (ds : list string) :
  forall (c : string) (k : nat) (st : Z),
    (0 < k)%nat ->
    tiles st (st + Z.of_nat k + Z.of_nat (length ds)) (spans st (group_acc c k ds)).
Proof.
  induction ds as [|d ds IH]; intros c k st Hk; cbn [group_acc spans length].
  - cbn. lia.
  - destruct (String.eqb d c).
    + replace (st + Z.of_nat k + Z.of_nat (S (length ds)))
        with (st + Z.of_nat (S k) + Z.of_nat (length ds)) by lia.
      apply IH. lia.
    + cbn [spans tiles]. repeat split; try lia.
      replace (st + Z.of_nat k - 1 + 1) with (st + Z.of_nat k) by lia.
      replace (st + Z.of_nat k + Z.of_nat (S (length ds)))
        with (st + Z.of_nat k + Z.of_nat 1 + Z.of_nat (length ds)) by lia.
      apply IH. lia.
Qed.

Lemma nth_block (pre : list string) (c : string) (k : nat) (rest : list string)
    (i : Z) :
  Z.of_nat (length pre) <= i <= Z.of_nat (length pre) + Z.of_nat k - 1 ->
  nth (Z.to_nat i) (pre ++ repeat c k ++ rest) "" = c.
Proof.
  intros Hi. rewrite app_nth2 by lia. rewrite app_nth1 by (rewrite repeat_length; lia).
  apply nth_repeat_lt. lia.
Qed.

Lemma spans_uniform (ds : list string) :
  forall (pre : list string) (c : string) (k : nat),
    Forall (uniform (pre ++ repeat c k ++ ds))
      (spans (Z.of_nat (length pre)) (group_acc c k ds)).
Proof.
  induction ds as [|d ds IH]; intros pre c k; cbn [group_acc spans].
  - repeat constructor. intros i Hi. now apply nth_block.
  - destruct (String.eqb_spec d c) as [->|Hne].
    + replace (pre ++ repeat c k ++ c :: ds)%list
        with (pre ++ repeat c (S k) ++ ds)%list; [apply IH|].
      change (repeat c (S k)) with (c :: repeat c k).
      now rewrite (repeat_cons k c), <- !app_assoc.
    + constructor.
      * intros i Hi. now apply nth_block.
      * specialize (IH (pre ++ repeat c k)%list d 1%nat).
        rewrite length_app, repeat_length, Nat2Z.inj_add in IH.
        now rewrite <- app_assoc in IH.
Qed.

Lemma spans_distinct (g : list (string * nat)) (st : Z) :
  alternating g -> distinct_neighbours (spans st g).
Proof.
  revert st. induction g as [|[c k] g IH]; intros st H; [exact I|].
  destruct g as [|[c' k'] g]; [exact I|].
  destruct H as [Hne H]. split; [exact Hne|]. now apply IH.
Qed.

Lemma spans_head (ds : list string) (c : string) (k : nat) (st : Z) :
  exists e rest, spans st (group_acc c k ds) = (st, e, c) :: rest.
Proof.
  destruct (group_acc_head ds c k) as (k' & g & ->). cbn. now eexists _, _.
Qed.

(** The change points are the first slots of the runs after the
    first. *)
Lemma change_points_run_starts (ds : list string) :
  forall (pre : list string) (cur : string) (k : nat) (st : Z),
    st + Z.of_nat k = Z.of_nat (S (length pre)) ->
    map separator_at
      (filter (changes (pre ++ cur :: ds)) (seq (S (length pre)) (length ds))) =
    map (fun run => minus_half (run_start run))
      (tl (spans st (group_acc cur k ds))).
Proof.
  induction ds as [|d ds IH]; intros pre cur k st Hst; [reflexivity|].
  cbn [length seq filter group_acc]. rewrite changes_at.
  assert (E : (pre ++ cur :: d :: ds)%list = ((pre ++ [cur]) ++ d :: ds)%list)
    by now rewrite <- app_assoc.
  assert (L : S (S (length pre)) = S (length (pre ++ [cur])))
    by (rewrite length_app; cbn; lia).
  destruct (String.eqb_spec d cur) as [->|Hne]; cbn [negb].
  - rewrite E, L. apply IH. rewrite length_app. cbn. lia.
  - cbn [spans tl map].
    destruct (spans_head ds d 1 (st + Z.of_nat k)) as (e & rest & Hsp).
    specialize (IH (pre ++ [cur])%list d 1%nat (st + Z.of_nat k)).
    rewrite Hsp in *. cbn [tl map run_start fst] in *.
    rewrite E, L, IH by (rewrite length_app; cbn; lia).
    unfold separator_at. now rewrite Hst.
Qed.

(** The runs of a non-empty list of categories. *)
Lemma runs_of_categories (cats : list string) :
  cats <> [] ->
  let runs := spans 0 (group cats) in
  tiles 0 (Z.of_nat (length cats)) runs /\
  Forall (uniform cats) runs /\
  distinct_neighbours runs /\
  map separator_at (change_points cats) =
    map (fun run => minus_half (run_start run)) (tl runs).
Proof.
  destruct cats as [|c ds]; [contradiction|]. intros _ runs. subst runs.
  cbn [group]. repeat split.
  - replace (Z.of_nat (length (c :: ds))) with (0 + Z.of_nat 1 + Z.of_nat (length ds))
      by (cbn [length]; lia).
    apply spans_tiles. lia.
  - exact (spans_uniform ds [] c 1).
  - apply spans_distinct, group_acc_alternating.
  - rewrite change_points_cons.
    exact (change_points_run_starts ds [] c 1 0 eq_refl).
Qed.

End Spans.

(** The labels and separators of both renderers, by runs. *)
Lemma drawn_runs :
  (forall results, results <> [] ->
     let cats := plot_results.categories (map plot_results.driver results) in
     let t := trace (plot_results.create_graph results) in
     let runs := spans 0 (group cats) in
     labels t = map run_label runs /\
     vlines t = map (fun run => minus_half (run_start run)) (tl runs) /\
     tiles 0 (Z.of_nat (length results)) runs /\
     Forall (uniform cats) runs /\ distinct_neighbours runs) /\
  (forall results, results <> [] ->
     let cats := plot.categories (map plot.driver results) in
     let t := trace (plot.create_graph results) in
     let runs := spans 0 (group cats) in
     labels t = map run_label runs /\
     vlines t = map (fun run => minus_half (run_start run)) (tl runs) /\
     tiles 0 (Z.of_nat (length results)) runs /\
     Forall (uniform cats) runs /\ distinct_neighbours runs).
Proof.
  split; intros results Hne cats t runs; subst t runs.
  - assert (Hc : cats <> []) by (destruct results; [contradiction | discriminate]).
    destruct (runs_of_categories cats Hc) as (Ht & Hu & Hd & Hs).
    rewrite plot_results_create_graph_run by assumption. cbn [trace fst].
    rewrite vlines_plot_results_drawing, labels_plot_results_drawing.
    fold cats. rewrite Hs. repeat split; auto.
    unfold cats, plot_results.categories in Ht. now rewrite !length_map in Ht.
  - assert (Hc : cats <> []) by (destruct results; [contradiction | discriminate]).
    destruct (runs_of_categories cats Hc) as (Ht & Hu & Hd & Hs).
    rewrite plot_create_graph_run by assumption. cbn [trace fst].
    rewrite vlines_plot_drawing, labels_plot_drawing.
    fold cats. rewrite Hs. repeat split; auto.
    unfold cats, plot.categories in Ht. now rewrite !length_map in Ht.
Qed.

(** X10.  In both renderers the category labels of a non-empty list
    belong to runs of slots that lie side by side from slot 0 to the
    last slot: no run is empty, every slot is in exactly one run, all
    slots of a run have the category written on its label, two runs
    that follow each other differ in category, and the label of a run
    is at the middle of the run. *)
Theorem X10_labels_cover_the_slots :
  (forall results, results <> [] ->
     let cats := plot_results.categories (map plot_results.driver results) in
     exists runs,
       labels (trace (plot_results.create_graph results)) = map run_label runs /\
       tiles 0 (Z.of_nat (length results)) runs /\
       Forall (uniform cats) runs /\ distinct_neighbours runs) /\
  (forall results, results <> [] ->
     let cats := plot.categories (map plot.driver results) in
     exists runs,
       labels (trace (plot.create_graph results)) = map run_label runs /\
       tiles 0 (Z.of_nat (length results)) runs /\
       Forall (uniform cats) runs /\ distinct_neighbours runs).
Proof.
  split; intros results Hne cats.
  - destruct (proj1 drawn_runs results Hne) as (Hl & _ & Ht & Hu & Hd).
    eexists. repeat split; eauto.
  - destruct (proj2 drawn_runs results Hne) as (Hl & _ & Ht & Hu & Hd).
    eexists. repeat split; eauto.
Qed.

Lemma X10_labels_cover_the_slots_witness :
  exists runs,
    labels (trace (plot_results.create_graph ungrouped)) = map run_label runs /\
    tiles 0 3 runs /\
    Forall (uniform ["Sound"; "IDE"; "Sound"]) runs /\ distinct_neighbours runs.
Proof.
  apply (proj1 X10_labels_cover_the_slots ungrouped). discriminate.
Defined.

(** X11.  In both renderers the separators of a non-empty list stand
    between the labelled runs: there is one separator less than there
    are labels, and the separators are, in order, half a slot before
    the first bar of every run but the first. *)
Theorem X11_separators_between_runs :
  (forall results, results <> [] ->
     let t := trace (plot_results.create_graph results) in
     exists runs,
       labels t = map run_label runs /\
       vlines t = map (fun run => minus_half (run_start run)) (tl runs) /\
       length (labels t) = S (length (vlines t))) /\
  (forall results, results <> [] ->
     let t := trace (plot.create_graph results) in
     exists runs,
       labels t = map run_label runs /\
       vlines t = map (fun run => minus_half (run_start run)) (tl runs) /\
       length (labels t) = S (length (vlines t))).
Proof.
  assert (Hlen : forall (A B C : Type) (f : A -> B) (g : A -> C) (l : list A),
            l <> [] -> length (map f l) = S (length (map g (tl l)))).
  { intros A B C f g [|a l] H; [contradiction|]. cbn. now rewrite !length_map. }
  split; intros results Hne t.
  - destruct (proj1 drawn_runs results Hne) as (Hl & Hv & Ht & _).
    eexists. split; [exact Hl|]. split; [exact Hv|].
    subst t. rewrite Hl, Hv. apply Hlen.
    intros E. rewrite E in Ht. cbn in Ht. destruct results; [contradiction|].
    cbn in Ht. lia.
  - destruct (proj2 drawn_runs results Hne) as (Hl & Hv & Ht & _).
    eexists. split; [exact Hl|]. split; [exact Hv|].
    subst t. rewrite Hl, Hv. apply Hlen.
    intros E. rewrite E in Ht. cbn in Ht. destruct results; [contradiction|].
    cbn in Ht. lia.
Qed.

Lemma X11_separators_between_runs_witness :
  length (labels (trace (plot.create_graph plot.simulation_results))) =
  S (length (vlines (trace (plot.create_graph plot.simulation_results)))).
Proof.
  destruct (proj2 X11_separators_between_runs plot.simulation_results)
    as (runs & _ & _ & H); [discriminate | exact H].
Defined.

(** ** Brackets *)

Section Quiet.

Context {C : Type} (f : event -> list C).

Lemma quiet_number_text (l : list (Q * Q * string)) :
  (forall x y s va, f (Text x y s va) = []) ->
  flat_map f (map number_text l) = [].
Proof. intros H. apply flat_map_map_nil. intros [[x y] s]. apply H. Qed.

Lemma quiet_vlines (l : list Q) :
  (forall x, f (AxVLine x) = []) -> flat_map f (map AxVLine l) = [].
Proof. intros H. now apply flat_map_map_nil. Qed.

Lemma quiet_runs (b : bool) (runs : list (Z * Z * string)) :
  (forall x y s va, f (Text x y s va) = []) ->
  (forall x0 y0 x1 y1, f (PlotLine x0 y0 x1 y1) = []) ->
  flat_map f (labelled_runs b runs) = [].
Proof.
  intros Ht Hl. induction runs as [|[[s e] c] runs IH]; [reflexivity|].
  unfold labelled_runs in *. cbn [flat_map]. rewrite flat_map_app, IH.
  destruct b; cbn [flat_map app]; rewrite ?Ht, ?Hl; reflexivity.
Qed.

Lemma quiet_summary (l : list plot.entry) :
  (forall s, f (Print s) = []) ->
  flat_map f (map (fun r => Print (plot.summary_line r)) l) = [].
Proof. intros H. now apply flat_map_map_nil. Qed.

End Quiet.

Lemma brackets_runs (runs : list (Z * Z * string)) :
  brackets (labelled_runs true runs) = map run_bracket runs /\
  brackets (labelled_runs false runs) = [].
Proof.
  induction runs as [|[[s e] c] runs [IH1 IH2]]; [split; reflexivity|].
  unfold brackets, labelled_runs in *. cbn [flat_map map].
  rewrite !flat_map_app, IH1, IH2. split; reflexivity.
Qed.

Lemma brackets_plot_results_drawing (results : list plot_results.entry) :
  brackets (plot_results_drawing results) =
  map run_bracket
    (spans 0 (group (plot_results.categories (map plot_results.driver results)))).
Proof.
  unfold plot_results_drawing, brackets. rewrite !flat_map_app.
  rewrite quiet_number_text, quiet_vlines by reflexivity.
  fold brackets. rewrite (proj1 (brackets_runs _)). cbn [flat_map app].
  now rewrite app_nil_r.
Qed.

Lemma brackets_plot_drawing (results : list plot.entry) :
  brackets (plot_drawing results) = [].
Proof.
  unfold plot_drawing, brackets. rewrite !flat_map_app.
  rewrite quiet_number_text, quiet_vlines, quiet_summary by reflexivity.
  fold brackets. rewrite (proj2 (brackets_runs _)). reflexivity.
Qed.

(** In runs that lie side by side, every run but the first starts one
    slot after the end of another. *)
Lemma tiles_predecessor (runs : list (Z * Z * string)) :
  forall a b run,
    tiles a b runs -> In run (tl runs) ->
    exists s e c, In (s, e, c) runs /\ e + 1 = run_start run.
Proof.
  induction runs as [|[[s e] c] rest IH]; intros a b run Ht Hin; [destruct Hin|].
  cbn [tl] in Hin. destruct Ht as (_ & _ & Ht).
  destruct rest as [|[[s' e'] c'] rest']; [destruct Hin|].
  destruct Hin as [<-|Hin].
  - exists s, e, c. split; [now left|]. destruct Ht as (-> & _). reflexivity.
  - destruct (IH _ _ run Ht Hin) as (s0 & e0 & c0 & Hin0 & E).
    exists s0, e0, c0. split; [now right | exact E].
Qed.

(** X12.  [plot_results.py] draws one bracket under every category
    label, at height 104, from half a slot before the first bar of the
    run to half a slot after its last bar; the runs lie side by side
    over all the slots, so every separator is where one bracket ends
    and the next begins.  [plot.py] draws no bracket. *)
Theorem X12_brackets_under_labels :
  (forall results, results <> [] ->
     let t := trace (plot_results.create_graph results) in
     exists runs,
       labels t = map run_label runs /\
       brackets t = map run_bracket runs /\
       tiles 0 (Z.of_nat (length results)) runs /\
       (forall x, In x (vlines t) ->
          exists a b, In (a, 104%Q, x, 104%Q) (brackets t) /\
                      In (x, 104%Q, b, 104%Q) (brackets t))) /\
  (forall results, brackets (trace (plot.create_graph results)) = []).
Proof.
  split.
  - intros results Hne t.
    destruct (proj1 drawn_runs results Hne) as (Hl & Hv & Ht & _).
    fold t in Hl, Hv.
    assert (Hb : brackets t = map run_bracket
              (spans 0 (group (plot_results.categories
                                 (map plot_results.driver results))))).
    { subst t. rewrite plot_results_create_graph_run by assumption.
      apply brackets_plot_results_drawing. }
    eexists. split; [exact Hl|]. split; [exact Hb|]. split; [exact Ht|].
    intros x Hx. rewrite Hv in Hx. apply in_map_iff in Hx as (run & <- & Hrun).
    destruct (tiles_predecessor _ _ _ _ Ht Hrun) as (s & e & c & Hin & E).
    destruct run as [[s' e'] c']. unfold run_start in *. cbn [fst] in *.
    exists (minus_half s), (minus_half (e' + 1)). rewrite Hb. split.
    + apply in_map_iff. exists (s, e, c). split; [|exact Hin].
      cbn. now rewrite E.
    + apply in_map_iff. exists (s', e', c'). split; [reflexivity|].
      destruct (spans 0 _); [destruct Hrun | now right].
  - intros [|r rs]; [reflexivity|].
    rewrite plot_create_graph_run by discriminate.
    apply brackets_plot_drawing.
Qed.

Lemma X12_brackets_under_labels_witness :
  exists runs,
    labels (trace (plot_results.create_graph ungrouped)) = map run_label runs /\
    brackets (trace (plot_results.create_graph ungrouped)) = map run_bracket runs /\
    tiles 0 3 runs.
Proof.
  destruct (proj1 X12_brackets_under_labels ungrouped) as (runs & Hl & Hb & Ht & _);
    [discriminate|].
  exists runs. repeat split; assumption.
Defined.

(** ** Files, axis range and tick labels *)

Lemma written_runs :
  (forall results, results <> [] ->
     written (trace (plot_results.create_graph results)) =
     [("fault_injection_results.csv",
       csv_header :: map plot_results.csv_row results)]) /\
  (forall results, written (trace (plot.create_graph results)) = []).
Proof.
  split.
  - intros results Hne. rewrite plot_results_create_graph_run by assumption.
    cbn [trace fst]. unfold plot_results_drawing, written.
    rewrite !flat_map_app.
    rewrite quiet_number_text, quiet_vlines, quiet_runs by reflexivity.
    reflexivity.
  - intros [|r rs]; [reflexivity|].
    rewrite plot_create_graph_run by discriminate.
    cbn [trace fst]. unfold plot_drawing, written.
    rewrite !flat_map_app.
    rewrite quiet_number_text, quiet_vlines, quiet_runs, quiet_summary
      by reflexivity.
    reflexivity.
Qed.

(** X13.  On a non-empty list [plot_results.py] writes two files, the
    image and then the CSV file; the CSV file gets the header line and
    one line per entry, in the order of the entries.  [plot.py] saves
    the image and then the PDF, and writes no text file. *)
Theorem X13_files_in_order :
  (forall results, results <> [] ->
     let t := trace (plot_results.create_graph results) in
     files_of t = ["fault_injection_outcomes.png"; "fault_injection_results.csv"] /\
     written t = [("fault_injection_results.csv",
                   csv_header :: map plot_results.csv_row results)] /\
     (forall f ls, In (f, ls) (written t) -> length ls = S (length results))) /\
  (forall results, results <> [] ->
     let t := trace (plot.create_graph results) in
     files_of t = ["fault_injection_outcomes.png"; "fault_injection_outcomes.pdf"] /\
     written t = []).
Proof.
  split; intros results Hne t; subst t.
  - rewrite (proj1 files_written results Hne), (proj1 written_runs results Hne).
    repeat split. intros f ls [[= _ <-]|[]]. cbn. now rewrite length_map.
  - rewrite (proj2 files_written results Hne), (proj2 written_runs results).
    split; reflexivity.
Qed.

Lemma X13_files_in_order_witness :
  written (trace (plot_results.create_graph [overfull])) =
  [("fault_injection_results.csv",
    [csv_header; "snd,mixer,10,90,30,10" ++ String LF ""])].
Proof.
  destruct (proj1 X13_files_in_order [overfull]) as (_ & H & _);
    [discriminate | exact H].
Defined.

Section Csv.

Variable e : plot_results.entry.
Hypothesis Hdriver : Str.contains "," (plot_results.driver e) = false.
Hypothesis Happ : Str.contains "," (plot_results.app e) = false.

Lemma int_before_lf (z : Z) : Str.int (Str.of_Z z ++ String LF "") = Some z.
Proof.
  pose proof (int_of_Z z) as H. unfold Str.int in *.
  pose proof (of_Z_no_space z) as Hn.
  assert (E1 : Str.strip (Str.of_Z z) = Str.of_Z z)
    by (unfold Str.strip; now rewrite (lstrip_no_space _ Hn), (rstrip_no_space _ Hn)).
  assert (E2 : Str.strip (Str.of_Z z ++ String LF "") = Str.of_Z z).
  { apply (strip_pads "" (String LF "") (Str.of_Z z)); try reflexivity.
    - now apply lstrip_no_space.
    - now apply rstrip_no_space. }
  rewrite E2. now rewrite E1 in H.
Qed.

Lemma split_csv_row :
  Str.split "," (plot_results.csv_row e) =
  [ plot_results.driver e; plot_results.app e;
    Str.of_Z (plot_results.trials e); Str.of_Z (plot_results.auto_pct e);
    Str.of_Z (plot_results.manual_pct e);
    Str.of_Z (plot_results.failed_pct e) ++ String LF "" ].
Proof.
  unfold plot_results.csv_row.
  change ("," ++ ?x) with (String "," x).
  assert (Hz : forall z, Str.contains "," (Str.of_Z z) = false)
    by (intros z; now apply of_Z_no_char).
  assert (E : forall a b c, a ++ "," ++ b ++ c = a ++ String "," (b ++ c))
    by reflexivity.
  rewrite !E. rewrite !split_app by auto.
  rewrite split_none; [reflexivity|].
  now rewrite contains_app, Hz.
Qed.

End Csv.

(** X14.  A line of the CSV file, for an entry whose driver and app
    have no comma, has exactly six comma-separated fields: the driver,
    the app and the four numbers in decimal, the last one followed by
    the line feed; [int] reads the four numbers back.  The entries the
    parser builds have no comma in driver and app, since both are runs
    of word characters. *)
Theorem X14_csv_fields :
  (forall e : plot_results.entry,
     Str.contains "," (plot_results.driver e) = false ->
     Str.contains "," (plot_results.app e) = false ->
     exists t a m f,
       Str.split "," (plot_results.csv_row e) =
         [plot_results.driver e; plot_results.app e; t; a; m; f] /\
       Str.int t = Some (plot_results.trials e) /\
       Str.int a = Some (plot_results.auto_pct e) /\
       Str.int m = Some (plot_results.manual_pct e) /\
       Str.int f = Some (plot_results.failed_pct e)) /\
  (forall e : plot_results.entry,
     parsed_entry e ->
     Str.contains "," (plot_results.driver e) = false /\
     Str.contains "," (plot_results.app e) = false).
Proof.
  split.
  - intros e Hd Ha. do 4 eexists. split; [now apply split_csv_row|].
    rewrite !int_of_Z, int_before_lf. repeat split.
  - intros e [(Hd & Ha & _) _]. split.
    + apply (word_no_char "," _ (proj2 Hd)). reflexivity.
    + apply (word_no_char "," _ (proj2 Ha)). reflexivity.
Qed.

Lemma X14_csv_fields_witness :
  exists t a m f,
    Str.split "," (plot_results.csv_row overfull) = ["snd"; "mixer"; t; a; m; f] /\
    Str.int t = Some 10 /\ Str.int a = Some 90 /\
    Str.int m = Some 30 /\ Str.int f = Some 10.
Proof.
  apply (proj1 X14_csv_fields overfull); reflexivity.
Defined.


Lemma ylims_runs :
  (forall results, results <> [] ->
     ylims (trace (plot_results.create_graph results)) = [(0, 100); (0, 110)]) /\
  (forall results, results <> [] ->
     ylims (trace (plot.create_graph results)) = [(0, 100)]).
Proof.
  split; intros results Hne.
  - rewrite plot_results_create_graph_run by assumption.
    cbn [trace fst]. unfold plot_results_drawing, ylims.
    rewrite !flat_map_app.
    rewrite quiet_number_text, quiet_vlines, quiet_runs by reflexivity.
    reflexivity.
  - rewrite plot_create_graph_run by assumption.
    cbn [trace fst]. unfold plot_drawing, ylims.
    rewrite !flat_map_app.
    rewrite quiet_number_text, quiet_vlines, quiet_runs, quiet_summary
      by reflexivity.
    reflexivity.
Qed.

Lemma run_label_height (runs : list (Z * Z * string)) :
  Forall (fun l => text_height l = 105%Q) (map run_label runs).
Proof.
  apply Forall_forall. intros l Hl.
  apply in_map_iff in Hl as ([[s e] c] & <- & _). reflexivity.
Qed.

(** X16.  Both renderers anchor every category label at height 105.
    [plot_results.py] sets the y axis to 0..100 and, after the labels,
    to 0..110, the range in force when the image is saved: the labels
    and the brackets at 104 are within it.  [plot.py] sets the y axis
    once, to 0..100: its labels are above the range of the axis. *)
Theorem X16_axis_range :
  (forall results, results <> [] ->
     let t := trace (plot_results.create_graph results) in
     ylims t = [(0, 100); (0, 110)] /\
     final_ylim t = Some (0, 110) /\
     Forall (fun l => text_height l = 105%Q /\ inside (0, 110) (text_height l))
            (labels t) /\
     Forall (fun b => exists x0 x1, b = (x0, 104%Q, x1, 104%Q) /\ inside (0, 110) 104)
            (brackets t)) /\
  (forall results, results <> [] ->
     let t := trace (plot.create_graph results) in
     ylims t = [(0, 100)] /\
     final_ylim t = Some (0, 100) /\
     labels t <> [] /\
     Forall (fun l => text_height l = 105%Q /\ ~ inside (0, 100) (text_height l))
            (labels t)).
Proof.
  split; intros results Hne t; subst t.
  - destruct (proj1 drawn_runs results Hne) as (Hl & _).
    unfold final_ylim. rewrite (proj1 ylims_runs results Hne), Hl.
    split; [reflexivity|]. split; [reflexivity|]. split.
    + eapply Forall_impl; [|apply run_label_height].
      intros l ->. split; [reflexivity|]. split; discriminate.
    + rewrite plot_results_create_graph_run by assumption. cbn [trace fst].
      rewrite brackets_plot_results_drawing.
      apply Forall_forall. intros b Hb.
      apply in_map_iff in Hb as ([[s e] c] & <- & _).
      eexists _, _. split; [reflexivity|]. split; discriminate.
  - destruct (proj2 drawn_runs results Hne) as (Hl & _ & Ht & _).
    unfold final_ylim. rewrite (proj2 ylims_runs results Hne), Hl.
    split; [reflexivity|]. split; [reflexivity|]. split.
    + intros E. apply map_eq_nil in E. rewrite E in Ht. cbn in Ht.
      destruct results; [contradiction | cbn in Ht; lia].
    + eapply Forall_impl; [|apply run_label_height].
      intros l ->. split; [reflexivity|]. intros [_ H]. now apply H.
Qed.

Lemma X16_axis_range_witness :
  final_ylim (trace (plot.create_graph plot.simulation_results)) = Some (0, 100) /\
  Forall (fun l => text_height l = 105%Q /\ ~ inside (0, 100) (text_height l))
    (labels (trace (plot.create_graph plot.simulation_results))).
Proof.
  destruct (proj2 X16_axis_range plot.simulation_results) as (_ & H1 & _ & H2);
    [discriminate|].
  split; assumption.
Defined.

Section Lower.





End Lower.




(** ** What the trial counts do not change *)

Lemma map_agree {A B} (R : A -> A -> Prop) (f : A -> B) (l l' : list A) :
  Forall2 R l l' -> (forall x y, R x y -> f x = f y) -> map f l = map f l'.
Proof.
  intros H Hf. induction H as [|x y l l' Hxy _ IH]; [reflexivity|].
  cbn. now rewrite (Hf _ _ Hxy), IH.
Qed.

(** X18.  The trial counts of the entries are not drawn.  Two lists
    for [plot_results.create_graph] whose entries differ at most in
    [trials] give the same prints and the same calls to the drawing
    backend: the lists differ only in the contents of the CSV file.
    Two lists for [plot.create_graph] whose entries differ at most in
    [total_trials] give the same run. *)
Theorem X18_trials_not_drawn :
  (forall results results',
     Forall2 same_but_trials results results' ->
     drawn (trace (plot_results.create_graph results)) =
     drawn (trace (plot_results.create_graph results')) /\
     outcome (plot_results.create_graph results) =
     outcome (plot_results.create_graph results')) /\
  (forall results results',
     Forall2 same_but_total_trials results results' ->
     plot.create_graph results = plot.create_graph results').
Proof.
  split; intros results results' H.
  - assert (Ed : map plot_results.driver results = map plot_results.driver results')
      by (apply (map_agree _ _ _ _ H); intros x y Hxy; apply Hxy).
    assert (Ea : map plot_results.auto_pct results = map plot_results.auto_pct results')
      by (apply (map_agree _ _ _ _ H); intros x y Hxy; apply Hxy).
    assert (Em : map plot_results.manual_pct results
                 = map plot_results.manual_pct results')
      by (apply (map_agree _ _ _ _ H); intros x y Hxy; apply Hxy).
    assert (Ef : map plot_results.failed_pct results
                 = map plot_results.failed_pct results')
      by (apply (map_agree _ _ _ _ H); intros x y Hxy; apply Hxy).
    assert (En : map plot_results.display_name results
                 = map plot_results.display_name results')
      by (apply (map_agree _ _ _ _ H); intros x y Hxy; apply Hxy).
    destruct H as [|r r' rs rs' _ _]; [split; reflexivity|].
    rewrite !plot_results_create_graph_run by discriminate.
    split; [|reflexivity]. cbn [trace fst].
    unfold plot_results_drawing. rewrite Ed, Ea, Em, Ef, En.
    unfold drawn. rewrite !filter_app. reflexivity.
  - assert (Ed : map plot.driver results = map plot.driver results')
      by (apply (map_agree _ _ _ _ H); intros x y Hxy; apply Hxy).
    assert (Ea : map plot.auto_pct results = map plot.auto_pct results')
      by (apply (map_agree _ _ _ _ H); intros x y Hxy; apply Hxy).
    assert (Em : map plot.manual_pct results = map plot.manual_pct results')
      by (apply (map_agree _ _ _ _ H); intros x y Hxy; apply Hxy).
    assert (Ef : map plot.failed_pct results = map plot.failed_pct results')
      by (apply (map_agree _ _ _ _ H); intros x y Hxy; apply Hxy).
    assert (En : map plot.app results = map plot.app results')
      by (apply (map_agree _ _ _ _ H); intros x y Hxy; apply Hxy).
    assert (Es : map (fun r => Print (plot.summary_line r)) results
                 = map (fun r => Print (plot.summary_line r)) results').
    { apply (map_agree _ _ _ _ H).
      intros x y (Hd & _ & Hn & Hau & Hm & Hf).
      unfold plot.summary_line. now rewrite Hd, Hn, Hau, Hm, Hf. }
    destruct H as [|r r' rs rs' _ _]; [reflexivity|].
    rewrite !plot_create_graph_run by discriminate.
    unfold plot_drawing. now rewrite Ed, Ea, Em, Ef, En, Es.
Qed.

Lemma X18_trials_not_drawn_witness :
  drawn (trace (plot_results.create_graph [overfull])) =
  drawn (trace (plot_results.create_graph
                  [plot_results.mk_entry "snd" "mixer" "Mixer" 7 90 30 10])).
Proof.
  apply (proj1 X18_trials_not_drawn [overfull]
           [plot_results.mk_entry "snd" "mixer" "Mixer" 7 90 30 10]).
  repeat constructor.
Defined.

(** ** The script of [plot_results.py] *)

Section Messages.







End Messages.








(** ** From a report to the CSV file *)




(** ** The script of [plot.py] *)



